(** * Facility-listing forms: a shallow embedding of the submit pipeline

    The development follows [cumma/src/app/(auth)/sign-in/page.tsx], which
    holds the sign-in page and the three facility forms
    ([BioAlliedLabsForm], [CoworkingSpacesForm], [RawSpaceLabForm]).

    - [JS]      : the JavaScript values the handlers inspect (numbers with
                  [NaN], strings as UTF-16 code units, truthiness, [trim],
                  [Array.prototype.filter] with its index argument).
    - [Effects] : a small completion monad (normal / return / throw) over
                  the component state, with [try ... catch].
    - [Hook]    : the part of react-hook-form's [useForm] store the
                  handlers touch ([setError], [setValue], [reset]).
    - one module per component, then the theorems. *)

From Stdlib Require Import ZArith NArith Bool.
From stdpp Require Import gmap strings list.

(* ===================================================================== *)
(** ** JavaScript values *)
(* ===================================================================== *)

Module JS.
Local Open Scope Z_scope.

(** A JavaScript [number] as the forms see it: [valueAsNumber] yields
    [NaN] on an empty or malformed input, everything else is a seat
    count, an area, a rupee amount or a row position.  The handlers only
    test numbers for truthiness, order and identity, so the finite values
    are kept as integers; fractions and the infinities are left out. *)
Inductive number : Type :=
| NaN
| Num (z : Z).

#[global] Instance number_eq_dec : EqDecision number.
Proof. solve_decision. Defined.

(** [!!n] *)
Definition truthy (n : number) : bool :=
  match n with
  | NaN => false
  | Num z => negb (z =? 0)
  end.

(** [!!o] for an optional number field ([undefined] is falsy). *)
Definition truthy_opt (o : option number) : bool :=
  match o with
  | Some n => truthy n
  | None => false
  end.

(** [o || 0] for an optional number field. *)
Definition or_zero (o : option number) : number :=
  match o with
  | Some n => if truthy n then n else Num 0
  | None => Num 0
  end.

(** [a > b]: any comparison with [NaN] is false. *)
Definition gt (a b : number) : bool :=
  match a, b with
  | Num x, Num y => y <? x
  | _, _ => false
  end.

(** [a <= b] *)
Definition le (a b : number) : bool :=
  match a, b with
  | Num x, Num y => x <=? y
  | _, _ => false
  end.

(** [Number(n)] applied to a number. *)
Definition Number (n : number) : number := n.

(** [i !== index], where [i] is the position [filter] passes to its
    callback and [index] is any number. *)
Definition strict_neq (i : nat) (index : number) : bool :=
  match index with
  | NaN => true
  | Num z => negb (Z.of_nat i =? z)
  end.

(** Strings of user text are sequences of UTF-16 code units. *)
Definition jsstring : Type := list N.

Definition unit_of_ascii (c : Ascii.ascii) : N := Ascii.N_of_ascii c.

(** Code units of an ASCII literal. *)
Fixpoint js (s : string) : jsstring :=
  match s with
  | EmptyString => []
  | String c s' => unit_of_ascii c :: js s'
  end.

(** [!!s] for a string: only the empty string is falsy. *)
Definition truthy_str (s : jsstring) : bool :=
  match s with
  | [] => false
  | _ :: _ => true
  end.

(** [s || ''] for an optional string. *)
Definition or_empty (o : option jsstring) : jsstring :=
  match o with
  | Some s => s
  | None => []
  end.

(** [a || b] on strings. *)
Definition or_str (a b : jsstring) : jsstring :=
  if truthy_str a then a else b.

(** ECMAScript WhiteSpace and LineTerminator code points, the ones
    [String.prototype.trim] strips; all of them are single code units. *)
Definition is_white_space (c : N) : bool :=
  ((c =? 0x0009) || (c =? 0x000A) || (c =? 0x000B) || (c =? 0x000C)
   || (c =? 0x000D) || (c =? 0x0020) || (c =? 0x00A0) || (c =? 0x1680)
   || ((0x2000 <=? c) && (c <=? 0x200A))
   || (c =? 0x2028) || (c =? 0x2029) || (c =? 0x202F) || (c =? 0x205F)
   || (c =? 0x3000) || (c =? 0xFEFF))%N.

Fixpoint trim_start (s : jsstring) : jsstring :=
  match s with
  | [] => []
  | c :: s' => if is_white_space c then trim_start s' else s
  end.

Definition trim_end (s : jsstring) : jsstring :=
  rev (trim_start (rev s)).

(** [s.trim()] *)
Definition trim (s : jsstring) : jsstring := trim_end (trim_start s).

(** [s.trim() !== ''] *)
Definition non_blank (s : jsstring) : bool := truthy_str (trim s).

(** [l.filter((x, i) => f x i)], the callback receiving positions
    [start], [start + 1], ... *)
Fixpoint filter_from {A : Type} (start : nat) (f : A -> nat -> bool)
         (l : list A) : list A :=
  match l with
  | [] => []
  | x :: l' =>
      if f x start then x :: filter_from (S start) f l'
      else filter_from (S start) f l'
  end.

Definition filter_indexed {A : Type} (f : A -> nat -> bool) (l : list A)
  : list A :=
  filter_from 0 f l.

(** [l.filter((_, i) => i !== index)], the body of both row removers. *)
Definition remove_at {A : Type} (index : number) (l : list A) : list A :=
  filter_indexed (fun _ i => strict_neq i index) l.

(** [l.every(p)] *)
Definition every {A : Type} (p : A -> bool) (l : list A) : bool :=
  forallb p l.

(** [l.length === 0] and [!l.length] *)
Definition is_empty {A : Type} (l : list A) : bool :=
  match l with
  | [] => true
  | _ :: _ => false
  end.

(** [o?.f]: optional chaining into an optional field. *)
Definition opt_chain {A B : Type} (o : option A) (f : A -> option B) : option B :=
  match o with
  | Some a => f a
  | None => None
  end.

(** [o || d] for an optional array (every array, even an empty one, is
    truthy). *)
Definition or_list {A : Type} (o : option (list A)) (d : list A) : list A :=
  match o with
  | Some l => l
  | None => d
  end.

(** [Math.max(a, b)] *)
Definition Math_max (a b : number) : number :=
  match a, b with
  | Num x, Num y => Num (Z.max x y)
  | _, _ => NaN
  end.

(** [a === b] on strings. *)
Definition str_eq (a b : jsstring) : bool := bool_decide (a = b).

(** What [z.number()] accepts among numbers: anything but [NaN]. *)
Definition is_number (n : number) : bool :=
  match n with
  | NaN => false
  | Num _ => true
  end.

(** [z.number().min(k)] *)
Definition number_min (k : Z) (n : number) : bool :=
  match n with
  | NaN => false
  | Num z => k <=? z
  end.

(** [z.number().optional()] *)
Definition number_optional (o : option number) : bool :=
  match o with
  | Some n => is_number n
  | None => true
  end.

(** [z.string().min(1, ...)] *)
Definition string_min1 (s : jsstring) : bool := negb (is_empty s).

(** [z.array(...).min(1, ...)], the elements checked by [item]. *)
Definition array_min1 {A : Type} (item : A -> bool) (l : list A) : bool :=
  forallb item l && negb (is_empty l).

End JS.

(* ===================================================================== *)
(** ** Completions and handlers *)
(* ===================================================================== *)

Module Effects.

(** How a statement list ends: it falls through with a value, it hits a
    [return], or an exception (a rejected [await]) propagates. *)
Inductive Completion (A : Type) : Type :=
| Normal (a : A)
| Return
| Throw.
Arguments Normal {A} a.
Arguments Return {A}.
Arguments Throw {A}.

Definition Eff (W A : Type) : Type := W -> Completion A * W.

Section Ops.
Context {W : Type}.

Definition pure {A} (a : A) : Eff W A := fun w => (Normal a, w).

Definition bind {A B} (m : Eff W A) (k : A -> Eff W B) : Eff W B :=
  fun w =>
    match m w with
    | (Normal a, w') => k a w'
    | (Return, w') => (Return, w')
    | (Throw, w') => (Throw, w')
    end.

Definition return_ {A} : Eff W A := fun w => (Return, w).

Definition throw {A} : Eff W A := fun w => (Throw, w).

Definition modify (f : W -> W) : Eff W unit := fun w => (Normal tt, f w).

(** [if (c) { m }] *)
Definition when (c : bool) (m : Eff W unit) : Eff W unit :=
  if c then m else pure tt.

(** [try { body } catch (error) { handler }] *)
Definition try_catch (body handler : Eff W unit) : Eff W unit :=
  fun w =>
    match body w with
    | (Throw, w') => handler w'
    | r => r
    end.

(** Running a handler to completion: the state it leaves behind. *)
Definition run (m : Eff W unit) (w : W) : W := snd (m w).
End Ops.

Declare Scope eff_scope.
Delimit Scope eff_scope with eff.
Notation "e1 *> e2" := (bind e1 (fun _ => e2))
  (at level 90, right associativity) : eff_scope.

End Effects.

(* ===================================================================== *)
(** ** The react-hook-form store *)
(* ===================================================================== *)

Module Hook.

(** What [useForm] keeps for a form with values of type [V]: the current
    values, the [defaultValues] it was created with, and the error
    message registered per field path (['root'] for the banner). *)
Record UseForm (V : Type) : Type := mkForm {
  values : V;
  defaultValues : V;
  errors : gmap string string;
}.
Arguments mkForm {V}.
Arguments values {V}.
Arguments defaultValues {V}.
Arguments errors {V}.

(** [form.setError(name, { type: 'manual', message })] *)
Definition setError {V} (name message : string) (f : UseForm V) : UseForm V :=
  mkForm (values f) (defaultValues f) (<[name := message]> (errors f)).

(** [form.setValue(field, v)], the field given by its updater. *)
Definition setValue {V} (update : V -> V) (f : UseForm V) : UseForm V :=
  mkForm (update (values f)) (defaultValues f) (errors f).

(** [form.reset()]: back to the default values, errors dropped. *)
Definition reset {V} (f : UseForm V) : UseForm V :=
  mkForm (defaultValues f) (defaultValues f) ∅.

End Hook.

(* ===================================================================== *)
(** ** What the three facility forms share *)
(* ===================================================================== *)

Module Facility.
Import JS Effects.

(** Modelled from the spec: [RENTAL_PLANS] is imported from ['../types'],
    which is not part of the sources at hand; the glossary names the four
    pricing tiers and the handlers switch over exactly these literals. *)
Inductive RentalPlanName : Type :=
| Annual
| Monthly
| Weekly
| OneDay.

#[global] Instance RentalPlanName_eq_dec : EqDecision RentalPlanName.
Proof. solve_decision. Defined.

Definition plan_label (p : RentalPlanName) : string :=
  match p with
  | Annual => "Annual"
  | Monthly => "Monthly"
  | Weekly => "Weekly"
  | OneDay => "One Day (24 Hours)"
  end.

Definition RENTAL_PLANS : list RentalPlanName :=
  [Annual; Monthly; Weekly; OneDay].

(** [p !== plan] *)
Definition plan_neq (p plan : RentalPlanName) : bool :=
  negb (bool_decide (p = plan)).

(** One entry of the payload's [rentalPlans] array. *)
Record RentalPlan : Type := mkRentalPlan {
  name : RentalPlanName;
  price : number;
  duration : RentalPlanName;
}.

(** The pricing fields every [FormValues] type declares. *)
Class RentFields (V : Type) : Type := {
  selectedRentalPlans : V -> list RentalPlanName;
  rentPerYear : V -> option number;
  rentPerMonth : V -> option number;
  rentPerWeek : V -> option number;
  dayPassRent : V -> option number;
}.

Section Rent.
Context {V : Type} {RF : RentFields V}.

(** The price field a plan is switched to in both [switch] statements. *)
Definition rent_field (values : V) (plan : RentalPlanName) : option number :=
  match plan with
  | Annual => rentPerYear values
  | Monthly => rentPerMonth values
  | Weekly => rentPerWeek values
  | OneDay => dayPassRent values
  end.

(** [values.selectedRentalPlans.every(plan => { switch (plan) ...
    return !!values.rentPerX })]; the [default] branch is not reachable
    for a plan of the enumeration. *)
Definition rentValidation (values : V) : bool :=
  every
    (fun plan =>
       match plan with
       | Annual => truthy_opt (rentPerYear values)
       | Monthly => truthy_opt (rentPerMonth values)
       | Weekly => truthy_opt (rentPerWeek values)
       | OneDay => truthy_opt (dayPassRent values)
       end)
    (selectedRentalPlans values).

(** [values.selectedRentalPlans.map(plan => { let price = 0; switch
    (plan) ... price = values.rentPerX || 0 ...; return { name: plan,
    price, duration: plan } })] *)
Definition rentalPlans (values : V) : list RentalPlan :=
  map
    (fun plan =>
       let price :=
         match plan with
         | Annual => or_zero (rentPerYear values)
         | Monthly => or_zero (rentPerMonth values)
         | Weekly => or_zero (rentPerWeek values)
         | OneDay => or_zero (dayPassRent values)
         end in
       {| name := plan; price := price; duration := plan |})
    (selectedRentalPlans values).
End Rent.

(** How the promise returned by [onSubmit] settles. *)
Inductive Settled : Type :=
| Fulfilled
| Rejected.

(** [await onSubmit(data)]: the call is recorded by [record]; a rejected
    promise resumes the handler with a thrown exception. *)
Definition await {W S : Type} (record : S -> W -> W)
           (onSubmit : S -> Settled) (data : S) : Eff W unit :=
  fun w =>
    match onSubmit data with
    | Fulfilled => (Normal tt, record data w)
    | Rejected => (Throw, record data w)
    end.

(** Radix [CheckedState], the argument of [onCheckedChange]. *)
Inductive CheckedState : Type :=
| Checked (b : bool)
| Indeterminate.

(** [if (checked)]: ['indeterminate'] is a non-empty string. *)
Definition is_checked (c : CheckedState) : bool :=
  match c with
  | Checked b => b
  | Indeterminate => true
  end.

Definition msg_no_images : string := "Please upload at least one image".
Definition msg_no_plans : string := "Please select at least one rental plan".
Definition msg_no_rent : string :=
  "Please provide rent values for all selected rental plans".
Definition msg_failed : string := "Failed to submit form. Please try again.".

(** [l.includes(plan)] *)
Definition includes (plan : RentalPlanName) (l : list RentalPlanName) : bool :=
  existsb (fun p => bool_decide (p = plan)) l.

(** [initialData?.rentalPlans?.map((plan) => plan.name) || []] *)
Definition initial_plans (rentalPlans : option (list RentalPlan))
  : list RentalPlanName :=
  or_list (option_map (map name) rentalPlans) [].

(** [initialData?.rentalPlans?.find((plan) => plan.name === label)?.price
    || undefined], for the label of [plan]. *)
Definition initial_rent (rentalPlans : option (list RentalPlan))
           (plan : RentalPlanName) : option number :=
  match opt_chain rentalPlans
          (List.find (fun p => bool_decide (name p = plan))) with
  | Some p => if truthy (price p) then Some (price p) else None
  | None => None
  end.

(** The rent part of the three [formSchema]s: [selectedRentalPlans] is
    [z.array(z.enum(RENTAL_PLANS)).min(1, ...)] and each price is
    [z.number().optional()]. *)
Definition rent_schema {V : Type} {RF : RentFields V} (values : V) : bool :=
  array_min1 (fun _ => true) (selectedRentalPlans values)
  && number_optional (rentPerYear values)
  && number_optional (rentPerMonth values)
  && number_optional (rentPerWeek values)
  && number_optional (dayPassRent values).

End Facility.

(* ===================================================================== *)
(** ** BioAlliedLabsForm *)
(* ===================================================================== *)

Module BioAlliedLabs.
Import JS Effects Hook Facility.
Local Open Scope eff_scope.

Record Equipment : Type := mkEquipment {
  labName : jsstring;
  equipmentName : jsstring;
  capacityAndMake : jsstring;
}.

(** [{ labName: '', equipmentName: '', capacityAndMake: '' }] *)
Definition blank_equipment : Equipment := mkEquipment [] [] [].

(** [z.infer<typeof formSchema>] *)
Module FormValues.
Record t : Type := mk {
  name : jsstring;
  description : jsstring;
  images : list jsstring;
  videoLink : option jsstring;
  selectedRentalPlans : list RentalPlanName;
  equipment : list Equipment;
  rentPerYear : option number;
  rentPerMonth : option number;
  rentPerWeek : option number;
  dayPassRent : option number;
}.
End FormValues.

#[global] Instance rent_fields : RentFields FormValues.t := {|
  Facility.selectedRentalPlans := FormValues.selectedRentalPlans;
  Facility.rentPerYear := FormValues.rentPerYear;
  Facility.rentPerMonth := FormValues.rentPerMonth;
  Facility.rentPerWeek := FormValues.rentPerWeek;
  Facility.dayPassRent := FormValues.dayPassRent;
|}.

(** The object literal [submissionData]. *)
Module Submission.
Record t : Type := mk {
  type : string;
  name : jsstring;
  description : jsstring;
  images : list jsstring;
  videoLink : jsstring;
  equipment : list Equipment;
  rentalPlans : list RentalPlan;
  rentPerYear : option number;
  rentPerMonth : option number;
  rentPerWeek : option number;
  dayPassRent : option number;
}.
End Submission.

(** The component between two renders: the [useForm] store, the two
    [useState] cells, and what the props callbacks have received
    ([onSubmit] payloads, oldest first, and the number of [onChange]
    notifications). *)
Record Component : Type := mkComponent {
  form : UseForm FormValues.t;
  images : list jsstring;
  equipment : list Equipment;
  submitted : list Submission.t;
  changes : nat;
}.

Definition on_form (f : UseForm FormValues.t -> UseForm FormValues.t)
  : Eff Component unit :=
  modify (fun w =>
    mkComponent (f (form w)) (images w) (equipment w) (submitted w) (changes w)).

Definition setImages (v : list jsstring) : Eff Component unit :=
  modify (fun w =>
    mkComponent (form w) v (equipment w) (submitted w) (changes w)).

Definition setEquipment (v : list Equipment) : Eff Component unit :=
  modify (fun w =>
    mkComponent (form w) (images w) v (submitted w) (changes w)).

Definition record_submission (data : Submission.t) (w : Component) : Component :=
  mkComponent (form w) (images w) (equipment w) (submitted w ++ [data]) (changes w).

(** [onChange?.()] *)
Definition onChange : Eff Component unit :=
  modify (fun w =>
    mkComponent (form w) (images w) (equipment w) (submitted w) (S (changes w))).

Definition set_equipment (v : list Equipment) (x : FormValues.t) : FormValues.t :=
  FormValues.mk (FormValues.name x) (FormValues.description x)
    (FormValues.images x) (FormValues.videoLink x)
    (FormValues.selectedRentalPlans x) v
    (FormValues.rentPerYear x) (FormValues.rentPerMonth x)
    (FormValues.rentPerWeek x) (FormValues.dayPassRent x).

Definition set_selectedRentalPlans (v : list RentalPlanName) (x : FormValues.t)
  : FormValues.t :=
  FormValues.mk (FormValues.name x) (FormValues.description x)
    (FormValues.images x) (FormValues.videoLink x)
    v (FormValues.equipment x)
    (FormValues.rentPerYear x) (FormValues.rentPerMonth x)
    (FormValues.rentPerWeek x) (FormValues.dayPassRent x).

(** [addEquipment] *)
Definition addEquipment : Eff Component unit :=
  fun w =>
    let equipment := equipment w in
    (setEquipment (equipment ++ [blank_equipment]) *>
     fun w' =>
       let currentEquipment := FormValues.equipment (values (form w')) in
       on_form (setValue (set_equipment (currentEquipment ++ [blank_equipment]))) w') w.

(** [removeEquipment] *)
Definition removeEquipment (index : number) : Eff Component unit :=
  fun w =>
    let equipment := equipment w in
    let newEquipment := remove_at index equipment in
    (setEquipment newEquipment *>
     fun w' =>
       let currentEquipment := FormValues.equipment (values (form w')) in
       on_form (setValue (set_equipment (remove_at index currentEquipment))) w') w.

(** The rental-plan [Checkbox]'s [onCheckedChange] for [plan]. *)
Definition onCheckedChange (plan : RentalPlanName) (checked : CheckedState)
  : Eff Component unit :=
  fun w =>
    let value := FormValues.selectedRentalPlans (values (form w)) in
    ((if is_checked checked
      then on_form (setValue (set_selectedRentalPlans (value ++ [plan])))
      else on_form (setValue (set_selectedRentalPlans
                                (List.filter (fun p => plan_neq p plan) value)))) *>
     onChange) w.

(** [eq.labName.trim() !== '' && eq.equipmentName.trim() !== '' &&
    eq.capacityAndMake.trim() !== ''] *)
Definition complete (eq : Equipment) : bool :=
  non_blank (labName eq) && non_blank (equipmentName eq)
  && non_blank (capacityAndMake eq).

Definition submissionData (images : list jsstring)
           (validEquipment : list Equipment) (values : FormValues.t)
  : Submission.t :=
  {| Submission.type := "bio-allied-labs";
     Submission.name := FormValues.name values;
     Submission.description := FormValues.description values;
     Submission.images := images;
     Submission.videoLink := or_empty (FormValues.videoLink values);
     Submission.equipment :=
       map (fun eq => {| labName := labName eq;
                         equipmentName := equipmentName eq;
                         capacityAndMake := capacityAndMake eq |})
           validEquipment;
     Submission.rentalPlans := rentalPlans values;
     Submission.rentPerYear := FormValues.rentPerYear values;
     Submission.rentPerMonth := FormValues.rentPerMonth values;
     Submission.rentPerWeek := FormValues.rentPerWeek values;
     Submission.dayPassRent := FormValues.dayPassRent values |}.

(** [handleFormSubmit] *)
Definition handleFormSubmit (onSubmit : Submission.t -> Settled)
           (values : FormValues.t) : Eff Component unit :=
  fun w =>
    let images := images w in
    try_catch
      (when (is_empty images)
         (on_form (setError "root" msg_no_images) *> return_) *>
       let validEquipment := List.filter complete (FormValues.equipment values) in
       when (is_empty validEquipment)
         (on_form (setError "root"
                     "Please add at least one equipment with all fields filled") *>
          return_) *>
       when (is_empty (FormValues.selectedRentalPlans values))
         (on_form (setError "root" msg_no_plans) *> return_) *>
       when (negb (rentValidation values))
         (on_form (setError "root" msg_no_rent) *> return_) *>
       await record_submission onSubmit
         (submissionData images validEquipment values) *>
       on_form reset *>
       setImages [] *>
       setEquipment [blank_equipment] *>
       onChange)
      (on_form (setError "root" msg_failed))
      w.

(** The fields of [initialData] the component reads; each may be absent. *)
Module InitialData.
Record t : Type := mk {
  name : option jsstring;
  description : option jsstring;
  images : option (list jsstring);
  videoLink : option jsstring;
  rentalPlans : option (list RentalPlan);
  equipment : option (list Equipment);
}.
End InitialData.

(** The [defaultValues] handed to [useForm]. *)
Definition defaultValues (initialData : option InitialData.t) : FormValues.t :=
  let rentalPlans := opt_chain initialData InitialData.rentalPlans in
  {| FormValues.name := or_empty (opt_chain initialData InitialData.name);
     FormValues.description := or_empty (opt_chain initialData InitialData.description);
     FormValues.images := or_list (opt_chain initialData InitialData.images) [];
     FormValues.videoLink :=
       Some (or_empty (opt_chain initialData InitialData.videoLink));
     FormValues.selectedRentalPlans := initial_plans rentalPlans;
     FormValues.equipment :=
       or_list (opt_chain initialData InitialData.equipment) [blank_equipment];
     FormValues.rentPerYear := initial_rent rentalPlans Annual;
     FormValues.rentPerMonth := initial_rent rentalPlans Monthly;
     FormValues.rentPerWeek := initial_rent rentalPlans Weekly;
     FormValues.dayPassRent := initial_rent rentalPlans OneDay |}.

(** The component at its first render: the two [useState] initialisers
    and the [useForm] store, nothing submitted or notified yet. *)
Definition mount (initialData : option InitialData.t) : Component :=
  mkComponent
    (mkForm (defaultValues initialData) (defaultValues initialData) ∅)
    (or_list (opt_chain initialData InitialData.images) [])
    (or_list (opt_chain initialData InitialData.equipment) [blank_equipment])
    [] 0.

Definition set_images (v : list jsstring) (x : FormValues.t) : FormValues.t :=
  FormValues.mk (FormValues.name x) (FormValues.description x)
    v (FormValues.videoLink x)
    (FormValues.selectedRentalPlans x) (FormValues.equipment x)
    (FormValues.rentPerYear x) (FormValues.rentPerMonth x)
    (FormValues.rentPerWeek x) (FormValues.dayPassRent x).

(** [handleImageUpload] *)
Definition handleImageUpload (newImages : list jsstring) : Eff Component unit :=
  setImages newImages *>
  on_form (setValue (set_images newImages)) *>
  onChange.

(** The [onRemove] callback of [ImageUpload]. *)
Definition onRemove (url : jsstring) : Eff Component unit :=
  fun w =>
    let newImages := List.filter (fun image => negb (str_eq image url)) (images w) in
    handleImageUpload newImages w.

(** Whether [formSchema] accepts the values. *)
Definition formSchema (values : FormValues.t) : bool :=
  string_min1 (FormValues.name values)
  && string_min1 (FormValues.description values)
  && array_min1 (fun _ => true) (FormValues.images values)
  && array_min1
       (fun eq => string_min1 (labName eq) && string_min1 (equipmentName eq)
                  && string_min1 (capacityAndMake eq))
       (FormValues.equipment values)
  && rent_schema values.

Definition set_name (v : jsstring) (x : FormValues.t) : FormValues.t :=
  FormValues.mk v (FormValues.description x)
    (FormValues.images x) (FormValues.videoLink x)
    (FormValues.selectedRentalPlans x) (FormValues.equipment x)
    (FormValues.rentPerYear x) (FormValues.rentPerMonth x)
    (FormValues.rentPerWeek x) (FormValues.dayPassRent x).

Definition set_description (v : jsstring) (x : FormValues.t) : FormValues.t :=
  FormValues.mk (FormValues.name x) v
    (FormValues.images x) (FormValues.videoLink x)
    (FormValues.selectedRentalPlans x) (FormValues.equipment x)
    (FormValues.rentPerYear x) (FormValues.rentPerMonth x)
    (FormValues.rentPerWeek x) (FormValues.dayPassRent x).

Definition set_videoLink (v : option jsstring) (x : FormValues.t) : FormValues.t :=
  FormValues.mk (FormValues.name x) (FormValues.description x)
    (FormValues.images x) v
    (FormValues.selectedRentalPlans x) (FormValues.equipment x)
    (FormValues.rentPerYear x) (FormValues.rentPerMonth x)
    (FormValues.rentPerWeek x) (FormValues.dayPassRent x).

Definition set_rentPerYear (v : option number) (x : FormValues.t) : FormValues.t :=
  FormValues.mk (FormValues.name x) (FormValues.description x)
    (FormValues.images x) (FormValues.videoLink x)
    (FormValues.selectedRentalPlans x) (FormValues.equipment x)
    v (FormValues.rentPerMonth x)
    (FormValues.rentPerWeek x) (FormValues.dayPassRent x).

Definition set_rentPerMonth (v : option number) (x : FormValues.t) : FormValues.t :=
  FormValues.mk (FormValues.name x) (FormValues.description x)
    (FormValues.images x) (FormValues.videoLink x)
    (FormValues.selectedRentalPlans x) (FormValues.equipment x)
    (FormValues.rentPerYear x) v
    (FormValues.rentPerWeek x) (FormValues.dayPassRent x).

Definition set_rentPerWeek (v : option number) (x : FormValues.t) : FormValues.t :=
  FormValues.mk (FormValues.name x) (FormValues.description x)
    (FormValues.images x) (FormValues.videoLink x)
    (FormValues.selectedRentalPlans x) (FormValues.equipment x)
    (FormValues.rentPerYear x) (FormValues.rentPerMonth x)
    v (FormValues.dayPassRent x).

Definition set_dayPassRent (v : option number) (x : FormValues.t) : FormValues.t :=
  FormValues.mk (FormValues.name x) (FormValues.description x)
    (FormValues.images x) (FormValues.videoLink x)
    (FormValues.selectedRentalPlans x) (FormValues.equipment x)
    (FormValues.rentPerYear x) (FormValues.rentPerMonth x)
    (FormValues.rentPerWeek x) v.

(** The [onChange] that [{...field}] gives the [name], [description] and
    [videoLink] inputs: the input's text is stored in the form. *)
Definition onNameChange (text : jsstring) : Eff Component unit :=
  on_form (setValue (set_name text)).

Definition onDescriptionChange (text : jsstring) : Eff Component unit :=
  on_form (setValue (set_description text)).

Definition onVideoLinkChange (text : jsstring) : Eff Component unit :=
  on_form (setValue (set_videoLink (Some text))).

(** The [onChange] of the price input rendered for [plan]:
    [field.onChange(e.target.valueAsNumber)]. *)
Definition onRentChange (plan : RentalPlanName) (valueAsNumber : number)
  : Eff Component unit :=
  match plan with
  | Annual => on_form (setValue (set_rentPerYear (Some valueAsNumber)))
  | Monthly => on_form (setValue (set_rentPerMonth (Some valueAsNumber)))
  | Weekly => on_form (setValue (set_rentPerWeek (Some valueAsNumber)))
  | OneDay => on_form (setValue (set_dayPassRent (Some valueAsNumber)))
  end.

(** The three inputs of an equipment row. *)
Inductive RowField : Type :=
| LabName
| EquipmentName
| CapacityAndMake.

Definition write_row (field : RowField) (text : jsstring) (row : Equipment)
  : Equipment :=
  match field with
  | LabName => mkEquipment text (equipmentName row) (capacityAndMake row)
  | EquipmentName => mkEquipment (labName row) text (capacityAndMake row)
  | CapacityAndMake => mkEquipment (labName row) (equipmentName row) text
  end.

(** [equipment.map((_, index) => ...)]: the inputs of row [index] are
    rendered for the positions of the local list. *)
Definition row_rendered (index : nat) (w : Component) : bool :=
  Nat.ltb index (length (equipment w)).

(** The [onChange] of the input named [equipment.${index}.<field>]: it
    writes the form's array and leaves the local list alone.  At a position
    the array does not have, react-hook-form would create the path; here
    the write is then dropped, and the properties below use the operation
    only at positions the array has. *)
Definition onRowChange (index : nat) (field : RowField) (text : jsstring)
  : Eff Component unit :=
  fun w =>
    let rows := FormValues.equipment (values (form w)) in
    on_form (setValue (set_equipment (alter (write_row field text) index rows))) w.

End BioAlliedLabs.

(* ===================================================================== *)
(** ** CoworkingSpacesForm *)
(* ===================================================================== *)

Module CoworkingSpaces.
Import JS Effects Hook Facility.
Local Open Scope eff_scope.

(** [z.infer<typeof formSchema>] *)
Module FormValues.
Record t : Type := mk {
  name : jsstring;
  description : jsstring;
  images : list jsstring;
  videoLink : option jsstring;
  selectedRentalPlans : list RentalPlanName;
  totalSeats : number;
  availableSeats : number;
  rentPerYear : option number;
  rentPerMonth : option number;
  rentPerWeek : option number;
  dayPassRent : option number;
}.
End FormValues.

#[global] Instance rent_fields : RentFields FormValues.t := {|
  Facility.selectedRentalPlans := FormValues.selectedRentalPlans;
  Facility.rentPerYear := FormValues.rentPerYear;
  Facility.rentPerMonth := FormValues.rentPerMonth;
  Facility.rentPerWeek := FormValues.rentPerWeek;
  Facility.dayPassRent := FormValues.dayPassRent;
|}.

(** The object literal [submissionData]. *)
Module Submission.
Record t : Type := mk {
  type : string;
  name : jsstring;
  description : jsstring;
  images : list jsstring;
  videoLink : jsstring;
  totalSeats : number;
  availableSeats : number;
  rentalPlans : list RentalPlan;
}.
End Submission.

(** The [useForm] store, the [images] cell, and what [onSubmit] and
    [onChange] have received. *)
Record Component : Type := mkComponent {
  form : UseForm FormValues.t;
  images : list jsstring;
  submitted : list Submission.t;
  changes : nat;
}.

Definition on_form (f : UseForm FormValues.t -> UseForm FormValues.t)
  : Eff Component unit :=
  modify (fun w => mkComponent (f (form w)) (images w) (submitted w) (changes w)).

Definition setImages (v : list jsstring) : Eff Component unit :=
  modify (fun w => mkComponent (form w) v (submitted w) (changes w)).

Definition record_submission (data : Submission.t) (w : Component) : Component :=
  mkComponent (form w) (images w) (submitted w ++ [data]) (changes w).

(** [onChange?.()] *)
Definition onChange : Eff Component unit :=
  modify (fun w => mkComponent (form w) (images w) (submitted w) (S (changes w))).

Definition set_selectedRentalPlans (v : list RentalPlanName) (x : FormValues.t)
  : FormValues.t :=
  FormValues.mk (FormValues.name x) (FormValues.description x)
    (FormValues.images x) (FormValues.videoLink x) v
    (FormValues.totalSeats x) (FormValues.availableSeats x)
    (FormValues.rentPerYear x) (FormValues.rentPerMonth x)
    (FormValues.rentPerWeek x) (FormValues.dayPassRent x).

Definition set_rentPerYear (v : option number) (x : FormValues.t) : FormValues.t :=
  FormValues.mk (FormValues.name x) (FormValues.description x)
    (FormValues.images x) (FormValues.videoLink x)
    (FormValues.selectedRentalPlans x)
    (FormValues.totalSeats x) (FormValues.availableSeats x)
    v (FormValues.rentPerMonth x)
    (FormValues.rentPerWeek x) (FormValues.dayPassRent x).

Definition set_rentPerMonth (v : option number) (x : FormValues.t) : FormValues.t :=
  FormValues.mk (FormValues.name x) (FormValues.description x)
    (FormValues.images x) (FormValues.videoLink x)
    (FormValues.selectedRentalPlans x)
    (FormValues.totalSeats x) (FormValues.availableSeats x)
    (FormValues.rentPerYear x) v
    (FormValues.rentPerWeek x) (FormValues.dayPassRent x).

Definition set_rentPerWeek (v : option number) (x : FormValues.t) : FormValues.t :=
  FormValues.mk (FormValues.name x) (FormValues.description x)
    (FormValues.images x) (FormValues.videoLink x)
    (FormValues.selectedRentalPlans x)
    (FormValues.totalSeats x) (FormValues.availableSeats x)
    (FormValues.rentPerYear x) (FormValues.rentPerMonth x)
    v (FormValues.dayPassRent x).

Definition set_dayPassRent (v : option number) (x : FormValues.t) : FormValues.t :=
  FormValues.mk (FormValues.name x) (FormValues.description x)
    (FormValues.images x) (FormValues.videoLink x)
    (FormValues.selectedRentalPlans x)
    (FormValues.totalSeats x) (FormValues.availableSeats x)
    (FormValues.rentPerYear x) (FormValues.rentPerMonth x)
    (FormValues.rentPerWeek x) v.

(** The rental-plan [Checkbox]'s [onCheckedChange] for [plan]. *)
Definition onCheckedChange (plan : RentalPlanName) (checked : CheckedState)
  : Eff Component unit :=
  fun w =>
    let value := FormValues.selectedRentalPlans (values (form w)) in
    let updatedPlans :=
      if is_checked checked
      then value ++ [plan]
      else List.filter (fun p => plan_neq p plan) value in
    (on_form (setValue (set_selectedRentalPlans updatedPlans)) *>
     when (negb (is_checked checked))
       match plan with
       | Annual => on_form (setValue (set_rentPerYear None))
       | Monthly => on_form (setValue (set_rentPerMonth None))
       | Weekly => on_form (setValue (set_rentPerWeek None))
       | OneDay => on_form (setValue (set_dayPassRent None))
       end) w.

Definition submissionData (images : list jsstring) (values : FormValues.t)
  : Submission.t :=
  {| Submission.type := "coworking-spaces";
     Submission.name := FormValues.name values;
     Submission.description := FormValues.description values;
     Submission.images := images;
     Submission.videoLink := or_empty (FormValues.videoLink values);
     Submission.totalSeats := Number (FormValues.totalSeats values);
     Submission.availableSeats := Number (FormValues.availableSeats values);
     Submission.rentalPlans := rentalPlans values |}.

(** [handleFormSubmit] *)
Definition handleFormSubmit (onSubmit : Submission.t -> Settled)
           (values : FormValues.t) : Eff Component unit :=
  fun w =>
    let images := images w in
    try_catch
      (when (is_empty images)
         (on_form (setError "root" msg_no_images) *> return_) *>
       when (is_empty (FormValues.selectedRentalPlans values))
         (on_form (setError "root" msg_no_plans) *> return_) *>
       when (negb (rentValidation values))
         (on_form (setError "root" msg_no_rent) *> return_) *>
       when (le (FormValues.totalSeats values) (Num 0))
         (on_form (setError "totalSeats" "Total seats must be greater than 0") *>
          return_) *>
       when (gt (FormValues.availableSeats values) (FormValues.totalSeats values))
         (on_form (setError "availableSeats"
                     "Available seats cannot exceed total seats") *>
          return_) *>
       await record_submission onSubmit (submissionData images values) *>
       on_form reset *>
       setImages [] *>
       onChange)
      (on_form (setError "root" msg_failed))
      w.

(** The fields of [initialData] the component reads; each may be absent. *)
Module InitialData.
Record t : Type := mk {
  name : option jsstring;
  description : option jsstring;
  images : option (list jsstring);
  videoLink : option jsstring;
  rentalPlans : option (list RentalPlan);
  totalSeats : option number;
  availableSeats : option number;
}.
End InitialData.

(** The [defaultValues] handed to [useForm]. *)
Definition defaultValues (initialData : option InitialData.t) : FormValues.t :=
  let rentalPlans := opt_chain initialData InitialData.rentalPlans in
  {| FormValues.name := or_empty (opt_chain initialData InitialData.name);
     FormValues.description := or_empty (opt_chain initialData InitialData.description);
     FormValues.images := or_list (opt_chain initialData InitialData.images) [];
     FormValues.videoLink :=
       Some (or_empty (opt_chain initialData InitialData.videoLink));
     FormValues.selectedRentalPlans := initial_plans rentalPlans;
     FormValues.totalSeats := or_zero (opt_chain initialData InitialData.totalSeats);
     FormValues.availableSeats :=
       or_zero (opt_chain initialData InitialData.availableSeats);
     FormValues.rentPerYear := initial_rent rentalPlans Annual;
     FormValues.rentPerMonth := initial_rent rentalPlans Monthly;
     FormValues.rentPerWeek := initial_rent rentalPlans Weekly;
     FormValues.dayPassRent := initial_rent rentalPlans OneDay |}.

(** The component at its first render. *)
Definition mount (initialData : option InitialData.t) : Component :=
  mkComponent
    (mkForm (defaultValues initialData) (defaultValues initialData) ∅)
    (or_list (opt_chain initialData InitialData.images) [])
    [] 0.

Definition set_images (v : list jsstring) (x : FormValues.t) : FormValues.t :=
  FormValues.mk (FormValues.name x) (FormValues.description x)
    v (FormValues.videoLink x)
    (FormValues.selectedRentalPlans x)
    (FormValues.totalSeats x) (FormValues.availableSeats x)
    (FormValues.rentPerYear x) (FormValues.rentPerMonth x)
    (FormValues.rentPerWeek x) (FormValues.dayPassRent x).

Definition set_totalSeats (v : number) (x : FormValues.t) : FormValues.t :=
  FormValues.mk (FormValues.name x) (FormValues.description x)
    (FormValues.images x) (FormValues.videoLink x)
    (FormValues.selectedRentalPlans x)
    v (FormValues.availableSeats x)
    (FormValues.rentPerYear x) (FormValues.rentPerMonth x)
    (FormValues.rentPerWeek x) (FormValues.dayPassRent x).

Definition set_availableSeats (v : number) (x : FormValues.t) : FormValues.t :=
  FormValues.mk (FormValues.name x) (FormValues.description x)
    (FormValues.images x) (FormValues.videoLink x)
    (FormValues.selectedRentalPlans x)
    (FormValues.totalSeats x) v
    (FormValues.rentPerYear x) (FormValues.rentPerMonth x)
    (FormValues.rentPerWeek x) (FormValues.dayPassRent x).

(** [handleImageUpload] *)
Definition handleImageUpload (newImages : list jsstring) : Eff Component unit :=
  setImages newImages *>
  on_form (setValue (set_images newImages)) *>
  onChange.

(** The [onRemove] callback of [ImageUpload]. *)
Definition onRemove (url : jsstring) : Eff Component unit :=
  fun w =>
    let newImages := List.filter (fun image => negb (str_eq image url)) (images w) in
    handleImageUpload newImages w.

(** [e.target.value === '' ? 0 : Math.max(0, Number(e.target.value))],
    the value every number input of this form stores; [to_number] is
    [Number] applied to the input's text. *)
Definition input_value (to_number : jsstring -> number) (text : jsstring) : number :=
  if is_empty text then Num 0 else Math_max (Num 0) (to_number text).

(** The [onChange] of the two seat inputs. *)
Definition onTotalSeatsChange (to_number : jsstring -> number) (text : jsstring)
  : Eff Component unit :=
  on_form (setValue (set_totalSeats (input_value to_number text))).

Definition onAvailableSeatsChange (to_number : jsstring -> number) (text : jsstring)
  : Eff Component unit :=
  on_form (setValue (set_availableSeats (input_value to_number text))).

(** The [onChange] of the price input rendered for [plan]. *)
Definition onRentChange (to_number : jsstring -> number) (plan : RentalPlanName)
           (text : jsstring) : Eff Component unit :=
  let value := input_value to_number text in
  match plan with
  | Annual => on_form (setValue (set_rentPerYear (Some value)))
  | Monthly => on_form (setValue (set_rentPerMonth (Some value)))
  | Weekly => on_form (setValue (set_rentPerWeek (Some value)))
  | OneDay => on_form (setValue (set_dayPassRent (Some value)))
  end.

(** [selectedRentalPlans.includes(plan)], the condition under which the
    price input of [plan] is rendered. *)
Definition rent_input_shown (plan : RentalPlanName) (w : Component) : bool :=
  includes plan (FormValues.selectedRentalPlans (values (form w))).

(** Whether [formSchema] accepts the values. *)
Definition formSchema (values : FormValues.t) : bool :=
  string_min1 (FormValues.name values)
  && string_min1 (FormValues.description values)
  && array_min1 (fun _ => true) (FormValues.images values)
  && number_min 1 (FormValues.totalSeats values)
  && number_min 0 (FormValues.availableSeats values)
  && rent_schema values.

Definition set_name (v : jsstring) (x : FormValues.t) : FormValues.t :=
  FormValues.mk v (FormValues.description x)
    (FormValues.images x) (FormValues.videoLink x)
    (FormValues.selectedRentalPlans x)
    (FormValues.totalSeats x) (FormValues.availableSeats x)
    (FormValues.rentPerYear x) (FormValues.rentPerMonth x)
    (FormValues.rentPerWeek x) (FormValues.dayPassRent x).

Definition set_description (v : jsstring) (x : FormValues.t) : FormValues.t :=
  FormValues.mk (FormValues.name x) v
    (FormValues.images x) (FormValues.videoLink x)
    (FormValues.selectedRentalPlans x)
    (FormValues.totalSeats x) (FormValues.availableSeats x)
    (FormValues.rentPerYear x) (FormValues.rentPerMonth x)
    (FormValues.rentPerWeek x) (FormValues.dayPassRent x).

Definition set_videoLink (v : option jsstring) (x : FormValues.t) : FormValues.t :=
  FormValues.mk (FormValues.name x) (FormValues.description x)
    (FormValues.images x) v
    (FormValues.selectedRentalPlans x)
    (FormValues.totalSeats x) (FormValues.availableSeats x)
    (FormValues.rentPerYear x) (FormValues.rentPerMonth x)
    (FormValues.rentPerWeek x) (FormValues.dayPassRent x).

(** The [onChange] that [{...field}] gives the [name], [description] and
    [videoLink] inputs: the input's text is stored in the form. *)
Definition onNameChange (text : jsstring) : Eff Component unit :=
  on_form (setValue (set_name text)).

Definition onDescriptionChange (text : jsstring) : Eff Component unit :=
  on_form (setValue (set_description text)).

Definition onVideoLinkChange (text : jsstring) : Eff Component unit :=
  on_form (setValue (set_videoLink (Some text))).

End CoworkingSpaces.

(* ===================================================================== *)
(** ** RawSpaceLabForm *)
(* ===================================================================== *)

Module RawSpaceLab.
Import JS Effects Hook Facility.
Local Open Scope eff_scope.

Inductive AreaType : Type := Covered | Uncovered.
Inductive Furnishing : Type := Furnished | NotFurnished.
Inductive Customisation : Type := OpenToCustomisation | CannotBeCustomised.

Definition AreaType_label (t : AreaType) : jsstring :=
  match t with
  | Covered => js "Covered"
  | Uncovered => js "Uncovered"
  end.

Definition Furnishing_label (f : Furnishing) : jsstring :=
  match f with
  | Furnished => js "Furnished"
  | NotFurnished => js "Not Furnished"
  end.

Definition Customisation_label (c : Customisation) : jsstring :=
  match c with
  | OpenToCustomisation => js "Open to Customisation"
  | CannotBeCustomised => js "Cannot be Customised"
  end.

(** [interface AreaDetail] *)
Record AreaDetail : Type := mkAreaDetail {
  area : number;
  type : AreaType;
  furnishing : Furnishing;
  customisation : Customisation;
}.

(** [{ area: 0, type: 'Covered', furnishing: 'Not Furnished',
    customisation: 'Open to Customisation' }] *)
Definition blank_area : AreaDetail :=
  mkAreaDetail (Num 0) Covered NotFurnished OpenToCustomisation.

(** [z.infer<typeof formSchema>] *)
Module FormValues.
Record t : Type := mk {
  name : jsstring;
  description : jsstring;
  images : list jsstring;
  videoLink : option jsstring;
  selectedRentalPlans : list RentalPlanName;
  areaDetails : list AreaDetail;
  rentPerYear : option number;
  rentPerMonth : option number;
  rentPerWeek : option number;
  dayPassRent : option number;
}.
End FormValues.

#[global] Instance rent_fields : RentFields FormValues.t := {|
  Facility.selectedRentalPlans := FormValues.selectedRentalPlans;
  Facility.rentPerYear := FormValues.rentPerYear;
  Facility.rentPerMonth := FormValues.rentPerMonth;
  Facility.rentPerWeek := FormValues.rentPerWeek;
  Facility.dayPassRent := FormValues.dayPassRent;
|}.

(** The object literal [submissionData]. *)
Module Submission.
Record t : Type := mk {
  type : string;
  name : jsstring;
  description : jsstring;
  images : list jsstring;
  videoLink : jsstring;
  areaDetails : list AreaDetail;
  rentalPlans : list RentalPlan;
}.
End Submission.

(** The [useForm] store, the two [useState] cells, and what [onSubmit]
    and [onChange] have received. *)
Record Component : Type := mkComponent {
  form : UseForm FormValues.t;
  images : list jsstring;
  areaDetails : list AreaDetail;
  submitted : list Submission.t;
  changes : nat;
}.

Definition on_form (f : UseForm FormValues.t -> UseForm FormValues.t)
  : Eff Component unit :=
  modify (fun w =>
    mkComponent (f (form w)) (images w) (areaDetails w) (submitted w) (changes w)).

Definition setImages (v : list jsstring) : Eff Component unit :=
  modify (fun w =>
    mkComponent (form w) v (areaDetails w) (submitted w) (changes w)).

Definition setAreaDetails (v : list AreaDetail) : Eff Component unit :=
  modify (fun w =>
    mkComponent (form w) (images w) v (submitted w) (changes w)).

Definition record_submission (data : Submission.t) (w : Component) : Component :=
  mkComponent (form w) (images w) (areaDetails w) (submitted w ++ [data]) (changes w).

(** [onChange?.()] *)
Definition onChange : Eff Component unit :=
  modify (fun w =>
    mkComponent (form w) (images w) (areaDetails w) (submitted w) (S (changes w))).

Definition set_areaDetails (v : list AreaDetail) (x : FormValues.t) : FormValues.t :=
  FormValues.mk (FormValues.name x) (FormValues.description x)
    (FormValues.images x) (FormValues.videoLink x)
    (FormValues.selectedRentalPlans x) v
    (FormValues.rentPerYear x) (FormValues.rentPerMonth x)
    (FormValues.rentPerWeek x) (FormValues.dayPassRent x).

Definition set_selectedRentalPlans (v : list RentalPlanName) (x : FormValues.t)
  : FormValues.t :=
  FormValues.mk (FormValues.name x) (FormValues.description x)
    (FormValues.images x) (FormValues.videoLink x) v
    (FormValues.areaDetails x)
    (FormValues.rentPerYear x) (FormValues.rentPerMonth x)
    (FormValues.rentPerWeek x) (FormValues.dayPassRent x).

Definition set_rentPerYear (v : option number) (x : FormValues.t) : FormValues.t :=
  FormValues.mk (FormValues.name x) (FormValues.description x)
    (FormValues.images x) (FormValues.videoLink x)
    (FormValues.selectedRentalPlans x) (FormValues.areaDetails x)
    v (FormValues.rentPerMonth x)
    (FormValues.rentPerWeek x) (FormValues.dayPassRent x).

Definition set_rentPerMonth (v : option number) (x : FormValues.t) : FormValues.t :=
  FormValues.mk (FormValues.name x) (FormValues.description x)
    (FormValues.images x) (FormValues.videoLink x)
    (FormValues.selectedRentalPlans x) (FormValues.areaDetails x)
    (FormValues.rentPerYear x) v
    (FormValues.rentPerWeek x) (FormValues.dayPassRent x).

Definition set_rentPerWeek (v : option number) (x : FormValues.t) : FormValues.t :=
  FormValues.mk (FormValues.name x) (FormValues.description x)
    (FormValues.images x) (FormValues.videoLink x)
    (FormValues.selectedRentalPlans x) (FormValues.areaDetails x)
    (FormValues.rentPerYear x) (FormValues.rentPerMonth x)
    v (FormValues.dayPassRent x).

Definition set_dayPassRent (v : option number) (x : FormValues.t) : FormValues.t :=
  FormValues.mk (FormValues.name x) (FormValues.description x)
    (FormValues.images x) (FormValues.videoLink x)
    (FormValues.selectedRentalPlans x) (FormValues.areaDetails x)
    (FormValues.rentPerYear x) (FormValues.rentPerMonth x)
    (FormValues.rentPerWeek x) v.

(** [addAreaDetail] *)
Definition addAreaDetail : Eff Component unit :=
  fun w =>
    let areaDetails := areaDetails w in
    (setAreaDetails (areaDetails ++ [blank_area]) *>
     fun w' =>
       let currentAreaDetails := FormValues.areaDetails (values (form w')) in
       on_form (setValue (set_areaDetails (currentAreaDetails ++ [blank_area]))) w') w.

(** [removeAreaDetail] *)
Definition removeAreaDetail (index : number) : Eff Component unit :=
  fun w =>
    let areaDetails := areaDetails w in
    let newAreaDetails := remove_at index areaDetails in
    (setAreaDetails newAreaDetails *>
     fun w' =>
       let currentAreaDetails := FormValues.areaDetails (values (form w')) in
       on_form (setValue (set_areaDetails (remove_at index currentAreaDetails))) w') w.

(** The rental-plan [Checkbox]'s [onCheckedChange] for [plan]. *)
Definition onCheckedChange (plan : RentalPlanName) (checked : CheckedState)
  : Eff Component unit :=
  fun w =>
    let value := FormValues.selectedRentalPlans (values (form w)) in
    let updatedPlans :=
      if is_checked checked
      then value ++ [plan]
      else List.filter (fun p => plan_neq p plan) value in
    (on_form (setValue (set_selectedRentalPlans updatedPlans)) *>
     when (negb (is_checked checked))
       match plan with
       | Annual => on_form (setValue (set_rentPerYear None))
       | Monthly => on_form (setValue (set_rentPerMonth None))
       | Weekly => on_form (setValue (set_rentPerWeek None))
       | OneDay => on_form (setValue (set_dayPassRent None))
       end) w.

(** [area.area > 0 && area.type && area.furnishing && area.customisation];
    the three enumerated fields are tested for truthiness as strings. *)
Definition complete (a : AreaDetail) : bool :=
  gt (area a) (Num 0)
  && truthy_str (AreaType_label (type a))
  && truthy_str (Furnishing_label (furnishing a))
  && truthy_str (Customisation_label (customisation a)).

Definition submissionData (images : list jsstring)
           (validAreaDetails : list AreaDetail) (values : FormValues.t)
  : Submission.t :=
  {| Submission.type := "raw-space-lab";
     Submission.name := FormValues.name values;
     Submission.description := FormValues.description values;
     Submission.images := images;
     Submission.videoLink := or_empty (FormValues.videoLink values);
     Submission.areaDetails :=
       map (fun a => {| area := Number (area a);
                        type := type a;
                        furnishing := furnishing a;
                        customisation := customisation a |})
           validAreaDetails;
     Submission.rentalPlans := rentalPlans values |}.

(** [handleFormSubmit] *)
Definition handleFormSubmit (onSubmit : Submission.t -> Settled)
           (values : FormValues.t) : Eff Component unit :=
  fun w =>
    let images := images w in
    try_catch
      (when (is_empty images)
         (on_form (setError "root" msg_no_images) *> return_) *>
       let validAreaDetails := List.filter complete (FormValues.areaDetails values) in
       when (is_empty validAreaDetails)
         (on_form (setError "root"
                     "Please add at least one area detail with all fields filled") *>
          return_) *>
       when (is_empty (FormValues.selectedRentalPlans values))
         (on_form (setError "root" msg_no_plans) *> return_) *>
       when (negb (rentValidation values))
         (on_form (setError "root" msg_no_rent) *> return_) *>
       await record_submission onSubmit
         (submissionData images validAreaDetails values) *>
       on_form reset *>
       setImages [] *>
       setAreaDetails [blank_area] *>
       onChange)
      (on_form (setError "root" msg_failed))
      w.

(** The fields of [initialData] the component reads; each may be absent. *)
Module InitialData.
Record t : Type := mk {
  name : option jsstring;
  description : option jsstring;
  images : option (list jsstring);
  videoLink : option jsstring;
  rentalPlans : option (list RentalPlan);
  areaDetails : option (list AreaDetail);
}.
End InitialData.

(** The [defaultValues] handed to [useForm]. *)
Definition defaultValues (initialData : option InitialData.t) : FormValues.t :=
  let rentalPlans := opt_chain initialData InitialData.rentalPlans in
  {| FormValues.name := or_empty (opt_chain initialData InitialData.name);
     FormValues.description := or_empty (opt_chain initialData InitialData.description);
     FormValues.images := or_list (opt_chain initialData InitialData.images) [];
     FormValues.videoLink :=
       Some (or_empty (opt_chain initialData InitialData.videoLink));
     FormValues.selectedRentalPlans := initial_plans rentalPlans;
     FormValues.areaDetails :=
       or_list (opt_chain initialData InitialData.areaDetails) [blank_area];
     FormValues.rentPerYear := initial_rent rentalPlans Annual;
     FormValues.rentPerMonth := initial_rent rentalPlans Monthly;
     FormValues.rentPerWeek := initial_rent rentalPlans Weekly;
     FormValues.dayPassRent := initial_rent rentalPlans OneDay |}.

(** The component at its first render. *)
Definition mount (initialData : option InitialData.t) : Component :=
  mkComponent
    (mkForm (defaultValues initialData) (defaultValues initialData) ∅)
    (or_list (opt_chain initialData InitialData.images) [])
    (or_list (opt_chain initialData InitialData.areaDetails) [blank_area])
    [] 0.

Definition set_images (v : list jsstring) (x : FormValues.t) : FormValues.t :=
  FormValues.mk (FormValues.name x) (FormValues.description x)
    v (FormValues.videoLink x)
    (FormValues.selectedRentalPlans x) (FormValues.areaDetails x)
    (FormValues.rentPerYear x) (FormValues.rentPerMonth x)
    (FormValues.rentPerWeek x) (FormValues.dayPassRent x).

(** [handleImageUpload] *)
Definition handleImageUpload (newImages : list jsstring) : Eff Component unit :=
  setImages newImages *>
  on_form (setValue (set_images newImages)) *>
  onChange.

(** The [onRemove] callback of [ImageUpload]. *)
Definition onRemove (url : jsstring) : Eff Component unit :=
  fun w =>
    let newImages := List.filter (fun image => negb (str_eq image url)) (images w) in
    handleImageUpload newImages w.

(** The [onChange] of the price input rendered for [plan]:
    [field.onChange(e.target.valueAsNumber)]. *)
Definition onRentChange (plan : RentalPlanName) (valueAsNumber : number)
  : Eff Component unit :=
  match plan with
  | Annual => on_form (setValue (set_rentPerYear (Some valueAsNumber)))
  | Monthly => on_form (setValue (set_rentPerMonth (Some valueAsNumber)))
  | Weekly => on_form (setValue (set_rentPerWeek (Some valueAsNumber)))
  | OneDay => on_form (setValue (set_dayPassRent (Some valueAsNumber)))
  end.

(** [form.watch('selectedRentalPlans')?.includes(plan)], the condition
    under which the price input of [plan] is rendered. *)
Definition rent_input_shown (plan : RentalPlanName) (w : Component) : bool :=
  includes plan (FormValues.selectedRentalPlans (values (form w))).

(** Whether [formSchema] accepts the values; the three enumerated fields
    of a row hold a member of their enumeration by type. *)
Definition formSchema (values : FormValues.t) : bool :=
  string_min1 (FormValues.name values)
  && string_min1 (FormValues.description values)
  && array_min1 (fun _ => true) (FormValues.images values)
  && array_min1 (fun a => number_min 1 (area a)) (FormValues.areaDetails values)
  && rent_schema values.

Definition set_name (v : jsstring) (x : FormValues.t) : FormValues.t :=
  FormValues.mk v (FormValues.description x)
    (FormValues.images x) (FormValues.videoLink x)
    (FormValues.selectedRentalPlans x) (FormValues.areaDetails x)
    (FormValues.rentPerYear x) (FormValues.rentPerMonth x)
    (FormValues.rentPerWeek x) (FormValues.dayPassRent x).

Definition set_description (v : jsstring) (x : FormValues.t) : FormValues.t :=
  FormValues.mk (FormValues.name x) v
    (FormValues.images x) (FormValues.videoLink x)
    (FormValues.selectedRentalPlans x) (FormValues.areaDetails x)
    (FormValues.rentPerYear x) (FormValues.rentPerMonth x)
    (FormValues.rentPerWeek x) (FormValues.dayPassRent x).

Definition set_videoLink (v : option jsstring) (x : FormValues.t) : FormValues.t :=
  FormValues.mk (FormValues.name x) (FormValues.description x)
    (FormValues.images x) v
    (FormValues.selectedRentalPlans x) (FormValues.areaDetails x)
    (FormValues.rentPerYear x) (FormValues.rentPerMonth x)
    (FormValues.rentPerWeek x) (FormValues.dayPassRent x).

(** The [onChange] that [{...field}] gives the [name], [description] and
    [videoLink] inputs: the input's text is stored in the form. *)
Definition onNameChange (text : jsstring) : Eff Component unit :=
  on_form (setValue (set_name text)).

Definition onDescriptionChange (text : jsstring) : Eff Component unit :=
  on_form (setValue (set_description text)).

Definition onVideoLinkChange (text : jsstring) : Eff Component unit :=
  on_form (setValue (set_videoLink (Some text))).

(** What the four controls of an area row write: the area input stores
    [e.target.valueAsNumber], each select stores the option chosen. *)
Inductive RowWrite : Type :=
| WriteArea (valueAsNumber : number)
| WriteType (v : AreaType)
| WriteFurnishing (v : Furnishing)
| WriteCustomisation (v : Customisation).

Definition write_row (wr : RowWrite) (row : AreaDetail) : AreaDetail :=
  match wr with
  | WriteArea n => mkAreaDetail n (type row) (furnishing row) (customisation row)
  | WriteType v => mkAreaDetail (area row) v (furnishing row) (customisation row)
  | WriteFurnishing v => mkAreaDetail (area row) (type row) v (customisation row)
  | WriteCustomisation v => mkAreaDetail (area row) (type row) (furnishing row) v
  end.

(** [areaDetails.map((_, index) => ...)]: the controls of row [index] are
    rendered for the positions of the local list. *)
Definition row_rendered (index : nat) (w : Component) : bool :=
  Nat.ltb index (length (areaDetails w)).

(** The [onChange] / [onValueChange] of the control named
    [areaDetails.${index}.<field>]: it writes the form's array and leaves
    the local list alone.  At a position the array does not have,
    react-hook-form would create the path; here the write is then dropped,
    and the properties below use the operation only at positions the array
    has. *)
Definition onRowChange (index : nat) (wr : RowWrite) : Eff Component unit :=
  fun w =>
    let rows := FormValues.areaDetails (values (form w)) in
    on_form (setValue (set_areaDetails (alter (write_row wr) index rows))) w.

End RawSpaceLab.

(* ===================================================================== *)
(** ** SignIn: the post-authentication redirect *)
(* ===================================================================== *)

Module SignIn.
Import JS.

(** The [status] returned by [useSession]. *)
Inductive Status : Type :=
| loading
| authenticated
| unauthenticated.

#[global] Instance Status_eq_dec : EqDecision Status.
Proof. solve_decision. Defined.

Record User : Type := mkUser { userType : jsstring }.

(** [session.user] is optional in the session type. *)
Record Session : Type := mkSession { user : option User }.

(** [searchParams.get("from") || ""] *)
Definition from_param (get_from : option jsstring) : jsstring :=
  or_str (or_empty get_from) [].

(** The callback handed to [useEffect] (lines 29-39): the route it gives
    to [router.push], if any.  React runs the callback only after a render
    of the component that completed. *)
Definition redirect_callback (status : Status) (session : option Session)
           (from : jsstring) : option jsstring :=
  if bool_decide (status = authenticated) then
    match session with
    | Some s =>
        match user s with
        | Some u =>
            let redirectTo :=
              or_str from
                (if bool_decide (userType u = js "startup")
                 then js "/startup/dashboard"
                 else js "/service-provider/dashboard") in
            Some redirectTo
        | None => None
        end
    | None => None
    end
  else None.

(** The names the module's [import] statements bind (lines 3-18). *)
Definition imported : list string :=
  ["Link"; "useForm"; "zodResolver"; "z"; "signIn"; "useSession";
   "useRouter"; "useSearchParams"; "useEffect"; "useState"; "Checkbox";
   "Input"; "LoadingButton"; "signInSchema"; "Alert"; "AlertDescription";
   "ExclamationTriangleIcon"; "cn"; "SearchParamsWrapper"].

(** The module-level names the returned element refers to outside its
    conditional parts, in the order they are evaluated (lines 85-179). *)
Definition element_references : list string :=
  ["Suspense"; "SearchParamsWrapper"; "Input"; "cn"; "Input"; "cn";
   "Checkbox"; "Link"; "LoadingButton"; "Link"].

(** Evaluating a module-level identifier: a [ReferenceError] when no
    import binds it. *)
Definition reference (id : string) : Effects.Eff unit unit :=
  if bool_decide (id ∈ imported) then Effects.pure tt else Effects.throw.

Fixpoint evaluate (ids : list string) : Effects.Eff unit unit :=
  match ids with
  | [] => Effects.pure tt
  | id :: rest => Effects.bind (reference id) (fun _ => evaluate rest)
  end.

(** One call of the component function: the hooks run (which registers
    the effect), then the element it returns is built. *)
Definition render : Effects.Completion unit :=
  fst (evaluate element_references tt).

(** What [router.push] receives from a render with the given hook
    results: the registered effect is committed, and its callback run,
    only when the render completed. *)
Definition pushed (status : Status) (session : option Session)
           (get_from : option jsstring) : option jsstring :=
  match render with
  | Effects.Normal _ => redirect_callback status session (from_param get_from)
  | _ => None
  end.

End SignIn.

(* ===================================================================== *)
(** ** Specification vocabulary and sample components *)
(* ===================================================================== *)

Import JS Effects Hook Facility.

(** [l'] is [l] without its row at position [i]: one row shorter, the rows
    before [i] in place, the rows after [i] moved down by one. *)
Definition removed_at {A : Type} (i : nat) (l l' : list A) : Prop :=
  length l' = length l - 1
  /\ l' = take i l ++ drop (S i) l
  /\ (forall j, j < i -> l' !! j = l !! j)
  /\ (forall j, i <= j -> l' !! j = l !! S j).

(** The two example rows used to exercise the editors. *)
Definition row_L1 : BioAlliedLabs.Equipment :=
  BioAlliedLabs.mkEquipment (js "L1") (js "E1") (js "C1").
Definition row_L2 : BioAlliedLabs.Equipment :=
  BioAlliedLabs.mkEquipment (js "L2") (js "E2") (js "C2").
Definition area_40 : RawSpaceLab.AreaDetail :=
  RawSpaceLab.mkAreaDetail (Num 40) RawSpaceLab.Uncovered
    RawSpaceLab.Furnished RawSpaceLab.CannotBeCustomised.

(** A lab form holding the rows [rows] in both places, with the given
    images, plans and monthly rent. *)
Definition lab_values (rows : list BioAlliedLabs.Equipment)
           (plans : list RentalPlanName) (rentPerMonth : option number)
  : BioAlliedLabs.FormValues.t :=
  BioAlliedLabs.FormValues.mk (js "Lab A") (js "A wet lab") [js "u1"] None
    plans rows None rentPerMonth None None.

Definition lab_component (images : list jsstring)
           (rows : list BioAlliedLabs.Equipment) (values : BioAlliedLabs.FormValues.t)
  : BioAlliedLabs.Component :=
  BioAlliedLabs.mkComponent
    (mkForm values (lab_values [BioAlliedLabs.blank_equipment] [] None) ∅)
    images rows [] 0.

Definition raw_values (rows : list RawSpaceLab.AreaDetail)
           (plans : list RentalPlanName) (rentPerMonth : option number)
  : RawSpaceLab.FormValues.t :=
  RawSpaceLab.FormValues.mk (js "Shed") (js "A raw shed") [js "u1"] None
    plans rows None rentPerMonth None None.

Definition raw_component (images : list jsstring)
           (rows : list RawSpaceLab.AreaDetail) (values : RawSpaceLab.FormValues.t)
  : RawSpaceLab.Component :=
  RawSpaceLab.mkComponent
    (mkForm values (raw_values [RawSpaceLab.blank_area] [] None) ∅)
    images rows [] 0.

Definition coworking_values (plans : list RentalPlanName)
           (totalSeats availableSeats : number) (rentPerMonth : option number)
  : CoworkingSpaces.FormValues.t :=
  CoworkingSpaces.FormValues.mk (js "Hub") (js "An open floor") [js "u1"] None
    plans totalSeats availableSeats None rentPerMonth None None.

Definition coworking_component (images : list jsstring)
           (values : CoworkingSpaces.FormValues.t)
  : CoworkingSpaces.Component :=
  CoworkingSpaces.mkComponent
    (mkForm values (coworking_values [] (Num 0) (Num 0) None) ∅)
    images [] 0.

(** A price the rent check takes for missing: absent, [NaN] or zero. *)
Definition rent_missing (o : option number) : Prop :=
  o = None \/ o = Some NaN \/ o = Some (Num 0).

(** A price set to a positive number. *)
Definition positive_price (o : option number) : Prop :=
  exists z, o = Some (Num z) /\ (0 < z)%Z.

(** A number greater than zero. *)
Definition positive (n : number) : Prop :=
  match n with
  | NaN => False
  | Num z => (0 < z)%Z
  end.

#[global] Instance positive_dec n : Decision (positive n).
Proof. destruct n; simpl; apply _. Defined.

(** An equipment row with no blank sub-field: each of the three strings is
    non-empty once trimmed. *)
Definition filled (eq : BioAlliedLabs.Equipment) : Prop :=
  trim (BioAlliedLabs.labName eq) <> []
  /\ trim (BioAlliedLabs.equipmentName eq) <> []
  /\ trim (BioAlliedLabs.capacityAndMake eq) <> [].

#[global] Instance filled_dec eq : Decision (filled eq).
Proof. unfold filled; apply _. Defined.

(** An area row with no blank sub-field: a positive area and the three
    enumerated fields set. *)
Definition measured (a : RawSpaceLab.AreaDetail) : Prop :=
  positive (RawSpaceLab.area a)
  /\ RawSpaceLab.AreaType_label (RawSpaceLab.type a) <> []
  /\ RawSpaceLab.Furnishing_label (RawSpaceLab.furnishing a) <> []
  /\ RawSpaceLab.Customisation_label (RawSpaceLab.customisation a) <> [].

#[global] Instance measured_dec a : Decision (measured a).
Proof. unfold measured; apply _. Defined.

(** The draft of the end-to-end scenario: name "Lab A", one image "u1",
    the Monthly plan at 5000, one equipment row L1 / E1 / C1; the fields the
    scenario leaves open are parameters. *)
Definition lab_A (description : jsstring) (videoLink : option jsstring)
  : BioAlliedLabs.FormValues.t :=
  BioAlliedLabs.FormValues.mk (js "Lab A") description [js "u1"] videoLink
    [Monthly] [row_L1] None (Some (Num 5000)) None None.

(** The [useState] cells of a lab form agree with the copies kept in the
    form store. *)
Definition lab_mirrored (w : BioAlliedLabs.Component) : Prop :=
  BioAlliedLabs.images w
  = BioAlliedLabs.FormValues.images (values (BioAlliedLabs.form w))
  /\ BioAlliedLabs.equipment w
     = BioAlliedLabs.FormValues.equipment (values (BioAlliedLabs.form w)).

Definition coworking_mirrored (w : CoworkingSpaces.Component) : Prop :=
  CoworkingSpaces.images w
  = CoworkingSpaces.FormValues.images (values (CoworkingSpaces.form w)).

Definition raw_mirrored (w : RawSpaceLab.Component) : Prop :=
  RawSpaceLab.images w
  = RawSpaceLab.FormValues.images (values (RawSpaceLab.form w))
  /\ RawSpaceLab.areaDetails w
     = RawSpaceLab.FormValues.areaDetails (values (RawSpaceLab.form w)).

(** No price is kept for a plan that is not selected. *)
Definition no_orphan_price {V : Type} {RF : RentFields V} (values : V) : Prop :=
  forall plan,
    ~ In plan (selectedRentalPlans values) -> rent_field values plan = None.

(** A number that is [NaN] or not below zero. *)
Definition not_negative (n : number) : Prop :=
  match n with
  | NaN => True
  | Num z => (0 <= z)%Z
  end.

(** The text typed into a row lives in the form store only, so the local
    row list and the form's array agree on how many rows there are, not on
    what they hold: a lab form is aligned when the image lists are equal
    and the two row lists have the same length. *)
Definition lab_aligned (w : BioAlliedLabs.Component) : Prop :=
  BioAlliedLabs.images w
  = BioAlliedLabs.FormValues.images (values (BioAlliedLabs.form w))
  /\ length (BioAlliedLabs.equipment w)
     = length (BioAlliedLabs.FormValues.equipment (values (BioAlliedLabs.form w))).

Definition raw_aligned (w : RawSpaceLab.Component) : Prop :=
  RawSpaceLab.images w
  = RawSpaceLab.FormValues.images (values (RawSpaceLab.form w))
  /\ length (RawSpaceLab.areaDetails w)
     = length (RawSpaceLab.FormValues.areaDetails (values (RawSpaceLab.form w))).

(* ===================================================================== *)
(** ** Removing a row by position *)
(* ===================================================================== *)

Section RemoveAt.
Import JS.
Context {A : Type}.
Implicit Types (l : list A) (i start : nat) (z : Z).

(** A position test that accepts every position of [l] keeps [l]. *)
Lemma filter_from_all (f : A -> nat -> bool) l start :
  (forall x j, start <= j < start + length l -> f x j = true) ->
  filter_from start f l = l.
Proof.
  revert start; induction l as [|x l IH]; intros start Hall; simpl; [done|].
  rewrite Hall by (simpl; lia).
  f_equal. apply IH. intros y j Hj. apply Hall. simpl. lia.
Qed.

(** The test [i !== index] rejects position [start + i] and nothing else. *)
Lemma filter_from_hit l start i :
  i < length l ->
  filter_from start (fun _ j => strict_neq j (Num (Z.of_nat (start + i)))) l
  = take i l ++ drop (S i) l.
Proof.
  revert start i; induction l as [|x l IH]; intros start i Hi; simpl in *; [lia|].
  destruct i as [|i].
  - replace (start + 0) with start by lia.
    rewrite Z.eqb_refl. simpl.
    apply filter_from_all. intros y j Hj. simpl.
    apply negb_true_iff, Z.eqb_neq. lia.
  - assert ((Z.of_nat start =? Z.of_nat (start + S i))%Z = false) as ->
      by (apply Z.eqb_neq; lia).
    simpl. f_equal.
    replace (start + S i) with (S start + i) by lia.
    apply IH. lia.
Qed.

Lemma remove_at_in_range l i :
  i < length l ->
  remove_at (Num (Z.of_nat i)) l = take i l ++ drop (S i) l.
Proof. intros Hi. apply (filter_from_hit l 0 i Hi). Qed.

Lemma remove_at_length l i :
  i < length l -> length (remove_at (Num (Z.of_nat i)) l) = length l - 1.
Proof.
  intros Hi. rewrite remove_at_in_range by done.
  rewrite length_app, length_take, length_drop. lia.
Qed.

Lemma remove_at_out_of_range l z :
  (z < 0 \/ Z.of_nat (length l) <= z)%Z -> remove_at (Num z) l = l.
Proof.
  intros Hz. apply filter_from_all. intros x j Hj. simpl.
  apply negb_true_iff, Z.eqb_neq. lia.
Qed.

Lemma remove_at_NaN l : remove_at NaN l = l.
Proof. apply filter_from_all. done. Qed.

(** Positions before the removed one are untouched, later ones move down
    by one. *)
Lemma remove_at_lookup_lt l i j :
  i < length l -> j < i -> remove_at (Num (Z.of_nat i)) l !! j = l !! j.
Proof.
  intros Hi Hj. rewrite remove_at_in_range by done.
  rewrite lookup_app_l by (rewrite length_take; lia).
  by rewrite lookup_take_lt.
Qed.

Lemma remove_at_lookup_ge l i j :
  i < length l -> i <= j -> remove_at (Num (Z.of_nat i)) l !! j = l !! S j.
Proof.
  intros Hi Hj. rewrite remove_at_in_range by done.
  rewrite lookup_app_r by (rewrite length_take; lia).
  rewrite length_take, lookup_drop. f_equal. lia.
Qed.
End RemoveAt.

(* ===================================================================== *)
(** ** Properties of the dynamic array editor *)
(* ===================================================================== *)

Lemma remove_at_removed_at {A : Type} (l : list A) (i : nat) :
  i < length l -> removed_at i l (remove_at (Num (Z.of_nat i)) l).
Proof.
  intros Hi. repeat split.
  - by apply remove_at_length.
  - by apply remove_at_in_range.
  - intros j Hj. by apply remove_at_lookup_lt.
  - intros j Hj. by apply remove_at_lookup_ge.
Qed.

(** C4: for a row list of length N and a position 0 <= i < N,
    [removeEquipment i] and [removeAreaDetail i] leave a list of length
    N - 1 that is the old one without its row at [i], the other rows in
    their order; the local list and the form's array are treated alike. *)
Theorem remove_in_range_drops_the_row :
  (forall (w : BioAlliedLabs.Component) (i : nat),
      i < length (BioAlliedLabs.equipment w) ->
      i < length (BioAlliedLabs.FormValues.equipment (values (BioAlliedLabs.form w))) ->
      let w' := run (BioAlliedLabs.removeEquipment (Num (Z.of_nat i))) w in
      removed_at i (BioAlliedLabs.equipment w) (BioAlliedLabs.equipment w')
      /\ removed_at i
           (BioAlliedLabs.FormValues.equipment (values (BioAlliedLabs.form w)))
           (BioAlliedLabs.FormValues.equipment (values (BioAlliedLabs.form w'))))
  /\
  (forall (w : RawSpaceLab.Component) (i : nat),
      i < length (RawSpaceLab.areaDetails w) ->
      i < length (RawSpaceLab.FormValues.areaDetails (values (RawSpaceLab.form w))) ->
      let w' := run (RawSpaceLab.removeAreaDetail (Num (Z.of_nat i))) w in
      removed_at i (RawSpaceLab.areaDetails w) (RawSpaceLab.areaDetails w')
      /\ removed_at i
           (RawSpaceLab.FormValues.areaDetails (values (RawSpaceLab.form w)))
           (RawSpaceLab.FormValues.areaDetails (values (RawSpaceLab.form w')))).
Proof.
  split; intros w i Hlocal Hform; simpl; split; by apply remove_at_removed_at.
Qed.

Lemma remove_in_range_drops_the_row_witness :
  let w := lab_component [js "u1"] [row_L1; row_L2]
             (lab_values [row_L1; row_L2] [] None) in
  let w' := run (BioAlliedLabs.removeEquipment (Num 1)) w in
  removed_at 1 [row_L1; row_L2] (BioAlliedLabs.equipment w')
  /\ removed_at 1 [row_L1; row_L2]
       (BioAlliedLabs.FormValues.equipment (values (BioAlliedLabs.form w'))).
Proof.
  apply (proj1 remove_in_range_drops_the_row
           (lab_component [js "u1"] [row_L1; row_L2]
              (lab_values [row_L1; row_L2] [] None)) 1%nat);
    simpl; lia.
Defined.

(** C10: for a position outside [0, N) (negative, or N and above),
    [removeEquipment] and [removeAreaDetail] change neither the local list
    nor the form's array; the whole component is as before. *)
Theorem remove_out_of_range_is_identity :
  (forall (w : BioAlliedLabs.Component) (z : Z),
      (z < 0 \/ Z.of_nat (length (BioAlliedLabs.equipment w)) <= z)%Z ->
      (z < 0 \/ Z.of_nat (length (BioAlliedLabs.FormValues.equipment
                                    (values (BioAlliedLabs.form w)))) <= z)%Z ->
      run (BioAlliedLabs.removeEquipment (Num z)) w = w)
  /\
  (forall (w : RawSpaceLab.Component) (z : Z),
      (z < 0 \/ Z.of_nat (length (RawSpaceLab.areaDetails w)) <= z)%Z ->
      (z < 0 \/ Z.of_nat (length (RawSpaceLab.FormValues.areaDetails
                                    (values (RawSpaceLab.form w)))) <= z)%Z ->
      run (RawSpaceLab.removeAreaDetail (Num z)) w = w).
Proof.
  split; intros [[v d e] imgs rows sub ch] z Hlocal Hform; destruct v;
    simpl in *; cbv [run]; simpl;
    cbv [BioAlliedLabs.set_equipment RawSpaceLab.set_areaDetails]; simpl;
    rewrite !remove_at_out_of_range by done; reflexivity.
Qed.

Lemma remove_out_of_range_is_identity_witness :
  let w := lab_component [js "u1"] [row_L1; row_L2]
             (lab_values [row_L1; row_L2] [] None) in
  run (BioAlliedLabs.removeEquipment (Num 2)) w = w
  /\ run (BioAlliedLabs.removeEquipment (Num (-1))) w = w.
Proof.
  split.
  - apply (proj1 remove_out_of_range_is_identity
             (lab_component [js "u1"] [row_L1; row_L2]
                (lab_values [row_L1; row_L2] [] None)) 2%Z);
      simpl; lia.
  - apply (proj1 remove_out_of_range_is_identity
             (lab_component [js "u1"] [row_L1; row_L2]
                (lab_values [row_L1; row_L2] [] None)) (-1)%Z);
      simpl; lia.
Defined.

(* ===================================================================== *)
(** ** Properties of the submit handlers *)
(* ===================================================================== *)

(** *** The handlers as decision lists *)

(** Each handler, run to completion, is a cascade of its guards; the
    lemmas below put the three of them in that form once and for all. *)
(** Case analysis on every guard of a handler, and on how [onSubmit]
    settles (a two-constructor match, which the pattern covers as well). *)
Ltac split_guards :=
  repeat match goal with
         | |- context [if ?b then _ else _] =>
             destruct b; cbv beta iota zeta; try reflexivity
         end.

Lemma bio_submit_cases onSubmit values (w : BioAlliedLabs.Component) :
  run (BioAlliedLabs.handleFormSubmit onSubmit values) w
  = let fail name message :=
      run (BioAlliedLabs.on_form (setError name message)) w in
    let validEquipment :=
      List.filter BioAlliedLabs.complete (BioAlliedLabs.FormValues.equipment values) in
    let data :=
      BioAlliedLabs.submissionData (BioAlliedLabs.images w) validEquipment values in
    if is_empty (BioAlliedLabs.images w) then fail "root" msg_no_images
    else if is_empty validEquipment
    then fail "root" "Please add at least one equipment with all fields filled"
    else if is_empty (BioAlliedLabs.FormValues.selectedRentalPlans values)
    then fail "root" msg_no_plans
    else if negb (rentValidation values) then fail "root" msg_no_rent
    else match onSubmit data with
         | Fulfilled =>
             BioAlliedLabs.mkComponent (reset (BioAlliedLabs.form w)) []
               [BioAlliedLabs.blank_equipment]
               (BioAlliedLabs.submitted w ++ [data]) (S (BioAlliedLabs.changes w))
         | Rejected =>
             BioAlliedLabs.mkComponent
               (setError "root" msg_failed (BioAlliedLabs.form w))
               (BioAlliedLabs.images w) (BioAlliedLabs.equipment w)
               (BioAlliedLabs.submitted w ++ [data]) (BioAlliedLabs.changes w)
         end.
Proof.
  destruct w as [f imgs rows sub ch].
  cbv [run BioAlliedLabs.handleFormSubmit try_catch bind when pure return_
       modify await BioAlliedLabs.on_form BioAlliedLabs.setImages
       BioAlliedLabs.setEquipment BioAlliedLabs.onChange
       BioAlliedLabs.record_submission BioAlliedLabs.images
       BioAlliedLabs.form BioAlliedLabs.equipment BioAlliedLabs.submitted
       BioAlliedLabs.changes snd].
  split_guards.
Qed.

Lemma coworking_submit_cases onSubmit values (w : CoworkingSpaces.Component) :
  run (CoworkingSpaces.handleFormSubmit onSubmit values) w
  = let fail name message :=
      run (CoworkingSpaces.on_form (setError name message)) w in
    let data := CoworkingSpaces.submissionData (CoworkingSpaces.images w) values in
    if is_empty (CoworkingSpaces.images w) then fail "root" msg_no_images
    else if is_empty (CoworkingSpaces.FormValues.selectedRentalPlans values)
    then fail "root" msg_no_plans
    else if negb (rentValidation values) then fail "root" msg_no_rent
    else if le (CoworkingSpaces.FormValues.totalSeats values) (Num 0)
    then fail "totalSeats" "Total seats must be greater than 0"
    else if gt (CoworkingSpaces.FormValues.availableSeats values)
               (CoworkingSpaces.FormValues.totalSeats values)
    then fail "availableSeats" "Available seats cannot exceed total seats"
    else match onSubmit data with
         | Fulfilled =>
             CoworkingSpaces.mkComponent (reset (CoworkingSpaces.form w)) []
               (CoworkingSpaces.submitted w ++ [data])
               (S (CoworkingSpaces.changes w))
         | Rejected =>
             CoworkingSpaces.mkComponent
               (setError "root" msg_failed (CoworkingSpaces.form w))
               (CoworkingSpaces.images w)
               (CoworkingSpaces.submitted w ++ [data]) (CoworkingSpaces.changes w)
         end.
Proof.
  destruct w as [f imgs sub ch].
  cbv [run CoworkingSpaces.handleFormSubmit try_catch bind when pure return_
       modify await CoworkingSpaces.on_form CoworkingSpaces.setImages
       CoworkingSpaces.onChange CoworkingSpaces.record_submission
       CoworkingSpaces.images CoworkingSpaces.form CoworkingSpaces.submitted
       CoworkingSpaces.changes snd].
  split_guards.
Qed.

Lemma raw_submit_cases onSubmit values (w : RawSpaceLab.Component) :
  run (RawSpaceLab.handleFormSubmit onSubmit values) w
  = let fail name message :=
      run (RawSpaceLab.on_form (setError name message)) w in
    let validAreaDetails :=
      List.filter RawSpaceLab.complete (RawSpaceLab.FormValues.areaDetails values) in
    let data :=
      RawSpaceLab.submissionData (RawSpaceLab.images w) validAreaDetails values in
    if is_empty (RawSpaceLab.images w) then fail "root" msg_no_images
    else if is_empty validAreaDetails
    then fail "root" "Please add at least one area detail with all fields filled"
    else if is_empty (RawSpaceLab.FormValues.selectedRentalPlans values)
    then fail "root" msg_no_plans
    else if negb (rentValidation values) then fail "root" msg_no_rent
    else match onSubmit data with
         | Fulfilled =>
             RawSpaceLab.mkComponent (reset (RawSpaceLab.form w)) []
               [RawSpaceLab.blank_area]
               (RawSpaceLab.submitted w ++ [data]) (S (RawSpaceLab.changes w))
         | Rejected =>
             RawSpaceLab.mkComponent
               (setError "root" msg_failed (RawSpaceLab.form w))
               (RawSpaceLab.images w) (RawSpaceLab.areaDetails w)
               (RawSpaceLab.submitted w ++ [data]) (RawSpaceLab.changes w)
         end.
Proof.
  destruct w as [f imgs rows sub ch].
  cbv [run RawSpaceLab.handleFormSubmit try_catch bind when pure return_
       modify await RawSpaceLab.on_form RawSpaceLab.setImages
       RawSpaceLab.setAreaDetails RawSpaceLab.onChange
       RawSpaceLab.record_submission RawSpaceLab.images
       RawSpaceLab.form RawSpaceLab.areaDetails RawSpaceLab.submitted
       RawSpaceLab.changes snd].
  split_guards.
Qed.

(** C3: with no image in the component's list, every form's submit handler
    registers the root error 'Please upload at least one image' and stops:
    nothing else in the component changes, [onSubmit] receives nothing, and
    no other field of the draft is looked at (the result is the same for
    all [values]). *)
Theorem no_image_rejected_first :
  (forall onSubmit values (w : BioAlliedLabs.Component),
      BioAlliedLabs.images w = [] ->
      run (BioAlliedLabs.handleFormSubmit onSubmit values) w
      = BioAlliedLabs.mkComponent
          (setError "root" "Please upload at least one image" (BioAlliedLabs.form w))
          [] (BioAlliedLabs.equipment w) (BioAlliedLabs.submitted w)
          (BioAlliedLabs.changes w))
  /\
  (forall onSubmit values (w : CoworkingSpaces.Component),
      CoworkingSpaces.images w = [] ->
      run (CoworkingSpaces.handleFormSubmit onSubmit values) w
      = CoworkingSpaces.mkComponent
          (setError "root" "Please upload at least one image" (CoworkingSpaces.form w))
          [] (CoworkingSpaces.submitted w) (CoworkingSpaces.changes w))
  /\
  (forall onSubmit values (w : RawSpaceLab.Component),
      RawSpaceLab.images w = [] ->
      run (RawSpaceLab.handleFormSubmit onSubmit values) w
      = RawSpaceLab.mkComponent
          (setError "root" "Please upload at least one image" (RawSpaceLab.form w))
          [] (RawSpaceLab.areaDetails w) (RawSpaceLab.submitted w)
          (RawSpaceLab.changes w)).
Proof.
  repeat split; intros onSubmit values w Himages;
    destruct w; simpl in Himages; subst; reflexivity.
Qed.

Lemma no_image_rejected_first_witness :
  let w := coworking_component []
             (coworking_values [Monthly] (Num 10) (Num 4) (Some (Num 5000))) in
  let w' := run (CoworkingSpaces.handleFormSubmit (fun _ => Fulfilled)
                   (coworking_values [Monthly] (Num 10) (Num 4) (Some (Num 5000)))) w in
  errors (CoworkingSpaces.form w') !! "root" = Some "Please upload at least one image"
  /\ CoworkingSpaces.submitted w' = [].
Proof.
  cbv zeta.
  rewrite (proj1 (proj2 no_image_rejected_first) (fun _ => Fulfilled)
             (coworking_values [Monthly] (Num 10) (Num 4) (Some (Num 5000)))
             (coworking_component []
                (coworking_values [Monthly] (Num 10) (Num 4) (Some (Num 5000))))
             eq_refl).
  split; reflexivity.
Defined.

(** *** Facts about the guards *)

Lemma is_empty_false {A : Type} (l : list A) : l <> [] -> is_empty l = false.
Proof. by destruct l. Qed.

Lemma truthy_opt_missing (o : option number) :
  truthy_opt o = false <-> rent_missing o.
Proof.
  unfold rent_missing. split.
  - destruct o as [[|z]|]; simpl; auto.
    intros Hz. apply negb_false_iff, Z.eqb_eq in Hz. subst. auto.
  - intros [-> | [-> | ->]]; reflexivity.
Qed.

Lemma truthy_opt_positive (o : option number) :
  positive_price o -> truthy_opt o = true.
Proof.
  intros (z & -> & Hz). simpl. apply negb_true_iff, Z.eqb_neq. lia.
Qed.

Lemma gt_zero_not_le (n : number) : gt n (Num 0) = true -> le n (Num 0) = false.
Proof.
  destruct n as [|z]; simpl; [done|].
  intros Hz. apply Z.ltb_lt in Hz. apply Z.leb_gt. lia.
Qed.

Section RentGuard.
Context {V : Type} {RF : RentFields V}.

(** The rent check fails as soon as one selected plan has a missing
    price. *)
Lemma rentValidation_missing (values : V) (plan : RentalPlanName) :
  In plan (selectedRentalPlans values) ->
  rent_missing (rent_field values plan) ->
  rentValidation values = false.
Proof.
  intros Hin Hmiss. apply truthy_opt_missing in Hmiss.
  unfold rentValidation, every.
  apply not_true_is_false. intros Hall.
  rewrite forallb_forall in Hall. specialize (Hall plan Hin).
  destruct plan; simpl in *; congruence.
Qed.

(** It passes when every selected plan has a positive price. *)
Lemma rentValidation_positive (values : V) :
  (forall plan, In plan (selectedRentalPlans values) ->
                positive_price (rent_field values plan)) ->
  rentValidation values = true.
Proof.
  intros Hall. unfold rentValidation, every. apply forallb_forall.
  intros plan Hin. specialize (Hall plan Hin).
  apply truthy_opt_positive in Hall. by destruct plan.
Qed.
End RentGuard.

Lemma snoc_not_self {A : Type} (l : list A) (x : A) : l <> l ++ [x].
Proof.
  intros Heq. apply (f_equal length) in Heq.
  rewrite length_app in Heq. simpl in Heq. lia.
Qed.

Lemma snoc_inj {A : Type} (l : list A) (x y : A) : l ++ [x] = l ++ [y] -> x = y.
Proof. intros Heq. apply app_inv_head in Heq. congruence. Qed.

(** *** Rent values *)

(** C1 (as amended): once a draft is past the guards that come first
    (an image is present; for the lab and raw-space forms a complete row
    is present), a selected plan whose price field is absent, [NaN] or zero
    makes the handler register the root error 'Please provide rent values
    for all selected rental plans' and stop, [onSubmit] receiving
    nothing. *)
Theorem missing_rent_rejected :
  (forall onSubmit values (w : BioAlliedLabs.Component) plan,
      BioAlliedLabs.images w <> [] ->
      List.filter BioAlliedLabs.complete (BioAlliedLabs.FormValues.equipment values) <> [] ->
      In plan (BioAlliedLabs.FormValues.selectedRentalPlans values) ->
      rent_missing (rent_field values plan) ->
      run (BioAlliedLabs.handleFormSubmit onSubmit values) w
      = BioAlliedLabs.mkComponent
          (setError "root" "Please provide rent values for all selected rental plans"
             (BioAlliedLabs.form w))
          (BioAlliedLabs.images w) (BioAlliedLabs.equipment w)
          (BioAlliedLabs.submitted w) (BioAlliedLabs.changes w))
  /\
  (forall onSubmit values (w : CoworkingSpaces.Component) plan,
      CoworkingSpaces.images w <> [] ->
      In plan (CoworkingSpaces.FormValues.selectedRentalPlans values) ->
      rent_missing (rent_field values plan) ->
      run (CoworkingSpaces.handleFormSubmit onSubmit values) w
      = CoworkingSpaces.mkComponent
          (setError "root" "Please provide rent values for all selected rental plans"
             (CoworkingSpaces.form w))
          (CoworkingSpaces.images w)
          (CoworkingSpaces.submitted w) (CoworkingSpaces.changes w))
  /\
  (forall onSubmit values (w : RawSpaceLab.Component) plan,
      RawSpaceLab.images w <> [] ->
      List.filter RawSpaceLab.complete (RawSpaceLab.FormValues.areaDetails values) <> [] ->
      In plan (RawSpaceLab.FormValues.selectedRentalPlans values) ->
      rent_missing (rent_field values plan) ->
      run (RawSpaceLab.handleFormSubmit onSubmit values) w
      = RawSpaceLab.mkComponent
          (setError "root" "Please provide rent values for all selected rental plans"
             (RawSpaceLab.form w))
          (RawSpaceLab.images w) (RawSpaceLab.areaDetails w)
          (RawSpaceLab.submitted w) (RawSpaceLab.changes w)).
Proof.
  split; [|split].
  - intros onSubmit values w plan Himg Hrows Hin Hmiss.
    rewrite bio_submit_cases; cbv zeta.
    rewrite (is_empty_false _ Himg), (is_empty_false _ Hrows).
    rewrite is_empty_false by (intros Hnil; simpl in Hin; rewrite Hnil in Hin; inversion Hin).
    by rewrite (rentValidation_missing (RF := BioAlliedLabs.rent_fields) values plan Hin Hmiss).
  - intros onSubmit values w plan Himg Hin Hmiss.
    rewrite coworking_submit_cases; cbv zeta.
    rewrite (is_empty_false _ Himg).
    rewrite is_empty_false by (intros Hnil; simpl in Hin; rewrite Hnil in Hin; inversion Hin).
    by rewrite (rentValidation_missing (RF := CoworkingSpaces.rent_fields) values plan Hin Hmiss).
  - intros onSubmit values w plan Himg Hrows Hin Hmiss.
    rewrite raw_submit_cases; cbv zeta.
    rewrite (is_empty_false _ Himg), (is_empty_false _ Hrows).
    rewrite is_empty_false by (intros Hnil; simpl in Hin; rewrite Hnil in Hin; inversion Hin).
    by rewrite (rentValidation_missing (RF := RawSpaceLab.rent_fields) values plan Hin Hmiss).
Qed.

Lemma missing_rent_rejected_witness :
  let values := lab_values [row_L1] [Monthly] (Some (Num 0)) in
  let w := lab_component [js "u1"] [row_L1] values in
  let w' := run (BioAlliedLabs.handleFormSubmit (fun _ => Fulfilled) values) w in
  errors (BioAlliedLabs.form w') !! "root"
  = Some "Please provide rent values for all selected rental plans"
  /\ BioAlliedLabs.submitted w' = [].
Proof.
  cbv zeta.
  rewrite (proj1 missing_rent_rejected (fun _ => Fulfilled)
             (lab_values [row_L1] [Monthly] (Some (Num 0)))
             (lab_component [js "u1"] [row_L1]
                (lab_values [row_L1] [Monthly] (Some (Num 0))))
             Monthly).
  - split; reflexivity.
  - discriminate.
  - discriminate.
  - simpl. left. reflexivity.
  - right. right. reflexivity.
Defined.

(** C1 as stated fails twice over.  A lab draft whose Monthly plan is
    priced -5 (not a positive number) passes the rent check and reaches
    [onSubmit]; a coworking draft with a selected plan that has no price
    but with no image gets the image error, not the rent error. *)
Lemma missing_rent_counterexample :
  (let values := lab_values [row_L1] [Monthly] (Some (Num (-5))) in
   let w := lab_component [js "u1"] [row_L1] values in
   let w' := run (BioAlliedLabs.handleFormSubmit (fun _ => Fulfilled) values) w in
   In Monthly (BioAlliedLabs.FormValues.selectedRentalPlans values)
   /\ ~ positive_price (rent_field values Monthly)
   /\ errors (BioAlliedLabs.form w') !! "root" = None
   /\ BioAlliedLabs.submitted w'
      = [BioAlliedLabs.submissionData [js "u1"] [row_L1] values])
  /\
  (let values := coworking_values [Monthly] (Num 10) (Num 4) None in
   let w := coworking_component [] values in
   let w' := run (CoworkingSpaces.handleFormSubmit (fun _ => Fulfilled) values) w in
   In Monthly (CoworkingSpaces.FormValues.selectedRentalPlans values)
   /\ ~ positive_price (rent_field values Monthly)
   /\ errors (CoworkingSpaces.form w') !! "root"
      = Some "Please upload at least one image").
Proof.
  split; cbv zeta.
  - split; [simpl; auto|]. split; [|split; reflexivity].
    intros (z & Hz & Hpos). simpl in Hz. injection Hz as <-. lia.
  - split; [simpl; auto|]. split; [|reflexivity].
    intros (z & Hz & Hpos). simpl in Hz. discriminate.
Qed.

(** *** Seats *)

(** C6: a coworking draft that is past the earlier guards (an image is
    present, a plan is selected, the rent check passes, totalSeats > 0)
    and has availableSeats > totalSeats gets the field error 'Available
    seats cannot exceed total seats' on availableSeats; nothing else
    changes and [onSubmit] receives nothing. *)
Theorem excess_available_seats_rejected :
  forall onSubmit values (w : CoworkingSpaces.Component),
    CoworkingSpaces.images w <> [] ->
    CoworkingSpaces.FormValues.selectedRentalPlans values <> [] ->
    rentValidation values = true ->
    gt (CoworkingSpaces.FormValues.totalSeats values) (Num 0) = true ->
    gt (CoworkingSpaces.FormValues.availableSeats values)
       (CoworkingSpaces.FormValues.totalSeats values) = true ->
    run (CoworkingSpaces.handleFormSubmit onSubmit values) w
    = CoworkingSpaces.mkComponent
        (setError "availableSeats" "Available seats cannot exceed total seats"
           (CoworkingSpaces.form w))
        (CoworkingSpaces.images w)
        (CoworkingSpaces.submitted w) (CoworkingSpaces.changes w).
Proof.
  intros onSubmit values w Himg Hplans Hrent Htotal Havail.
  rewrite coworking_submit_cases; cbv zeta.
  rewrite (is_empty_false _ Himg), (is_empty_false _ Hplans), Hrent.
  rewrite (gt_zero_not_le _ Htotal), Havail. reflexivity.
Qed.

Lemma excess_available_seats_rejected_witness :
  let values := coworking_values [Monthly] (Num 10) (Num 12) (Some (Num 5000)) in
  let w := coworking_component [js "u1"] values in
  let w' := run (CoworkingSpaces.handleFormSubmit (fun _ => Fulfilled) values) w in
  errors (CoworkingSpaces.form w') !! "availableSeats"
  = Some "Available seats cannot exceed total seats"
  /\ errors (CoworkingSpaces.form w') !! "root" = None
  /\ CoworkingSpaces.submitted w' = [].
Proof.
  cbv zeta.
  rewrite (excess_available_seats_rejected (fun _ => Fulfilled)
             (coworking_values [Monthly] (Num 10) (Num 12) (Some (Num 5000)))
             (coworking_component [js "u1"]
                (coworking_values [Monthly] (Num 10) (Num 12) (Some (Num 5000))))).
  - repeat split; reflexivity.
  - discriminate.
  - discriminate.
  - reflexivity.
  - reflexivity.
  - reflexivity.
Defined.

(** *** Payload assembly *)

Lemma filter_bool_prop {A : Type} (f : A -> bool) (P : A -> Prop)
      `{forall x, Decision (P x)} (l : list A) :
  (forall x, f x = true <-> P x) -> List.filter f l = filter P l.
Proof.
  intros Hiff. induction l as [|x l IH]; [reflexivity|].
  simpl. destruct (f x) eqn:Hfx.
  - rewrite filter_cons_True by (by apply Hiff). by rewrite IH.
  - rewrite filter_cons_False; [done|].
    intros HP. apply Hiff in HP. congruence.
Qed.

Lemma truthy_str_non_empty (s : jsstring) : truthy_str s = true <-> s <> [].
Proof. destruct s; simpl; split; congruence. Qed.

Lemma complete_filled (eq : BioAlliedLabs.Equipment) :
  BioAlliedLabs.complete eq = true <-> filled eq.
Proof.
  unfold BioAlliedLabs.complete, filled, non_blank.
  rewrite !andb_true_iff, !truthy_str_non_empty. tauto.
Qed.

Lemma gt_zero_positive (n : number) : gt n (Num 0) = true <-> positive n.
Proof.
  destruct n as [|z]; simpl; [split; [discriminate|tauto]|].
  apply Z.ltb_lt.
Qed.

Lemma complete_measured (a : RawSpaceLab.AreaDetail) :
  RawSpaceLab.complete a = true <-> measured a.
Proof.
  unfold RawSpaceLab.complete, measured.
  rewrite !andb_true_iff, !truthy_str_non_empty, gt_zero_positive. tauto.
Qed.

(** Copying a row field by field gives the row back. *)
Lemma copy_equipment (l : list BioAlliedLabs.Equipment) :
  map (fun eq => {| BioAlliedLabs.labName := BioAlliedLabs.labName eq;
                    BioAlliedLabs.equipmentName := BioAlliedLabs.equipmentName eq;
                    BioAlliedLabs.capacityAndMake := BioAlliedLabs.capacityAndMake eq |})
      l = l.
Proof.
  induction l as [|[a b c] l IH]; simpl; [done|]. by rewrite IH.
Qed.

Lemma copy_areaDetails (l : list RawSpaceLab.AreaDetail) :
  map (fun a => {| RawSpaceLab.area := Number (RawSpaceLab.area a);
                   RawSpaceLab.type := RawSpaceLab.type a;
                   RawSpaceLab.furnishing := RawSpaceLab.furnishing a;
                   RawSpaceLab.customisation := RawSpaceLab.customisation a |})
      l = l.
Proof.
  induction l as [|[a b c d] l IH]; simpl; [done|]. by rewrite IH.
Qed.

(** What [onSubmit] has received after a run: nothing new, or exactly the
    payload assembled from the draft. *)
Lemma bio_submitted onSubmit values (w : BioAlliedLabs.Component) :
  let w' := run (BioAlliedLabs.handleFormSubmit onSubmit values) w in
  BioAlliedLabs.submitted w' = BioAlliedLabs.submitted w
  \/ BioAlliedLabs.submitted w'
     = BioAlliedLabs.submitted w
       ++ [BioAlliedLabs.submissionData (BioAlliedLabs.images w)
             (List.filter BioAlliedLabs.complete
                (BioAlliedLabs.FormValues.equipment values)) values].
Proof.
  cbv zeta. rewrite bio_submit_cases; cbv zeta.
  repeat match goal with
         | |- context [if ?b then _ else _] => destruct b
         end;
    first [left; reflexivity | right; reflexivity].
Qed.

Lemma coworking_submitted onSubmit values (w : CoworkingSpaces.Component) :
  let w' := run (CoworkingSpaces.handleFormSubmit onSubmit values) w in
  CoworkingSpaces.submitted w' = CoworkingSpaces.submitted w
  \/ CoworkingSpaces.submitted w'
     = CoworkingSpaces.submitted w
       ++ [CoworkingSpaces.submissionData (CoworkingSpaces.images w) values].
Proof.
  cbv zeta. rewrite coworking_submit_cases; cbv zeta.
  repeat match goal with
         | |- context [if ?b then _ else _] => destruct b
         end;
    first [left; reflexivity | right; reflexivity].
Qed.

Lemma raw_submitted onSubmit values (w : RawSpaceLab.Component) :
  let w' := run (RawSpaceLab.handleFormSubmit onSubmit values) w in
  RawSpaceLab.submitted w' = RawSpaceLab.submitted w
  \/ RawSpaceLab.submitted w'
     = RawSpaceLab.submitted w
       ++ [RawSpaceLab.submissionData (RawSpaceLab.images w)
             (List.filter RawSpaceLab.complete
                (RawSpaceLab.FormValues.areaDetails values)) values].
Proof.
  cbv zeta. rewrite raw_submit_cases; cbv zeta.
  repeat match goal with
         | |- context [if ?b then _ else _] => destruct b
         end;
    first [left; reflexivity | right; reflexivity].
Qed.

(** *** Submission and reset *)

(** C5: the lab draft of the end-to-end scenario (name "Lab A", image
    "u1", Monthly at 5000, one row L1 / E1 / C1), submitted with an
    [onSubmit] that fulfils, reaches [onSubmit] with a payload whose
    [rentalPlans] is the single entry Monthly / 5000 / Monthly; afterwards
    the form is reset, the image list is empty and the equipment list is
    one blank row. *)
Theorem lab_A_submits_and_resets :
  forall onSubmit description videoLink (w : BioAlliedLabs.Component),
    BioAlliedLabs.images w = [js "u1"] ->
    onSubmit (BioAlliedLabs.submissionData [js "u1"] [row_L1]
                (lab_A description videoLink)) = Fulfilled ->
    let w' := run (BioAlliedLabs.handleFormSubmit onSubmit
                     (lab_A description videoLink)) w in
    exists data,
      BioAlliedLabs.submitted w' = BioAlliedLabs.submitted w ++ [data]
      /\ BioAlliedLabs.Submission.rentalPlans data
         = [{| name := Monthly; price := Num 5000; duration := Monthly |}]
      /\ plan_label Monthly = "Monthly"
      /\ BioAlliedLabs.form w' = reset (BioAlliedLabs.form w)
      /\ values (BioAlliedLabs.form w') = defaultValues (BioAlliedLabs.form w)
      /\ BioAlliedLabs.images w' = []
      /\ BioAlliedLabs.equipment w' = [BioAlliedLabs.blank_equipment].
Proof.
  intros onSubmit description videoLink w Himg Hok w'. subst w'.
  rewrite bio_submit_cases; cbv zeta. rewrite Himg.
  change (List.filter BioAlliedLabs.complete
            (BioAlliedLabs.FormValues.equipment (lab_A description videoLink)))
    with [row_L1].
  rewrite Hok. simpl.
  eexists. repeat split; reflexivity.
Qed.

Lemma lab_A_submits_and_resets_witness :
  let w := lab_component [js "u1"] [row_L1] (lab_A (js "A wet lab") None) in
  let w' := run (BioAlliedLabs.handleFormSubmit (fun _ => Fulfilled)
                   (lab_A (js "A wet lab") None)) w in
  exists data,
    BioAlliedLabs.submitted w' = [data]
    /\ BioAlliedLabs.Submission.rentalPlans data
       = [{| name := Monthly; price := Num 5000; duration := Monthly |}]
    /\ plan_label Monthly = "Monthly"
    /\ BioAlliedLabs.form w' = reset (BioAlliedLabs.form w)
    /\ values (BioAlliedLabs.form w') = defaultValues (BioAlliedLabs.form w)
    /\ BioAlliedLabs.images w' = []
    /\ BioAlliedLabs.equipment w' = [BioAlliedLabs.blank_equipment].
Proof.
  exact (lab_A_submits_and_resets (fun _ => Fulfilled) (js "A wet lab") None
           (lab_component [js "u1"] [row_L1] (lab_A (js "A wet lab") None))
           eq_refl eq_refl).
Defined.

(** Closes one leaf of a handler's decision list for the statement below:
    either nothing was submitted, or the payload is the one at hand and
    [onSubmit]'s answer on it is known. *)
Ltac settle_run :=
  unfold run, BioAlliedLabs.on_form, CoworkingSpaces.on_form,
    RawSpaceLab.on_form, modify; simpl;
  split;
  [ intros data Hsub Hrej;
    first [ exfalso; exact (snoc_not_self _ _ Hsub)
          | apply snoc_inj in Hsub; subst data;
            first [congruence | repeat split; reflexivity] ]
  | first [ right; repeat split; reflexivity
          | left; eexists; split; [reflexivity | assumption] ] ].

(** C8: when the call to [onSubmit] rejects, the handler registers the
    root error 'Failed to submit form. Please try again.' and nothing is
    reset: the form's values, the image list and the row list are those of
    the moment of submission.  Conversely a run changes any of them only
    when [onSubmit] was called and fulfilled. *)
Theorem rejected_submission_keeps_the_draft :
  (forall onSubmit values (w : BioAlliedLabs.Component),
      let w' := run (BioAlliedLabs.handleFormSubmit onSubmit values) w in
      (forall data,
          BioAlliedLabs.submitted w' = BioAlliedLabs.submitted w ++ [data] ->
          onSubmit data = Rejected ->
          BioAlliedLabs.form w'
          = setError "root" "Failed to submit form. Please try again."
              (BioAlliedLabs.form w)
          /\ BioAlliedLabs.images w' = BioAlliedLabs.images w
          /\ BioAlliedLabs.equipment w' = BioAlliedLabs.equipment w)
      /\ ((exists data,
              BioAlliedLabs.submitted w' = BioAlliedLabs.submitted w ++ [data]
              /\ onSubmit data = Fulfilled)
          \/ (Hook.values (BioAlliedLabs.form w') = Hook.values (BioAlliedLabs.form w)
              /\ BioAlliedLabs.images w' = BioAlliedLabs.images w
              /\ BioAlliedLabs.equipment w' = BioAlliedLabs.equipment w)))
  /\
  (forall onSubmit values (w : CoworkingSpaces.Component),
      let w' := run (CoworkingSpaces.handleFormSubmit onSubmit values) w in
      (forall data,
          CoworkingSpaces.submitted w' = CoworkingSpaces.submitted w ++ [data] ->
          onSubmit data = Rejected ->
          CoworkingSpaces.form w'
          = setError "root" "Failed to submit form. Please try again."
              (CoworkingSpaces.form w)
          /\ CoworkingSpaces.images w' = CoworkingSpaces.images w)
      /\ ((exists data,
              CoworkingSpaces.submitted w' = CoworkingSpaces.submitted w ++ [data]
              /\ onSubmit data = Fulfilled)
          \/ (Hook.values (CoworkingSpaces.form w') = Hook.values (CoworkingSpaces.form w)
              /\ CoworkingSpaces.images w' = CoworkingSpaces.images w)))
  /\
  (forall onSubmit values (w : RawSpaceLab.Component),
      let w' := run (RawSpaceLab.handleFormSubmit onSubmit values) w in
      (forall data,
          RawSpaceLab.submitted w' = RawSpaceLab.submitted w ++ [data] ->
          onSubmit data = Rejected ->
          RawSpaceLab.form w'
          = setError "root" "Failed to submit form. Please try again."
              (RawSpaceLab.form w)
          /\ RawSpaceLab.images w' = RawSpaceLab.images w
          /\ RawSpaceLab.areaDetails w' = RawSpaceLab.areaDetails w)
      /\ ((exists data,
              RawSpaceLab.submitted w' = RawSpaceLab.submitted w ++ [data]
              /\ onSubmit data = Fulfilled)
          \/ (Hook.values (RawSpaceLab.form w') = Hook.values (RawSpaceLab.form w)
              /\ RawSpaceLab.images w' = RawSpaceLab.images w
              /\ RawSpaceLab.areaDetails w' = RawSpaceLab.areaDetails w))).
Proof.
  split; [|split]; intros onSubmit values w w'; subst w'.
  - rewrite bio_submit_cases; cbv zeta.
    repeat match goal with
           | |- context [if ?b then _ else _] => destruct b eqn:?
           end;
      settle_run.
  - rewrite coworking_submit_cases; cbv zeta.
    repeat match goal with
           | |- context [if ?b then _ else _] => destruct b eqn:?
           end;
      settle_run.
  - rewrite raw_submit_cases; cbv zeta.
    repeat match goal with
           | |- context [if ?b then _ else _] => destruct b eqn:?
           end;
      settle_run.
Qed.

Lemma rejected_submission_keeps_the_draft_witness :
  let values := lab_values [row_L1] [Monthly] (Some (Num 5000)) in
  let w := lab_component [js "u1"] [row_L1] values in
  let w' := run (BioAlliedLabs.handleFormSubmit (fun _ => Rejected) values) w in
  BioAlliedLabs.form w'
  = setError "root" "Failed to submit form. Please try again." (BioAlliedLabs.form w)
  /\ BioAlliedLabs.images w' = [js "u1"]
  /\ BioAlliedLabs.equipment w' = [row_L1].
Proof.
  exact (proj1 (proj1 rejected_submission_keeps_the_draft (fun _ => Rejected)
                  (lab_values [row_L1] [Monthly] (Some (Num 5000)))
                  (lab_component [js "u1"] [row_L1]
                     (lab_values [row_L1] [Monthly] (Some (Num 5000)))))
           (BioAlliedLabs.submissionData [js "u1"] [row_L1]
              (lab_values [row_L1] [Monthly] (Some (Num 5000))))
           eq_refl eq_refl).
Defined.

(* ===================================================================== *)
(** ** Properties of the rental-plan checkboxes *)
(* ===================================================================== *)

Lemma not_in_filter_neq (plan : RentalPlanName) (l : list RentalPlanName) :
  ~ In plan (List.filter (fun p => plan_neq p plan) l).
Proof.
  intros Hin. apply filter_In in Hin as [_ Hneq].
  unfold plan_neq in Hneq. rewrite bool_decide_eq_true_2 in Hneq by done.
  discriminate.
Qed.

(** Unchecking a plan in the coworking form takes the plan out of
    [selectedRentalPlans], sets its price field to [undefined] and leaves
    the other three price fields alone. *)
Lemma coworking_uncheck_clears_price (w : CoworkingSpaces.Component)
      (plan : RentalPlanName) :
  let v := values (CoworkingSpaces.form w) in
  let v' := values (CoworkingSpaces.form
                      (run (CoworkingSpaces.onCheckedChange plan (Checked false)) w)) in
  CoworkingSpaces.FormValues.selectedRentalPlans v'
  = List.filter (fun p => plan_neq p plan)
      (CoworkingSpaces.FormValues.selectedRentalPlans v)
  /\ ~ In plan (CoworkingSpaces.FormValues.selectedRentalPlans v')
  /\ rent_field v' plan = None
  /\ (forall other, other <> plan -> rent_field v' other = rent_field v other).
Proof.
  destruct w as [[v d e] imgs sub ch]. destruct v. cbv zeta.
  split; [by destruct plan|]. split.
  - destruct plan; apply not_in_filter_neq.
  - split; [by destruct plan|].
    intros other Hne. by destruct plan, other.
Qed.

(** The raw-space form does the same. *)
Lemma raw_uncheck_clears_price (w : RawSpaceLab.Component)
      (plan : RentalPlanName) :
  let v := values (RawSpaceLab.form w) in
  let v' := values (RawSpaceLab.form
                      (run (RawSpaceLab.onCheckedChange plan (Checked false)) w)) in
  RawSpaceLab.FormValues.selectedRentalPlans v'
  = List.filter (fun p => plan_neq p plan)
      (RawSpaceLab.FormValues.selectedRentalPlans v)
  /\ ~ In plan (RawSpaceLab.FormValues.selectedRentalPlans v')
  /\ rent_field v' plan = None
  /\ (forall other, other <> plan -> rent_field v' other = rent_field v other).
Proof.
  destruct w as [[v d e] imgs rows sub ch]. destruct v. cbv zeta.
  split; [by destruct plan|]. split.
  - destruct plan; apply not_in_filter_neq.
  - split; [by destruct plan|].
    intros other Hne. by destruct plan, other.
Qed.

(** The lab form's checkbox takes the plan out of [selectedRentalPlans]
    but writes no price field at all. *)
Lemma bio_uncheck_keeps_prices (w : BioAlliedLabs.Component)
      (plan other : RentalPlanName) :
  let v := values (BioAlliedLabs.form w) in
  let v' := values (BioAlliedLabs.form
                      (run (BioAlliedLabs.onCheckedChange plan (Checked false)) w)) in
  ~ In plan (BioAlliedLabs.FormValues.selectedRentalPlans v')
  /\ rent_field v' other = rent_field v other.
Proof.
  destruct w as [[v d e] imgs rows sub ch]. destruct v. cbv zeta.
  split; [apply not_in_filter_neq | by destruct other].
Qed.

(** C2: in the lab form, unchecking Monthly on a draft with Monthly
    selected at 5000 empties [selectedRentalPlans] and leaves
    [rentPerMonth] at 5000 instead of [undefined]; the stale price is then
    part of what a later submission copies into the payload's
    [rentPerMonth]. *)
Theorem bio_uncheck_leaves_stale_price :
  let values0 := lab_values [row_L1] [Monthly] (Some (Num 5000)) in
  let w := lab_component [js "u1"] [row_L1] values0 in
  let w' := run (BioAlliedLabs.onCheckedChange Monthly (Checked false)) w in
  BioAlliedLabs.FormValues.selectedRentalPlans (values (BioAlliedLabs.form w')) = []
  /\ BioAlliedLabs.FormValues.rentPerMonth (values (BioAlliedLabs.form w'))
     = Some (Num 5000)
  /\ BioAlliedLabs.FormValues.rentPerMonth (values (BioAlliedLabs.form w')) <> None.
Proof. cbv zeta. split; [reflexivity | split; [reflexivity | discriminate]]. Qed.

(* ===================================================================== *)
(** ** Properties of the sign-in redirect *)
(* ===================================================================== *)

(** Taken alone, the effect's callback computes the route the redirect is
    meant to take: a non-empty 'from', else the dashboard of the user's
    type; and nothing unless the status is 'authenticated'. *)
Lemma redirect_callback_target :
  (forall (query : option jsstring) (session : SignIn.Session) (u : SignIn.User),
      SignIn.user session = Some u ->
      SignIn.redirect_callback SignIn.authenticated (Some session)
        (SignIn.from_param query)
      = Some (match query with
              | Some (c :: rest) => c :: rest
              | _ =>
                  if bool_decide (SignIn.userType u = js "startup")
                  then js "/startup/dashboard"
                  else js "/service-provider/dashboard"
              end))
  /\
  (forall status session from,
      status <> SignIn.authenticated ->
      SignIn.redirect_callback status session from = None).
Proof.
  split.
  - intros query session u Huser. unfold SignIn.redirect_callback.
    rewrite bool_decide_eq_true_2 by done. rewrite Huser.
    by destruct query as [[|c rest]|].
  - intros status session from Hstatus. unfold SignIn.redirect_callback.
    by rewrite bool_decide_eq_false_2.
Qed.

(** C9: the element [SignIn] returns refers to [Suspense], which no import
    binds, so building it throws and the render never completes; the
    effect is never committed and [router.push] receives nothing, whatever
    the session and the 'from' parameter.  For an authenticated 'startup'
    user without 'from' the callback alone would give
    '/startup/dashboard', and with 'from' set to '/facilities' it would
    give that route; the page pushes neither. *)
Theorem sign_in_render_throws_before_redirect :
  bool_decide ("Suspense" ∈ SignIn.imported) = false
  /\ SignIn.render = Effects.Throw
  /\ (forall status session get_from,
         SignIn.pushed status session get_from = None)
  /\ (let session :=
        Some (SignIn.mkSession (Some (SignIn.mkUser (js "startup")))) in
      SignIn.redirect_callback SignIn.authenticated session
        (SignIn.from_param None)
      = Some (js "/startup/dashboard")
      /\ SignIn.pushed SignIn.authenticated session None = None
      /\ SignIn.redirect_callback SignIn.authenticated session
           (SignIn.from_param (Some (js "/facilities")))
         = Some (js "/facilities")
      /\ SignIn.pushed SignIn.authenticated session (Some (js "/facilities"))
         = None).
Proof.
  split; [by vm_compute|].
  split; [by vm_compute|].
  split; [by vm_compute|].
  cbv zeta. repeat split; by vm_compute.
Qed.

(* ===================================================================== *)
(** ** Further properties: what reaches [onSubmit] *)
(* ===================================================================== *)

(** A run that hands a payload to [onSubmit] has passed every guard, the
    payload is the one assembled from the draft, and the component ends
    reset or with the generic error according to how the promise
    settles. *)
Lemma bio_submit_inv onSubmit values (w : BioAlliedLabs.Component) data :
  BioAlliedLabs.submitted (run (BioAlliedLabs.handleFormSubmit onSubmit values) w)
  = BioAlliedLabs.submitted w ++ [data] ->
  let valid :=
    List.filter BioAlliedLabs.complete (BioAlliedLabs.FormValues.equipment values) in
  BioAlliedLabs.images w <> []
  /\ valid <> []
  /\ BioAlliedLabs.FormValues.selectedRentalPlans values <> []
  /\ rentValidation values = true
  /\ data = BioAlliedLabs.submissionData (BioAlliedLabs.images w) valid values
  /\ run (BioAlliedLabs.handleFormSubmit onSubmit values) w
     = match onSubmit data with
       | Fulfilled =>
           BioAlliedLabs.mkComponent (reset (BioAlliedLabs.form w)) []
             [BioAlliedLabs.blank_equipment]
             (BioAlliedLabs.submitted w ++ [data]) (S (BioAlliedLabs.changes w))
       | Rejected =>
           BioAlliedLabs.mkComponent
             (setError "root" msg_failed (BioAlliedLabs.form w))
             (BioAlliedLabs.images w) (BioAlliedLabs.equipment w)
             (BioAlliedLabs.submitted w ++ [data]) (BioAlliedLabs.changes w)
       end.
Proof.
  rewrite bio_submit_cases; cbv zeta.
  destruct (BioAlliedLabs.images w) as [|i imgs] eqn:Himg;
    [intros Hsub; exfalso; exact (snoc_not_self _ _ Hsub)|].
  destruct (List.filter _ _) as [|r rows] eqn:Hrows;
    [intros Hsub; exfalso; exact (snoc_not_self _ _ Hsub)|].
  destruct (BioAlliedLabs.FormValues.selectedRentalPlans values) as [|p ps] eqn:Hsel;
    [intros Hsub; exfalso; exact (snoc_not_self _ _ Hsub)|].
  destruct (rentValidation values) eqn:Hrent;
    [|intros Hsub; exfalso; exact (snoc_not_self _ _ Hsub)].
  cbn [is_empty negb].
  intros Hsub.
  assert (data = BioAlliedLabs.submissionData (i :: imgs) (r :: rows) values) as ->.
  { destruct (onSubmit _); simpl in Hsub; apply snoc_inj in Hsub; congruence. }
  repeat split; done.
Qed.

Lemma coworking_submit_inv onSubmit values (w : CoworkingSpaces.Component) data :
  CoworkingSpaces.submitted (run (CoworkingSpaces.handleFormSubmit onSubmit values) w)
  = CoworkingSpaces.submitted w ++ [data] ->
  CoworkingSpaces.images w <> []
  /\ CoworkingSpaces.FormValues.selectedRentalPlans values <> []
  /\ rentValidation values = true
  /\ le (CoworkingSpaces.FormValues.totalSeats values) (Num 0) = false
  /\ gt (CoworkingSpaces.FormValues.availableSeats values)
        (CoworkingSpaces.FormValues.totalSeats values) = false
  /\ data = CoworkingSpaces.submissionData (CoworkingSpaces.images w) values
  /\ run (CoworkingSpaces.handleFormSubmit onSubmit values) w
     = match onSubmit data with
       | Fulfilled =>
           CoworkingSpaces.mkComponent (reset (CoworkingSpaces.form w)) []
             (CoworkingSpaces.submitted w ++ [data])
             (S (CoworkingSpaces.changes w))
       | Rejected =>
           CoworkingSpaces.mkComponent
             (setError "root" msg_failed (CoworkingSpaces.form w))
             (CoworkingSpaces.images w)
             (CoworkingSpaces.submitted w ++ [data]) (CoworkingSpaces.changes w)
       end.
Proof.
  rewrite coworking_submit_cases; cbv zeta.
  destruct (CoworkingSpaces.images w) as [|i imgs] eqn:Himg;
    [intros Hsub; exfalso; exact (snoc_not_self _ _ Hsub)|].
  destruct (CoworkingSpaces.FormValues.selectedRentalPlans values) as [|p ps] eqn:Hsel;
    [intros Hsub; exfalso; exact (snoc_not_self _ _ Hsub)|].
  destruct (rentValidation values) eqn:Hrent;
    [|intros Hsub; exfalso; exact (snoc_not_self _ _ Hsub)].
  destruct (le _ _) eqn:Hle;
    [intros Hsub; exfalso; exact (snoc_not_self _ _ Hsub)|].
  destruct (gt _ _) eqn:Hgt;
    [intros Hsub; exfalso; exact (snoc_not_self _ _ Hsub)|].
  cbn [is_empty negb].
  intros Hsub.
  assert (data = CoworkingSpaces.submissionData (i :: imgs) values) as ->.
  { destruct (onSubmit _); simpl in Hsub; apply snoc_inj in Hsub; congruence. }
  repeat split; done.
Qed.

Lemma raw_submit_inv onSubmit values (w : RawSpaceLab.Component) data :
  RawSpaceLab.submitted (run (RawSpaceLab.handleFormSubmit onSubmit values) w)
  = RawSpaceLab.submitted w ++ [data] ->
  let valid :=
    List.filter RawSpaceLab.complete (RawSpaceLab.FormValues.areaDetails values) in
  RawSpaceLab.images w <> []
  /\ valid <> []
  /\ RawSpaceLab.FormValues.selectedRentalPlans values <> []
  /\ rentValidation values = true
  /\ data = RawSpaceLab.submissionData (RawSpaceLab.images w) valid values
  /\ run (RawSpaceLab.handleFormSubmit onSubmit values) w
     = match onSubmit data with
       | Fulfilled =>
           RawSpaceLab.mkComponent (reset (RawSpaceLab.form w)) []
             [RawSpaceLab.blank_area]
             (RawSpaceLab.submitted w ++ [data]) (S (RawSpaceLab.changes w))
       | Rejected =>
           RawSpaceLab.mkComponent
             (setError "root" msg_failed (RawSpaceLab.form w))
             (RawSpaceLab.images w) (RawSpaceLab.areaDetails w)
             (RawSpaceLab.submitted w ++ [data]) (RawSpaceLab.changes w)
       end.
Proof.
  rewrite raw_submit_cases; cbv zeta.
  destruct (RawSpaceLab.images w) as [|i imgs] eqn:Himg;
    [intros Hsub; exfalso; exact (snoc_not_self _ _ Hsub)|].
  destruct (List.filter _ _) as [|r rows] eqn:Hrows;
    [intros Hsub; exfalso; exact (snoc_not_self _ _ Hsub)|].
  destruct (RawSpaceLab.FormValues.selectedRentalPlans values) as [|p ps] eqn:Hsel;
    [intros Hsub; exfalso; exact (snoc_not_self _ _ Hsub)|].
  destruct (rentValidation values) eqn:Hrent;
    [|intros Hsub; exfalso; exact (snoc_not_self _ _ Hsub)].
  cbn [is_empty negb].
  intros Hsub.
  assert (data = RawSpaceLab.submissionData (i :: imgs) (r :: rows) values) as ->.
  { destruct (onSubmit _); simpl in Hsub; apply snoc_inj in Hsub; congruence. }
  repeat split; done.
Qed.

Section RentPayload.
Context {V : Type} {RF : RentFields V}.

Lemma rentalPlans_names (values : V) :
  map name (rentalPlans values) = selectedRentalPlans values.
Proof.
  unfold rentalPlans. rewrite map_map. simpl. apply map_id.
Qed.

Lemma or_zero_truthy (o : option number) :
  truthy_opt o = true -> Some (or_zero o) = o /\ truthy (or_zero o) = true.
Proof.
  destruct o as [n|]; simpl; [|discriminate]. intros Ht. by rewrite Ht.
Qed.

(** Past the rent check, every entry carries the price field of its plan,
    and that price is neither zero nor [NaN]. *)
Lemma rentalPlans_entries (values : V) :
  rentValidation values = true ->
  Forall (fun rp => duration rp = name rp
                    /\ truthy (price rp) = true
                    /\ rent_field values (name rp) = Some (price rp))
         (rentalPlans values).
Proof.
  unfold rentValidation, every, rentalPlans. intros Hall.
  rewrite forallb_forall in Hall.
  apply List.Forall_forall. intros rp Hin.
  apply in_map_iff in Hin as (plan & <- & Hin). simpl.
  specialize (Hall plan Hin).
  destruct plan; apply or_zero_truthy in Hall as [Heq Ht]; auto.
Qed.
End RentPayload.

(** X1: every payload handed to [onSubmit], by any of the three forms,
    lists the selected plans in their order; each entry has
    [duration = name] and carries the price field of its plan, which is
    neither zero nor [NaN]: the [|| 0] fallback never reaches the
    adapter. *)
Theorem payload_rental_plans :
  (forall onSubmit values (w : BioAlliedLabs.Component) data,
      BioAlliedLabs.submitted (run (BioAlliedLabs.handleFormSubmit onSubmit values) w)
      = BioAlliedLabs.submitted w ++ [data] ->
      map name (BioAlliedLabs.Submission.rentalPlans data)
      = BioAlliedLabs.FormValues.selectedRentalPlans values
      /\ BioAlliedLabs.Submission.rentalPlans data <> []
      /\ Forall (fun rp => duration rp = name rp
                           /\ truthy (price rp) = true
                           /\ rent_field values (name rp) = Some (price rp))
                (BioAlliedLabs.Submission.rentalPlans data))
  /\
  (forall onSubmit values (w : CoworkingSpaces.Component) data,
      CoworkingSpaces.submitted (run (CoworkingSpaces.handleFormSubmit onSubmit values) w)
      = CoworkingSpaces.submitted w ++ [data] ->
      map name (CoworkingSpaces.Submission.rentalPlans data)
      = CoworkingSpaces.FormValues.selectedRentalPlans values
      /\ CoworkingSpaces.Submission.rentalPlans data <> []
      /\ Forall (fun rp => duration rp = name rp
                           /\ truthy (price rp) = true
                           /\ rent_field values (name rp) = Some (price rp))
                (CoworkingSpaces.Submission.rentalPlans data))
  /\
  (forall onSubmit values (w : RawSpaceLab.Component) data,
      RawSpaceLab.submitted (run (RawSpaceLab.handleFormSubmit onSubmit values) w)
      = RawSpaceLab.submitted w ++ [data] ->
      map name (RawSpaceLab.Submission.rentalPlans data)
      = RawSpaceLab.FormValues.selectedRentalPlans values
      /\ RawSpaceLab.Submission.rentalPlans data <> []
      /\ Forall (fun rp => duration rp = name rp
                           /\ truthy (price rp) = true
                           /\ rent_field values (name rp) = Some (price rp))
                (RawSpaceLab.Submission.rentalPlans data)).
Proof.
  split; [|split]; intros onSubmit values w data Hsub.
  - apply bio_submit_inv in Hsub as (_ & _ & Hsel & Hrent & -> & _). simpl.
    split; [apply (rentalPlans_names (RF := BioAlliedLabs.rent_fields))|].
    split; [|by apply (rentalPlans_entries (RF := BioAlliedLabs.rent_fields))].
    intros Hnil. apply Hsel.
    pose proof (rentalPlans_names (RF := BioAlliedLabs.rent_fields) values) as Hnames.
    rewrite Hnil in Hnames. exact (eq_sym Hnames).
  - apply coworking_submit_inv in Hsub as (_ & Hsel & Hrent & _ & _ & -> & _). simpl.
    split; [apply (rentalPlans_names (RF := CoworkingSpaces.rent_fields))|].
    split; [|by apply (rentalPlans_entries (RF := CoworkingSpaces.rent_fields))].
    intros Hnil. apply Hsel.
    pose proof (rentalPlans_names (RF := CoworkingSpaces.rent_fields) values) as Hnames.
    rewrite Hnil in Hnames. exact (eq_sym Hnames).
  - apply raw_submit_inv in Hsub as (_ & _ & Hsel & Hrent & -> & _). simpl.
    split; [apply (rentalPlans_names (RF := RawSpaceLab.rent_fields))|].
    split; [|by apply (rentalPlans_entries (RF := RawSpaceLab.rent_fields))].
    intros Hnil. apply Hsel.
    pose proof (rentalPlans_names (RF := RawSpaceLab.rent_fields) values) as Hnames.
    rewrite Hnil in Hnames. exact (eq_sym Hnames).
Qed.

Lemma payload_rental_plans_witness :
  let values := coworking_values [Monthly; Weekly] (Num 10) (Num 4) (Some (Num 5000)) in
  let values := CoworkingSpaces.set_rentPerWeek (Some (Num 1500)) values in
  let data := CoworkingSpaces.submissionData [js "u1"] values in
  map name (CoworkingSpaces.Submission.rentalPlans data) = [Monthly; Weekly]
  /\ CoworkingSpaces.Submission.rentalPlans data <> []
  /\ Forall (fun rp => duration rp = name rp
                       /\ truthy (price rp) = true
                       /\ rent_field values (name rp) = Some (price rp))
            (CoworkingSpaces.Submission.rentalPlans data).
Proof.
  cbv zeta.
  apply (proj1 (proj2 payload_rental_plans) (fun _ => Rejected)
           (CoworkingSpaces.set_rentPerWeek (Some (Num 1500))
              (coworking_values [Monthly; Weekly] (Num 10) (Num 4) (Some (Num 5000))))
           (coworking_component [js "u1"]
              (coworking_values [] (Num 0) (Num 0) None))).
  reflexivity.
Defined.

(** X2: every payload handed to [onSubmit] carries the component's own
    image list (the [useState] cell, not the form's [images] field), which
    is not empty; a lab payload has at least one equipment row and a
    raw-space payload at least one area row, every row without a blank
    sub-field. *)
Theorem payload_never_empty :
  (forall onSubmit values (w : BioAlliedLabs.Component) data,
      BioAlliedLabs.submitted (run (BioAlliedLabs.handleFormSubmit onSubmit values) w)
      = BioAlliedLabs.submitted w ++ [data] ->
      BioAlliedLabs.Submission.images data = BioAlliedLabs.images w
      /\ BioAlliedLabs.Submission.images data <> []
      /\ BioAlliedLabs.Submission.equipment data <> []
      /\ Forall filled (BioAlliedLabs.Submission.equipment data))
  /\
  (forall onSubmit values (w : CoworkingSpaces.Component) data,
      CoworkingSpaces.submitted (run (CoworkingSpaces.handleFormSubmit onSubmit values) w)
      = CoworkingSpaces.submitted w ++ [data] ->
      CoworkingSpaces.Submission.images data = CoworkingSpaces.images w
      /\ CoworkingSpaces.Submission.images data <> [])
  /\
  (forall onSubmit values (w : RawSpaceLab.Component) data,
      RawSpaceLab.submitted (run (RawSpaceLab.handleFormSubmit onSubmit values) w)
      = RawSpaceLab.submitted w ++ [data] ->
      RawSpaceLab.Submission.images data = RawSpaceLab.images w
      /\ RawSpaceLab.Submission.images data <> []
      /\ RawSpaceLab.Submission.areaDetails data <> []
      /\ Forall measured (RawSpaceLab.Submission.areaDetails data)).
Proof.
  split; [|split]; intros onSubmit values w data Hsub.
  - apply bio_submit_inv in Hsub as (Himg & Hrows & _ & _ & -> & _). simpl.
    rewrite copy_equipment. repeat split; try done.
    apply List.Forall_forall. intros eq Hin.
    apply filter_In in Hin as [_ Hc]. by apply complete_filled.
  - apply coworking_submit_inv in Hsub as (Himg & _ & _ & _ & _ & -> & _).
    by simpl.
  - apply raw_submit_inv in Hsub as (Himg & Hrows & _ & _ & -> & _). simpl.
    rewrite copy_areaDetails. repeat split; try done.
    apply List.Forall_forall. intros a Hin.
    apply filter_In in Hin as [_ Hc]. by apply complete_measured.
Qed.

Lemma payload_never_empty_witness :
  let values := raw_values [RawSpaceLab.blank_area; area_40] [Monthly] (Some (Num 900)) in
  let data := RawSpaceLab.submissionData [js "u1"] [area_40] values in
  RawSpaceLab.Submission.images data = [js "u1"]
  /\ RawSpaceLab.Submission.images data <> []
  /\ RawSpaceLab.Submission.areaDetails data <> []
  /\ Forall measured (RawSpaceLab.Submission.areaDetails data).
Proof.
  cbv zeta.
  apply (proj2 (proj2 payload_never_empty) (fun _ => Fulfilled)
           (raw_values [RawSpaceLab.blank_area; area_40] [Monthly] (Some (Num 900)))
           (raw_component [js "u1"] [RawSpaceLab.blank_area]
              (raw_values [RawSpaceLab.blank_area] [] None))).
  reflexivity.
Defined.

(* ===================================================================== *)
(** ** Further properties: the course of a submission *)
(* ===================================================================== *)

Lemma not_missing_truthy (o : option number) :
  ~ rent_missing o -> truthy_opt o = true.
Proof.
  intros Hn. destruct (truthy_opt o) eqn:Ht; [done|].
  by apply truthy_opt_missing in Ht.
Qed.

Lemma rentValidation_not_missing {V : Type} {RF : RentFields V} (values : V) :
  (forall plan, In plan (selectedRentalPlans values) ->
                ~ rent_missing (rent_field values plan)) ->
  rentValidation values = true.
Proof.
  intros Hall. unfold rentValidation, every. apply forallb_forall.
  intros plan Hin. specialize (Hall plan Hin).
  apply not_missing_truthy in Hall. by destruct plan.
Qed.

(** A draft that passes every guard is handed to [onSubmit], and the
    component ends according to how the promise settles. *)
Lemma bio_valid_run onSubmit values (w : BioAlliedLabs.Component) row :
  BioAlliedLabs.images w <> [] ->
  In row (BioAlliedLabs.FormValues.equipment values) -> filled row ->
  BioAlliedLabs.FormValues.selectedRentalPlans values <> [] ->
  (forall plan, In plan (BioAlliedLabs.FormValues.selectedRentalPlans values) ->
                ~ rent_missing (rent_field values plan)) ->
  let data :=
    BioAlliedLabs.submissionData (BioAlliedLabs.images w)
      (List.filter BioAlliedLabs.complete
         (BioAlliedLabs.FormValues.equipment values)) values in
  run (BioAlliedLabs.handleFormSubmit onSubmit values) w
  = match onSubmit data with
    | Fulfilled =>
        BioAlliedLabs.mkComponent (reset (BioAlliedLabs.form w)) []
          [BioAlliedLabs.blank_equipment]
          (BioAlliedLabs.submitted w ++ [data]) (S (BioAlliedLabs.changes w))
    | Rejected =>
        BioAlliedLabs.mkComponent
          (setError "root" msg_failed (BioAlliedLabs.form w))
          (BioAlliedLabs.images w) (BioAlliedLabs.equipment w)
          (BioAlliedLabs.submitted w ++ [data]) (BioAlliedLabs.changes w)
    end.
Proof.
  intros Himg Hin Hfilled Hsel Hrent data. subst data.
  rewrite bio_submit_cases; cbv zeta.
  rewrite (is_empty_false _ Himg), (is_empty_false _ Hsel).
  rewrite (rentValidation_not_missing (RF := BioAlliedLabs.rent_fields) values Hrent).
  rewrite is_empty_false; [reflexivity|].
  intros Hnil. apply complete_filled in Hfilled.
  assert (In row (List.filter BioAlliedLabs.complete
                    (BioAlliedLabs.FormValues.equipment values))) as Hrow
      by (by apply filter_In).
  rewrite Hnil in Hrow. inversion Hrow.
Qed.

Lemma coworking_valid_run onSubmit values (w : CoworkingSpaces.Component) :
  CoworkingSpaces.images w <> [] ->
  CoworkingSpaces.FormValues.selectedRentalPlans values <> [] ->
  (forall plan, In plan (CoworkingSpaces.FormValues.selectedRentalPlans values) ->
                ~ rent_missing (rent_field values plan)) ->
  le (CoworkingSpaces.FormValues.totalSeats values) (Num 0) = false ->
  gt (CoworkingSpaces.FormValues.availableSeats values)
     (CoworkingSpaces.FormValues.totalSeats values) = false ->
  let data := CoworkingSpaces.submissionData (CoworkingSpaces.images w) values in
  run (CoworkingSpaces.handleFormSubmit onSubmit values) w
  = match onSubmit data with
    | Fulfilled =>
        CoworkingSpaces.mkComponent (reset (CoworkingSpaces.form w)) []
          (CoworkingSpaces.submitted w ++ [data]) (S (CoworkingSpaces.changes w))
    | Rejected =>
        CoworkingSpaces.mkComponent
          (setError "root" msg_failed (CoworkingSpaces.form w))
          (CoworkingSpaces.images w)
          (CoworkingSpaces.submitted w ++ [data]) (CoworkingSpaces.changes w)
    end.
Proof.
  intros Himg Hsel Hrent Htotal Havail data. subst data.
  rewrite coworking_submit_cases; cbv zeta.
  rewrite (is_empty_false _ Himg), (is_empty_false _ Hsel).
  rewrite (rentValidation_not_missing (RF := CoworkingSpaces.rent_fields) values Hrent).
  by rewrite Htotal, Havail.
Qed.

Lemma raw_valid_run onSubmit values (w : RawSpaceLab.Component) row :
  RawSpaceLab.images w <> [] ->
  In row (RawSpaceLab.FormValues.areaDetails values) -> measured row ->
  RawSpaceLab.FormValues.selectedRentalPlans values <> [] ->
  (forall plan, In plan (RawSpaceLab.FormValues.selectedRentalPlans values) ->
                ~ rent_missing (rent_field values plan)) ->
  let data :=
    RawSpaceLab.submissionData (RawSpaceLab.images w)
      (List.filter RawSpaceLab.complete
         (RawSpaceLab.FormValues.areaDetails values)) values in
  run (RawSpaceLab.handleFormSubmit onSubmit values) w
  = match onSubmit data with
    | Fulfilled =>
        RawSpaceLab.mkComponent (reset (RawSpaceLab.form w)) []
          [RawSpaceLab.blank_area]
          (RawSpaceLab.submitted w ++ [data]) (S (RawSpaceLab.changes w))
    | Rejected =>
        RawSpaceLab.mkComponent
          (setError "root" msg_failed (RawSpaceLab.form w))
          (RawSpaceLab.images w) (RawSpaceLab.areaDetails w)
          (RawSpaceLab.submitted w ++ [data]) (RawSpaceLab.changes w)
    end.
Proof.
  intros Himg Hin Hmeasured Hsel Hrent data. subst data.
  rewrite raw_submit_cases; cbv zeta.
  rewrite (is_empty_false _ Himg), (is_empty_false _ Hsel).
  rewrite (rentValidation_not_missing (RF := RawSpaceLab.rent_fields) values Hrent).
  rewrite is_empty_false; [reflexivity|].
  intros Hnil. apply complete_measured in Hmeasured.
  assert (In row (List.filter RawSpaceLab.complete
                    (RawSpaceLab.FormValues.areaDetails values))) as Hrow
      by (by apply filter_In).
  rewrite Hnil in Hrow. inversion Hrow.
Qed.

(** X3: a draft that has an image, a selected plan, a price that is
    neither absent, [NaN] nor zero for every selected plan and (lab,
    raw space) a row without a blank sub-field or (coworking) seat counts
    that pass both seat guards is handed to [onSubmit], once, however the
    promise settles.  When it fulfils, the form is reset, the image list
    emptied, the rows set back to one blank row and [onChange] notified
    once; when it rejects, only the generic root error is added. *)
Theorem valid_draft_is_submitted_and_reset :
  (forall onSubmit values (w : BioAlliedLabs.Component) row,
      BioAlliedLabs.images w <> [] ->
      In row (BioAlliedLabs.FormValues.equipment values) -> filled row ->
      BioAlliedLabs.FormValues.selectedRentalPlans values <> [] ->
      (forall plan, In plan (BioAlliedLabs.FormValues.selectedRentalPlans values) ->
                    ~ rent_missing (rent_field values plan)) ->
      let data :=
        BioAlliedLabs.submissionData (BioAlliedLabs.images w)
          (List.filter BioAlliedLabs.complete
             (BioAlliedLabs.FormValues.equipment values)) values in
      let w' := run (BioAlliedLabs.handleFormSubmit onSubmit values) w in
      BioAlliedLabs.submitted w' = BioAlliedLabs.submitted w ++ [data]
      /\ (onSubmit data = Fulfilled ->
          w' = BioAlliedLabs.mkComponent (reset (BioAlliedLabs.form w)) []
                 [BioAlliedLabs.blank_equipment]
                 (BioAlliedLabs.submitted w ++ [data])
                 (S (BioAlliedLabs.changes w)))
      /\ (onSubmit data = Rejected ->
          w' = BioAlliedLabs.mkComponent
                 (setError "root" "Failed to submit form. Please try again."
                    (BioAlliedLabs.form w))
                 (BioAlliedLabs.images w) (BioAlliedLabs.equipment w)
                 (BioAlliedLabs.submitted w ++ [data]) (BioAlliedLabs.changes w)))
  /\
  (forall onSubmit values (w : CoworkingSpaces.Component),
      CoworkingSpaces.images w <> [] ->
      CoworkingSpaces.FormValues.selectedRentalPlans values <> [] ->
      (forall plan, In plan (CoworkingSpaces.FormValues.selectedRentalPlans values) ->
                    ~ rent_missing (rent_field values plan)) ->
      le (CoworkingSpaces.FormValues.totalSeats values) (Num 0) = false ->
      gt (CoworkingSpaces.FormValues.availableSeats values)
         (CoworkingSpaces.FormValues.totalSeats values) = false ->
      let data := CoworkingSpaces.submissionData (CoworkingSpaces.images w) values in
      let w' := run (CoworkingSpaces.handleFormSubmit onSubmit values) w in
      CoworkingSpaces.submitted w' = CoworkingSpaces.submitted w ++ [data]
      /\ (onSubmit data = Fulfilled ->
          w' = CoworkingSpaces.mkComponent (reset (CoworkingSpaces.form w)) []
                 (CoworkingSpaces.submitted w ++ [data])
                 (S (CoworkingSpaces.changes w)))
      /\ (onSubmit data = Rejected ->
          w' = CoworkingSpaces.mkComponent
                 (setError "root" "Failed to submit form. Please try again."
                    (CoworkingSpaces.form w))
                 (CoworkingSpaces.images w)
                 (CoworkingSpaces.submitted w ++ [data])
                 (CoworkingSpaces.changes w)))
  /\
  (forall onSubmit values (w : RawSpaceLab.Component) row,
      RawSpaceLab.images w <> [] ->
      In row (RawSpaceLab.FormValues.areaDetails values) -> measured row ->
      RawSpaceLab.FormValues.selectedRentalPlans values <> [] ->
      (forall plan, In plan (RawSpaceLab.FormValues.selectedRentalPlans values) ->
                    ~ rent_missing (rent_field values plan)) ->
      let data :=
        RawSpaceLab.submissionData (RawSpaceLab.images w)
          (List.filter RawSpaceLab.complete
             (RawSpaceLab.FormValues.areaDetails values)) values in
      let w' := run (RawSpaceLab.handleFormSubmit onSubmit values) w in
      RawSpaceLab.submitted w' = RawSpaceLab.submitted w ++ [data]
      /\ (onSubmit data = Fulfilled ->
          w' = RawSpaceLab.mkComponent (reset (RawSpaceLab.form w)) []
                 [RawSpaceLab.blank_area]
                 (RawSpaceLab.submitted w ++ [data]) (S (RawSpaceLab.changes w)))
      /\ (onSubmit data = Rejected ->
          w' = RawSpaceLab.mkComponent
                 (setError "root" "Failed to submit form. Please try again."
                    (RawSpaceLab.form w))
                 (RawSpaceLab.images w) (RawSpaceLab.areaDetails w)
                 (RawSpaceLab.submitted w ++ [data]) (RawSpaceLab.changes w))).
Proof.
  split; [|split].
  - intros onSubmit values w row Himg Hin Hfilled Hsel Hrent data w'. subst w'.
    rewrite (bio_valid_run onSubmit values w row Himg Hin Hfilled Hsel Hrent).
    fold data. destruct (onSubmit data); (split; [reflexivity|]); split; done.
  - intros onSubmit values w Himg Hsel Hrent Htotal Havail data w'. subst w'.
    rewrite (coworking_valid_run onSubmit values w Himg Hsel Hrent Htotal Havail).
    fold data. destruct (onSubmit data); (split; [reflexivity|]); split; done.
  - intros onSubmit values w row Himg Hin Hmeasured Hsel Hrent data w'. subst w'.
    rewrite (raw_valid_run onSubmit values w row Himg Hin Hmeasured Hsel Hrent).
    fold data. destruct (onSubmit data); (split; [reflexivity|]); split; done.
Qed.

Lemma valid_draft_is_submitted_and_reset_witness :
  let values := raw_values [area_40] [Monthly] (Some (Num 900)) in
  let w := raw_component [js "u1"] [area_40] values in
  let data := RawSpaceLab.submissionData [js "u1"] [area_40] values in
  RawSpaceLab.submitted (run (RawSpaceLab.handleFormSubmit (fun _ => Rejected) values) w)
  = [data]
  /\ run (RawSpaceLab.handleFormSubmit (fun _ => Fulfilled) values) w
     = RawSpaceLab.mkComponent (reset (RawSpaceLab.form w)) [] [RawSpaceLab.blank_area]
         [data] 1.
Proof.
  cbv zeta.
  assert (measured area_40) as Hmeasured
      by (split; [simpl; lia | repeat split; discriminate]).
  assert (forall plan, In plan [Monthly] ->
                       ~ rent_missing
                           (rent_field (raw_values [area_40] [Monthly] (Some (Num 900)))
                              plan)) as Hrent
      by (intros plan [<- | []] [H | [H | H]]; simpl in H; discriminate).
  split.
  - exact (proj1 (proj2 (proj2 valid_draft_is_submitted_and_reset) (fun _ => Rejected)
                    (raw_values [area_40] [Monthly] (Some (Num 900)))
                    (raw_component [js "u1"] [area_40]
                       (raw_values [area_40] [Monthly] (Some (Num 900))))
                    area_40 ltac:(discriminate) (or_introl eq_refl) Hmeasured
                    ltac:(discriminate) Hrent)).
  - exact (proj1 (proj2 (proj2 (proj2 valid_draft_is_submitted_and_reset)
                                 (fun _ => Fulfilled)
                                 (raw_values [area_40] [Monthly] (Some (Num 900)))
                                 (raw_component [js "u1"] [area_40]
                                    (raw_values [area_40] [Monthly] (Some (Num 900))))
                                 area_40 ltac:(discriminate) (or_introl eq_refl)
                                 Hmeasured ltac:(discriminate) Hrent))
             eq_refl).
Defined.

(** C7: a draft that passes the handler's checks is handed to [onSubmit]
    in a payload, however the promise settles; the payload's row array
    holds exactly the rows of the draft that have no blank sub-field
    (equipment: three strings non-empty after trimming; area details: area
    above zero and the three enumerated fields set), in the draft's order,
    and its [type] is the form's discriminator.  No run hands over a
    payload of another shape. *)
Theorem payload_rows_and_discriminator :
  (forall onSubmit values (w : BioAlliedLabs.Component) row,
      BioAlliedLabs.images w <> [] ->
      In row (BioAlliedLabs.FormValues.equipment values) -> filled row ->
      BioAlliedLabs.FormValues.selectedRentalPlans values <> [] ->
      (forall plan, In plan (BioAlliedLabs.FormValues.selectedRentalPlans values) ->
                    ~ rent_missing (rent_field values plan)) ->
      exists data,
        BioAlliedLabs.submitted (run (BioAlliedLabs.handleFormSubmit onSubmit values) w)
        = BioAlliedLabs.submitted w ++ [data]
        /\ BioAlliedLabs.Submission.equipment data
           = filter filled (BioAlliedLabs.FormValues.equipment values)
        /\ BioAlliedLabs.Submission.type data = "bio-allied-labs")
  /\
  (forall onSubmit values (w : CoworkingSpaces.Component),
      CoworkingSpaces.images w <> [] ->
      CoworkingSpaces.FormValues.selectedRentalPlans values <> [] ->
      (forall plan, In plan (CoworkingSpaces.FormValues.selectedRentalPlans values) ->
                    ~ rent_missing (rent_field values plan)) ->
      le (CoworkingSpaces.FormValues.totalSeats values) (Num 0) = false ->
      gt (CoworkingSpaces.FormValues.availableSeats values)
         (CoworkingSpaces.FormValues.totalSeats values) = false ->
      exists data,
        CoworkingSpaces.submitted
          (run (CoworkingSpaces.handleFormSubmit onSubmit values) w)
        = CoworkingSpaces.submitted w ++ [data]
        /\ CoworkingSpaces.Submission.type data = "coworking-spaces")
  /\
  (forall onSubmit values (w : RawSpaceLab.Component) row,
      RawSpaceLab.images w <> [] ->
      In row (RawSpaceLab.FormValues.areaDetails values) -> measured row ->
      RawSpaceLab.FormValues.selectedRentalPlans values <> [] ->
      (forall plan, In plan (RawSpaceLab.FormValues.selectedRentalPlans values) ->
                    ~ rent_missing (rent_field values plan)) ->
      exists data,
        RawSpaceLab.submitted (run (RawSpaceLab.handleFormSubmit onSubmit values) w)
        = RawSpaceLab.submitted w ++ [data]
        /\ RawSpaceLab.Submission.areaDetails data
           = filter measured (RawSpaceLab.FormValues.areaDetails values)
        /\ RawSpaceLab.Submission.type data = "raw-space-lab")
  /\
  (forall onSubmit values (w : BioAlliedLabs.Component) data,
      BioAlliedLabs.submitted (run (BioAlliedLabs.handleFormSubmit onSubmit values) w)
      = BioAlliedLabs.submitted w ++ [data] ->
      BioAlliedLabs.Submission.equipment data
      = filter filled (BioAlliedLabs.FormValues.equipment values)
      /\ BioAlliedLabs.Submission.type data = "bio-allied-labs")
  /\
  (forall onSubmit values (w : CoworkingSpaces.Component) data,
      CoworkingSpaces.submitted (run (CoworkingSpaces.handleFormSubmit onSubmit values) w)
      = CoworkingSpaces.submitted w ++ [data] ->
      CoworkingSpaces.Submission.type data = "coworking-spaces")
  /\
  (forall onSubmit values (w : RawSpaceLab.Component) data,
      RawSpaceLab.submitted (run (RawSpaceLab.handleFormSubmit onSubmit values) w)
      = RawSpaceLab.submitted w ++ [data] ->
      RawSpaceLab.Submission.areaDetails data
      = filter measured (RawSpaceLab.FormValues.areaDetails values)
      /\ RawSpaceLab.Submission.type data = "raw-space-lab").
Proof.
  split; [|split; [|split; [|split; [|split]]]].
  - intros onSubmit values w row Himg Hin Hfilled Hsel Hrent.
    eexists. split.
    + rewrite (bio_valid_run onSubmit values w row Himg Hin Hfilled Hsel Hrent).
      by destruct (onSubmit _).
    + simpl. split; [|done].
      rewrite copy_equipment. apply filter_bool_prop, complete_filled.
  - intros onSubmit values w Himg Hsel Hrent Htotal Havail.
    eexists. split.
    + rewrite (coworking_valid_run onSubmit values w Himg Hsel Hrent Htotal Havail).
      by destruct (onSubmit _).
    + done.
  - intros onSubmit values w row Himg Hin Hmeasured Hsel Hrent.
    eexists. split.
    + rewrite (raw_valid_run onSubmit values w row Himg Hin Hmeasured Hsel Hrent).
      by destruct (onSubmit _).
    + simpl. split; [|done].
      rewrite copy_areaDetails. apply filter_bool_prop, complete_measured.
  - intros onSubmit values w data Hsub.
    destruct (bio_submitted onSubmit values w) as [Hnone | Hone];
      rewrite Hsub in *.
    + symmetry in Hnone. by apply snoc_not_self in Hnone.
    + apply snoc_inj in Hone. subst data. simpl. split; [|done].
      rewrite copy_equipment. apply filter_bool_prop, complete_filled.
  - intros onSubmit values w data Hsub.
    destruct (coworking_submitted onSubmit values w) as [Hnone | Hone];
      rewrite Hsub in *.
    + symmetry in Hnone. by apply snoc_not_self in Hnone.
    + apply snoc_inj in Hone. by subst data.
  - intros onSubmit values w data Hsub.
    destruct (raw_submitted onSubmit values w) as [Hnone | Hone];
      rewrite Hsub in *.
    + symmetry in Hnone. by apply snoc_not_self in Hnone.
    + apply snoc_inj in Hone. subst data. simpl. split; [|done].
      rewrite copy_areaDetails. apply filter_bool_prop, complete_measured.
Qed.

Lemma payload_rows_and_discriminator_witness :
  (let values :=
     lab_values [BioAlliedLabs.mkEquipment (js "L0") (js "  ") (js "C0");
                 row_L1; row_L2] [Monthly] (Some (Num 5000)) in
   let w := lab_component [js "u1"] [row_L1] values in
   exists data,
     BioAlliedLabs.submitted
       (run (BioAlliedLabs.handleFormSubmit (fun _ => Rejected) values) w)
     = BioAlliedLabs.submitted w ++ [data]
     /\ BioAlliedLabs.Submission.equipment data
        = filter filled (BioAlliedLabs.FormValues.equipment values)
     /\ BioAlliedLabs.Submission.type data = "bio-allied-labs")
  /\
  (let values := coworking_values [Monthly] (Num 10) (Num 4) (Some (Num 5000)) in
   let w := coworking_component [js "u1"] values in
   exists data,
     CoworkingSpaces.submitted
       (run (CoworkingSpaces.handleFormSubmit (fun _ => Rejected) values) w)
     = CoworkingSpaces.submitted w ++ [data]
     /\ CoworkingSpaces.Submission.type data = "coworking-spaces")
  /\
  (let values :=
     raw_values [RawSpaceLab.blank_area; area_40] [Monthly] (Some (Num 900)) in
   let w := raw_component [js "u1"] [area_40] values in
   exists data,
     RawSpaceLab.submitted
       (run (RawSpaceLab.handleFormSubmit (fun _ => Rejected) values) w)
     = RawSpaceLab.submitted w ++ [data]
     /\ RawSpaceLab.Submission.areaDetails data
        = filter measured (RawSpaceLab.FormValues.areaDetails values)
     /\ RawSpaceLab.Submission.type data = "raw-space-lab").
Proof.
  split; [|split]; cbv zeta.
  - apply (proj1 payload_rows_and_discriminator (fun _ => Rejected) _ _ row_L1).
    + discriminate.
    + simpl. auto.
    + repeat split; discriminate.
    + discriminate.
    + intros plan [<- | []] [H | [H | H]]; simpl in H; discriminate.
  - apply (proj1 (proj2 payload_rows_and_discriminator) (fun _ => Rejected)).
    + discriminate.
    + discriminate.
    + intros plan [<- | []] [H | [H | H]]; simpl in H; discriminate.
    + reflexivity.
    + reflexivity.
  - apply (proj1 (proj2 (proj2 payload_rows_and_discriminator))
             (fun _ => Rejected) _ _ area_40).
    + discriminate.
    + simpl. auto.
    + split; [simpl; lia | repeat split; discriminate].
    + discriminate.
    + intros plan [<- | []] [H | [H | H]]; simpl in H; discriminate.
Defined.

(** With an empty image list a run only registers the image error. *)
Lemma no_image_rejected_first_aux :
  (forall onSubmit values (w : BioAlliedLabs.Component),
      BioAlliedLabs.images w = [] ->
      run (BioAlliedLabs.handleFormSubmit onSubmit values) w
      = BioAlliedLabs.mkComponent
          (setError "root" msg_no_images (BioAlliedLabs.form w))
          [] (BioAlliedLabs.equipment w) (BioAlliedLabs.submitted w)
          (BioAlliedLabs.changes w))
  /\
  (forall onSubmit values (w : CoworkingSpaces.Component),
      CoworkingSpaces.images w = [] ->
      run (CoworkingSpaces.handleFormSubmit onSubmit values) w
      = CoworkingSpaces.mkComponent
          (setError "root" msg_no_images (CoworkingSpaces.form w))
          [] (CoworkingSpaces.submitted w) (CoworkingSpaces.changes w))
  /\
  (forall onSubmit values (w : RawSpaceLab.Component),
      RawSpaceLab.images w = [] ->
      run (RawSpaceLab.handleFormSubmit onSubmit values) w
      = RawSpaceLab.mkComponent
          (setError "root" msg_no_images (RawSpaceLab.form w))
          [] (RawSpaceLab.areaDetails w) (RawSpaceLab.submitted w)
          (RawSpaceLab.changes w)).
Proof.
  repeat split; intros onSubmit values w Himages;
    destruct w; simpl in Himages; subst; reflexivity.
Qed.

(** X4: right after a fulfilled submission the component's image list is
    empty, so a second submission is refused with 'Please upload at least
    one image' whatever values it is given (even when the reset form
    still lists images among its default values), and [onSubmit] is not
    called again. *)
Theorem resubmission_after_success_refused :
  (forall onSubmit onSubmit' values values' (w : BioAlliedLabs.Component) data,
      let w1 := run (BioAlliedLabs.handleFormSubmit onSubmit values) w in
      BioAlliedLabs.submitted w1 = BioAlliedLabs.submitted w ++ [data] ->
      onSubmit data = Fulfilled ->
      run (BioAlliedLabs.handleFormSubmit onSubmit' values') w1
      = BioAlliedLabs.mkComponent
          (setError "root" "Please upload at least one image"
             (reset (BioAlliedLabs.form w)))
          [] [BioAlliedLabs.blank_equipment]
          (BioAlliedLabs.submitted w ++ [data]) (S (BioAlliedLabs.changes w)))
  /\
  (forall onSubmit onSubmit' values values' (w : CoworkingSpaces.Component) data,
      let w1 := run (CoworkingSpaces.handleFormSubmit onSubmit values) w in
      CoworkingSpaces.submitted w1 = CoworkingSpaces.submitted w ++ [data] ->
      onSubmit data = Fulfilled ->
      run (CoworkingSpaces.handleFormSubmit onSubmit' values') w1
      = CoworkingSpaces.mkComponent
          (setError "root" "Please upload at least one image"
             (reset (CoworkingSpaces.form w)))
          []
          (CoworkingSpaces.submitted w ++ [data]) (S (CoworkingSpaces.changes w)))
  /\
  (forall onSubmit onSubmit' values values' (w : RawSpaceLab.Component) data,
      let w1 := run (RawSpaceLab.handleFormSubmit onSubmit values) w in
      RawSpaceLab.submitted w1 = RawSpaceLab.submitted w ++ [data] ->
      onSubmit data = Fulfilled ->
      run (RawSpaceLab.handleFormSubmit onSubmit' values') w1
      = RawSpaceLab.mkComponent
          (setError "root" "Please upload at least one image"
             (reset (RawSpaceLab.form w)))
          [] [RawSpaceLab.blank_area]
          (RawSpaceLab.submitted w ++ [data]) (S (RawSpaceLab.changes w))).
Proof.
  split; [|split]; intros onSubmit onSubmit' values values' w data w1 Hsub Hok;
    subst w1.
  - apply bio_submit_inv in Hsub as (_ & _ & _ & _ & _ & ->).
    rewrite Hok. apply (proj1 no_image_rejected_first_aux). reflexivity.
  - apply coworking_submit_inv in Hsub as (_ & _ & _ & _ & _ & _ & ->).
    rewrite Hok. apply (proj1 (proj2 no_image_rejected_first_aux)). reflexivity.
  - apply raw_submit_inv in Hsub as (_ & _ & _ & _ & _ & ->).
    rewrite Hok. apply (proj2 (proj2 no_image_rejected_first_aux)). reflexivity.
Qed.

Lemma resubmission_after_success_refused_witness :
  let values := lab_values [row_L1] [Monthly] (Some (Num 5000)) in
  let w := lab_component [js "u1"] [row_L1] values in
  let w1 := run (BioAlliedLabs.handleFormSubmit (fun _ => Fulfilled) values) w in
  let w2 := run (BioAlliedLabs.handleFormSubmit (fun _ => Fulfilled) values) w1 in
  errors (BioAlliedLabs.form w2) !! "root" = Some "Please upload at least one image"
  /\ BioAlliedLabs.submitted w2 = BioAlliedLabs.submitted w1.
Proof.
  cbv zeta.
  rewrite (proj1 resubmission_after_success_refused
             (fun _ => Fulfilled) (fun _ => Fulfilled)
             (lab_values [row_L1] [Monthly] (Some (Num 5000)))
             (lab_values [row_L1] [Monthly] (Some (Num 5000)))
             (lab_component [js "u1"] [row_L1]
                (lab_values [row_L1] [Monthly] (Some (Num 5000))))
             (BioAlliedLabs.submissionData [js "u1"] [row_L1]
                (lab_values [row_L1] [Monthly] (Some (Num 5000))))
             eq_refl eq_refl).
  split; reflexivity.
Defined.

(** X5: a run of a submit handler calls [onSubmit] at most once, and it
    notifies [onChange] (once) exactly when that call fulfilled; a run
    stopped by a guard or by a rejection notifies nothing. *)
Theorem onChange_only_after_success :
  (forall onSubmit values (w : BioAlliedLabs.Component),
      let w' := run (BioAlliedLabs.handleFormSubmit onSubmit values) w in
      (exists data,
          BioAlliedLabs.submitted w' = BioAlliedLabs.submitted w ++ [data]
          /\ onSubmit data = Fulfilled
          /\ BioAlliedLabs.changes w' = S (BioAlliedLabs.changes w))
      \/ (exists data,
             BioAlliedLabs.submitted w' = BioAlliedLabs.submitted w ++ [data]
             /\ onSubmit data = Rejected
             /\ BioAlliedLabs.changes w' = BioAlliedLabs.changes w)
      \/ (BioAlliedLabs.submitted w' = BioAlliedLabs.submitted w
          /\ BioAlliedLabs.changes w' = BioAlliedLabs.changes w))
  /\
  (forall onSubmit values (w : CoworkingSpaces.Component),
      let w' := run (CoworkingSpaces.handleFormSubmit onSubmit values) w in
      (exists data,
          CoworkingSpaces.submitted w' = CoworkingSpaces.submitted w ++ [data]
          /\ onSubmit data = Fulfilled
          /\ CoworkingSpaces.changes w' = S (CoworkingSpaces.changes w))
      \/ (exists data,
             CoworkingSpaces.submitted w' = CoworkingSpaces.submitted w ++ [data]
             /\ onSubmit data = Rejected
             /\ CoworkingSpaces.changes w' = CoworkingSpaces.changes w)
      \/ (CoworkingSpaces.submitted w' = CoworkingSpaces.submitted w
          /\ CoworkingSpaces.changes w' = CoworkingSpaces.changes w))
  /\
  (forall onSubmit values (w : RawSpaceLab.Component),
      let w' := run (RawSpaceLab.handleFormSubmit onSubmit values) w in
      (exists data,
          RawSpaceLab.submitted w' = RawSpaceLab.submitted w ++ [data]
          /\ onSubmit data = Fulfilled
          /\ RawSpaceLab.changes w' = S (RawSpaceLab.changes w))
      \/ (exists data,
             RawSpaceLab.submitted w' = RawSpaceLab.submitted w ++ [data]
             /\ onSubmit data = Rejected
             /\ RawSpaceLab.changes w' = RawSpaceLab.changes w)
      \/ (RawSpaceLab.submitted w' = RawSpaceLab.submitted w
          /\ RawSpaceLab.changes w' = RawSpaceLab.changes w)).
Proof.
  split; [|split]; intros onSubmit values w w'; subst w'.
  - rewrite bio_submit_cases; cbv zeta.
    repeat match goal with
           | |- context [if ?b then _ else _] => destruct b eqn:?
           end;
      first [ right; right; split; reflexivity
            | left; eexists; split; [reflexivity | split; [assumption | reflexivity]]
            | right; left; eexists; split;
              [reflexivity | split; [assumption | reflexivity]] ].
  - rewrite coworking_submit_cases; cbv zeta.
    repeat match goal with
           | |- context [if ?b then _ else _] => destruct b eqn:?
           end;
      first [ right; right; split; reflexivity
            | left; eexists; split; [reflexivity | split; [assumption | reflexivity]]
            | right; left; eexists; split;
              [reflexivity | split; [assumption | reflexivity]] ].
  - rewrite raw_submit_cases; cbv zeta.
    repeat match goal with
           | |- context [if ?b then _ else _] => destruct b eqn:?
           end;
      first [ right; right; split; reflexivity
            | left; eexists; split; [reflexivity | split; [assumption | reflexivity]]
            | right; left; eexists; split;
              [reflexivity | split; [assumption | reflexivity]] ].
Qed.

(* ===================================================================== *)
(** ** Further properties: the schemas in front of the handlers *)
(* ===================================================================== *)

Lemma array_min1_non_empty {A : Type} (item : A -> bool) (l : list A) :
  array_min1 item l = true -> l <> [] /\ forall x, In x l -> item x = true.
Proof.
  unfold array_min1. rewrite andb_true_iff, forallb_forall.
  intros [Hall Hne]. split; [|done]. by destruct l.
Qed.

Lemma rent_schema_plans {V : Type} {RF : RentFields V} (values : V) :
  rent_schema values = true -> selectedRentalPlans values <> [].
Proof.
  unfold rent_schema. rewrite !andb_true_iff.
  intros [[[[Hsel _] _] _] _]. by apply array_min1_non_empty in Hsel as [? _].
Qed.

Lemma number_min_positive (n : number) :
  number_min 1 n = true -> gt n (Num 0) = true.
Proof.
  destruct n as [|z]; simpl; [done|].
  intros Hz. apply Z.leb_le in Hz. apply Z.ltb_lt. lia.
Qed.

Lemma filter_all {A : Type} (f : A -> bool) (l : list A) :
  (forall x, In x l -> f x = true) -> List.filter f l = l.
Proof.
  induction l as [|x l IH]; intros Hall; simpl; [done|].
  rewrite (Hall x) by (by left). f_equal. apply IH. intros y Hy. apply Hall. by right.
Qed.

(** X7: a component whose image list mirrors the form's, submitting
    values that its [formSchema] accepts, never trips the handler's image
    guard nor its plan guard; on top of that the raw-space form never
    trips its row guard (every accepted row is complete, so all rows reach
    the payload) and the coworking form never trips its total-seats guard.
    What is left is the rent check, the lab form's row check, the
    coworking form's available-seats check, and [onSubmit]. *)
Theorem schema_accepted_values_skip_guards :
  (forall onSubmit values (w : BioAlliedLabs.Component),
      BioAlliedLabs.images w = BioAlliedLabs.FormValues.images values ->
      BioAlliedLabs.formSchema values = true ->
      let w' := run (BioAlliedLabs.handleFormSubmit onSubmit values) w in
      w' = run (BioAlliedLabs.on_form
                  (setError "root"
                     "Please add at least one equipment with all fields filled")) w
      \/ w' = run (BioAlliedLabs.on_form (setError "root" msg_no_rent)) w
      \/ exists data,
           BioAlliedLabs.submitted w' = BioAlliedLabs.submitted w ++ [data])
  /\
  (forall onSubmit values (w : CoworkingSpaces.Component),
      CoworkingSpaces.images w = CoworkingSpaces.FormValues.images values ->
      CoworkingSpaces.formSchema values = true ->
      let w' := run (CoworkingSpaces.handleFormSubmit onSubmit values) w in
      w' = run (CoworkingSpaces.on_form (setError "root" msg_no_rent)) w
      \/ w' = run (CoworkingSpaces.on_form
                     (setError "availableSeats"
                        "Available seats cannot exceed total seats")) w
      \/ exists data,
           CoworkingSpaces.submitted w' = CoworkingSpaces.submitted w ++ [data])
  /\
  (forall onSubmit values (w : RawSpaceLab.Component),
      RawSpaceLab.images w = RawSpaceLab.FormValues.images values ->
      RawSpaceLab.formSchema values = true ->
      let w' := run (RawSpaceLab.handleFormSubmit onSubmit values) w in
      w' = run (RawSpaceLab.on_form (setError "root" msg_no_rent)) w
      \/ exists data,
           RawSpaceLab.submitted w' = RawSpaceLab.submitted w ++ [data]
           /\ RawSpaceLab.Submission.areaDetails data
              = RawSpaceLab.FormValues.areaDetails values).
Proof.
  split; [|split]; intros onSubmit values w Hmirror Hschema w'; subst w'.
  - unfold BioAlliedLabs.formSchema in Hschema.
    rewrite !andb_true_iff in Hschema.
    destruct Hschema as [[[[_ _] Himg] _] Hrent].
    apply array_min1_non_empty in Himg as [Himg _].
    apply (rent_schema_plans (RF := BioAlliedLabs.rent_fields)) in Hrent.
    change (BioAlliedLabs.FormValues.selectedRentalPlans values <> []) in Hrent.
    rewrite bio_submit_cases; cbv zeta.
    rewrite Hmirror, (is_empty_false _ Himg), (is_empty_false _ Hrent).
    destruct (is_empty (List.filter _ _)); [by left|].
    destruct (negb _); [by right; left|].
    right; right. destruct (onSubmit _); eexists; reflexivity.
  - unfold CoworkingSpaces.formSchema in Hschema.
    rewrite !andb_true_iff in Hschema.
    destruct Hschema as [[[[[_ _] Himg] Htotal] _] Hrent].
    apply array_min1_non_empty in Himg as [Himg _].
    apply (rent_schema_plans (RF := CoworkingSpaces.rent_fields)) in Hrent.
    change (CoworkingSpaces.FormValues.selectedRentalPlans values <> []) in Hrent.
    apply number_min_positive, gt_zero_not_le in Htotal.
    rewrite coworking_submit_cases; cbv zeta.
    rewrite Hmirror, (is_empty_false _ Himg), (is_empty_false _ Hrent), Htotal.
    destruct (negb _); [by left|].
    destruct (gt _ _); [by right; left|].
    right; right. destruct (onSubmit _); eexists; reflexivity.
  - unfold RawSpaceLab.formSchema in Hschema.
    rewrite !andb_true_iff in Hschema.
    destruct Hschema as [[[[_ _] Himg] Hrows] Hrent].
    apply array_min1_non_empty in Himg as [Himg _].
    apply array_min1_non_empty in Hrows as [Hrows Hall].
    apply (rent_schema_plans (RF := RawSpaceLab.rent_fields)) in Hrent.
    change (RawSpaceLab.FormValues.selectedRentalPlans values <> []) in Hrent.
    assert (List.filter RawSpaceLab.complete (RawSpaceLab.FormValues.areaDetails values)
            = RawSpaceLab.FormValues.areaDetails values) as Hvalid.
    { apply filter_all. intros a Ha. apply complete_measured.
      specialize (Hall a Ha). apply number_min_positive, gt_zero_positive in Hall.
      destruct a as [n [] [] []]; repeat split; try done. }
    rewrite raw_submit_cases; cbv zeta.
    rewrite Hmirror, Hvalid, (is_empty_false _ Himg), (is_empty_false _ Hrows),
      (is_empty_false _ Hrent).
    destruct (negb _); [by left|].
    right. destruct (onSubmit _); eexists; (split; [reflexivity|]);
      simpl; apply copy_areaDetails.
Qed.

Lemma schema_accepted_values_skip_guards_witness :
  let values := raw_values [area_40] [Monthly] (Some (Num 900)) in
  let w := raw_component [js "u1"] [area_40] values in
  let w' := run (RawSpaceLab.handleFormSubmit (fun _ => Rejected) values) w in
  w' = run (RawSpaceLab.on_form (setError "root" msg_no_rent)) w
  \/ exists data,
       RawSpaceLab.submitted w' = RawSpaceLab.submitted w ++ [data]
       /\ RawSpaceLab.Submission.areaDetails data = [area_40].
Proof.
  exact (proj2 (proj2 schema_accepted_values_skip_guards) (fun _ => Rejected)
           (raw_values [area_40] [Monthly] (Some (Num 900)))
           (raw_component [js "u1"] [area_40]
              (raw_values [area_40] [Monthly] (Some (Num 900))))
           eq_refl eq_refl).
Defined.

(** X8: the seat counts of a coworking payload are those of the draft;
    when both are numbers, totalSeats is above zero and availableSeats
    does not exceed it, and when the draft is one the schema accepts they
    are numbers with 1 <= totalSeats and 0 <= availableSeats <=
    totalSeats. *)
Theorem coworking_payload_seats :
  forall onSubmit values (w : CoworkingSpaces.Component) data,
    CoworkingSpaces.submitted (run (CoworkingSpaces.handleFormSubmit onSubmit values) w)
    = CoworkingSpaces.submitted w ++ [data] ->
    CoworkingSpaces.Submission.totalSeats data
    = CoworkingSpaces.FormValues.totalSeats values
    /\ CoworkingSpaces.Submission.availableSeats data
       = CoworkingSpaces.FormValues.availableSeats values
    /\ (forall t a,
           CoworkingSpaces.Submission.totalSeats data = Num t ->
           CoworkingSpaces.Submission.availableSeats data = Num a ->
           (0 < t /\ a <= t)%Z)
    /\ (CoworkingSpaces.formSchema values = true ->
        exists t a,
          CoworkingSpaces.Submission.totalSeats data = Num t
          /\ CoworkingSpaces.Submission.availableSeats data = Num a
          /\ (1 <= t /\ 0 <= a <= t)%Z).
Proof.
  intros onSubmit values w data Hsub.
  apply coworking_submit_inv in Hsub as (_ & _ & _ & Hle & Hgt & -> & _).
  simpl. unfold Number. split; [done|]. split; [done|]. split.
  - intros t a Ht Ha. rewrite Ht in *. rewrite Ha in *. simpl in *.
    apply Z.leb_gt in Hle. apply Z.ltb_ge in Hgt. lia.
  - unfold CoworkingSpaces.formSchema. rewrite !andb_true_iff.
    intros [[[_ Htotal] Havail] _].
    destruct (CoworkingSpaces.FormValues.totalSeats values) as [|t]; [done|].
    destruct (CoworkingSpaces.FormValues.availableSeats values) as [|a]; [done|].
    simpl in *. exists t, a. repeat split; try done.
    + by apply Z.leb_le.
    + by apply Z.leb_le.
    + by apply Z.ltb_ge.
Qed.

Lemma coworking_payload_seats_witness :
  let values := coworking_values [Monthly] (Num 10) (Num 4) (Some (Num 5000)) in
  let data := CoworkingSpaces.submissionData [js "u1"] values in
  CoworkingSpaces.Submission.totalSeats data = Num 10
  /\ CoworkingSpaces.Submission.availableSeats data = Num 4
  /\ (0 < 10 /\ 4 <= 10)%Z.
Proof.
  cbv zeta.
  pose proof (coworking_payload_seats (fun _ => Fulfilled)
                (coworking_values [Monthly] (Num 10) (Num 4) (Some (Num 5000)))
                (coworking_component [js "u1"]
                   (coworking_values [] (Num 0) (Num 0) None))
                (CoworkingSpaces.submissionData [js "u1"]
                   (coworking_values [Monthly] (Num 10) (Num 4) (Some (Num 5000))))
                eq_refl) as (Ht & Ha & Hbounds & _).
  split; [exact Ht|]. split; [exact Ha|].
  exact (Hbounds 10%Z 4%Z eq_refl eq_refl).
Defined.

(** X6: a row as the Add button creates it (three empty strings; area 0)
    makes the form's values unacceptable to [formSchema] wherever it sits
    in the array, so right after [addEquipment] or [addAreaDetail] the
    form's values are refused until the new row is filled in or removed. *)
Theorem untouched_added_row_is_refused :
  (forall values,
      In BioAlliedLabs.blank_equipment (BioAlliedLabs.FormValues.equipment values) ->
      BioAlliedLabs.formSchema values = false)
  /\
  (forall (w : BioAlliedLabs.Component),
      BioAlliedLabs.formSchema
        (values (BioAlliedLabs.form (run BioAlliedLabs.addEquipment w)))
      = false)
  /\
  (forall values,
      In RawSpaceLab.blank_area (RawSpaceLab.FormValues.areaDetails values) ->
      RawSpaceLab.formSchema values = false)
  /\
  (forall (w : RawSpaceLab.Component),
      RawSpaceLab.formSchema
        (values (RawSpaceLab.form (run RawSpaceLab.addAreaDetail w)))
      = false).
Proof.
  assert (forall values,
             In BioAlliedLabs.blank_equipment
                (BioAlliedLabs.FormValues.equipment values) ->
             BioAlliedLabs.formSchema values = false) as Hlab.
  { intros values Hin. apply not_true_is_false. intros Hschema.
    unfold BioAlliedLabs.formSchema in Hschema.
    rewrite !andb_true_iff in Hschema.
    destruct Hschema as [[_ Hrows] _].
    apply array_min1_non_empty in Hrows as [_ Hall].
    specialize (Hall _ Hin). discriminate Hall. }
  assert (forall values,
             In RawSpaceLab.blank_area (RawSpaceLab.FormValues.areaDetails values) ->
             RawSpaceLab.formSchema values = false) as Hraw.
  { intros values Hin. apply not_true_is_false. intros Hschema.
    unfold RawSpaceLab.formSchema in Hschema.
    rewrite !andb_true_iff in Hschema.
    destruct Hschema as [[_ Hrows] _].
    apply array_min1_non_empty in Hrows as [_ Hall].
    specialize (Hall _ Hin). discriminate Hall. }
  split; [exact Hlab|]. split; [|split; [exact Hraw|]].
  - intros [[v d e] imgs rows sub ch]. destruct v. apply Hlab.
    simpl. apply in_app_iff. right. by left.
  - intros [[v d e] imgs rows sub ch]. destruct v. apply Hraw.
    simpl. apply in_app_iff. right. by left.
Qed.

Lemma untouched_added_row_is_refused_witness :
  BioAlliedLabs.formSchema
    (lab_values [row_L1; BioAlliedLabs.blank_equipment] [Monthly] (Some (Num 5000)))
  = false
  /\ BioAlliedLabs.formSchema (lab_values [row_L1] [Monthly] (Some (Num 5000)))
     = true.
Proof.
  split; [|reflexivity].
  apply (proj1 untouched_added_row_is_refused). simpl. auto.
Defined.

(* ===================================================================== *)
(** ** Further properties: mounting a form and editing a listing *)
(* ===================================================================== *)

Lemma initial_rent_Some (rentalPlans : option (list RentalPlan)) plan n :
  initial_rent rentalPlans plan = Some n ->
  truthy n = true /\ In plan (initial_plans rentalPlans).
Proof.
  unfold initial_rent, initial_plans.
  destruct rentalPlans as [l|]; simpl; [|done].
  destruct (List.find _ l) as [p|] eqn:Hfind; [|done].
  apply find_some in Hfind as [Hin Hname].
  apply bool_decide_eq_true in Hname.
  destruct (truthy (price p)) eqn:Ht; [|done].
  intros [= <-]. split; [done|].
  apply in_map_iff. by exists p.
Qed.

Lemma initial_rent_unselected (rentalPlans : option (list RentalPlan)) plan :
  ~ In plan (initial_plans rentalPlans) -> initial_rent rentalPlans plan = None.
Proof.
  intros Hnot. destruct (initial_rent rentalPlans plan) as [n|] eqn:Hrent; [|done].
  by apply initial_rent_Some in Hrent as [_ Hin].
Qed.

(** X10: a freshly mounted form, whatever [initialData] it is given, has
    its [useState] cells equal to the copies in the form store, its
    values equal to its default values and no error; it keeps no price for
    an unselected plan, and every price it does keep is neither zero nor
    [NaN]. *)
Theorem mounted_form_is_consistent :
  (forall initialData,
      let w := BioAlliedLabs.mount initialData in
      lab_mirrored w
      /\ values (BioAlliedLabs.form w) = defaultValues (BioAlliedLabs.form w)
      /\ errors (BioAlliedLabs.form w) = ∅
      /\ no_orphan_price (values (BioAlliedLabs.form w))
      /\ (forall plan n,
             rent_field (values (BioAlliedLabs.form w)) plan = Some n ->
             truthy n = true))
  /\
  (forall initialData,
      let w := CoworkingSpaces.mount initialData in
      coworking_mirrored w
      /\ values (CoworkingSpaces.form w) = defaultValues (CoworkingSpaces.form w)
      /\ errors (CoworkingSpaces.form w) = ∅
      /\ no_orphan_price (values (CoworkingSpaces.form w))
      /\ (forall plan n,
             rent_field (values (CoworkingSpaces.form w)) plan = Some n ->
             truthy n = true))
  /\
  (forall initialData,
      let w := RawSpaceLab.mount initialData in
      raw_mirrored w
      /\ values (RawSpaceLab.form w) = defaultValues (RawSpaceLab.form w)
      /\ errors (RawSpaceLab.form w) = ∅
      /\ no_orphan_price (values (RawSpaceLab.form w))
      /\ (forall plan n,
             rent_field (values (RawSpaceLab.form w)) plan = Some n ->
             truthy n = true)).
Proof.
  split; [|split]; intros initialData w; subst w;
    (split; [by repeat split|]); (split; [done|]); (split; [done|]); split.
  - intros plan Hnot. destruct plan; by apply initial_rent_unselected.
  - intros plan n Hn. destruct plan; by apply initial_rent_Some in Hn as [? _].
  - intros plan Hnot. destruct plan; by apply initial_rent_unselected.
  - intros plan n Hn. destruct plan; by apply initial_rent_Some in Hn as [? _].
  - intros plan Hnot. destruct plan; by apply initial_rent_unselected.
  - intros plan n Hn. destruct plan; by apply initial_rent_Some in Hn as [? _].
Qed.

Lemma mounted_form_is_consistent_witness :
  let initialData :=
    RawSpaceLab.InitialData.mk (Some (js "Shed")) None (Some [js "u1"]) None
      (Some [{| name := Monthly; price := Num 900; duration := Monthly |}])
      (Some [area_40]) in
  let w := RawSpaceLab.mount (Some initialData) in
  raw_mirrored w
  /\ rent_field (values (RawSpaceLab.form w)) Monthly = Some (Num 900)
  /\ truthy (Num 900) = true
  /\ rent_field (values (RawSpaceLab.form w)) Annual = None.
Proof.
  cbv zeta.
  pose proof (proj2 (proj2 mounted_form_is_consistent)
                (Some (RawSpaceLab.InitialData.mk (Some (js "Shed")) None
                         (Some [js "u1"]) None
                         (Some [{| name := Monthly; price := Num 900;
                                   duration := Monthly |}])
                         (Some [area_40]))))
    as (Hmirror & _ & _ & Horphan & Htruthy).
  split; [exact Hmirror|]. split; [reflexivity|].
  split; [exact (Htruthy Monthly (Num 900) eq_refl)|].
  apply Horphan. simpl. intros [H | []]. discriminate H.
Defined.

Section EditRoundTrip.
Context {V : Type} {RF : RentFields V}.

Lemma rentalPlans_by_field (values : V) :
  rentalPlans values
  = map (fun plan => {| name := plan;
                        price := or_zero (rent_field values plan);
                        duration := plan |})
        (selectedRentalPlans values).
Proof. unfold rentalPlans. apply map_ext. by intros []. Qed.

Lemma find_plan_entry (values : V) (plan : RentalPlanName) (l : list RentalPlanName) :
  List.find (fun p => bool_decide (name p = plan))
    (map (fun plan => {| name := plan;
                         price := or_zero (rent_field values plan);
                         duration := plan |}) l)
  = if includes plan l
    then Some {| name := plan;
                 price := or_zero (rent_field values plan);
                 duration := plan |}
    else None.
Proof.
  induction l as [|q l IH]; [reflexivity|]. simpl.
  destruct (bool_decide (q = plan)) eqn:Hq.
  - apply bool_decide_eq_true in Hq. by subst.
  - simpl. exact IH.
Qed.

Lemma includes_In (plan : RentalPlanName) (l : list RentalPlanName) :
  includes plan l = true <-> In plan l.
Proof.
  unfold includes. rewrite existsb_exists. split.
  - intros (q & Hin & Hq). apply bool_decide_eq_true in Hq. by subst.
  - intros Hin. exists plan. split; [done|]. by apply bool_decide_eq_true.
Qed.

(** Reading the selection and the prices back from a [rentalPlans] array
    that passed the rent check. *)
Lemma rent_round_trip (values : V) :
  rentValidation values = true ->
  initial_plans (Some (rentalPlans values)) = selectedRentalPlans values
  /\ forall plan,
       initial_rent (Some (rentalPlans values)) plan
       = if includes plan (selectedRentalPlans values)
         then rent_field values plan
         else None.
Proof.
  intros Hrent. split; [apply rentalPlans_names|].
  intros plan. unfold initial_rent. simpl.
  rewrite rentalPlans_by_field, find_plan_entry.
  destruct (includes plan (selectedRentalPlans values)) eqn:Hinc; [|done].
  apply includes_In in Hinc. simpl.
  assert (truthy_opt (rent_field values plan) = true) as Ht.
  { unfold rentValidation, every in Hrent. rewrite forallb_forall in Hrent.
    specialize (Hrent plan Hinc). by destruct plan. }
  apply or_zero_truthy in Ht as [Heq ->]. exact Heq.
Qed.
End EditRoundTrip.

(** X11: opening an edit form on a listing whose [rentalPlans] is the
    array of a payload that was handed to [onSubmit] gives back the
    draft's selection, in order, the same price field for every selected
    plan and no price for the others. *)
Theorem rental_plans_survive_edit_round_trip :
  (forall onSubmit values (w : BioAlliedLabs.Component) data initialData,
      BioAlliedLabs.submitted (run (BioAlliedLabs.handleFormSubmit onSubmit values) w)
      = BioAlliedLabs.submitted w ++ [data] ->
      BioAlliedLabs.InitialData.rentalPlans initialData
      = Some (BioAlliedLabs.Submission.rentalPlans data) ->
      let values' := BioAlliedLabs.defaultValues (Some initialData) in
      BioAlliedLabs.FormValues.selectedRentalPlans values'
      = BioAlliedLabs.FormValues.selectedRentalPlans values
      /\ forall plan,
           rent_field values' plan
           = if includes plan (BioAlliedLabs.FormValues.selectedRentalPlans values)
             then rent_field values plan
             else None)
  /\
  (forall onSubmit values (w : CoworkingSpaces.Component) data initialData,
      CoworkingSpaces.submitted (run (CoworkingSpaces.handleFormSubmit onSubmit values) w)
      = CoworkingSpaces.submitted w ++ [data] ->
      CoworkingSpaces.InitialData.rentalPlans initialData
      = Some (CoworkingSpaces.Submission.rentalPlans data) ->
      let values' := CoworkingSpaces.defaultValues (Some initialData) in
      CoworkingSpaces.FormValues.selectedRentalPlans values'
      = CoworkingSpaces.FormValues.selectedRentalPlans values
      /\ forall plan,
           rent_field values' plan
           = if includes plan (CoworkingSpaces.FormValues.selectedRentalPlans values)
             then rent_field values plan
             else None)
  /\
  (forall onSubmit values (w : RawSpaceLab.Component) data initialData,
      RawSpaceLab.submitted (run (RawSpaceLab.handleFormSubmit onSubmit values) w)
      = RawSpaceLab.submitted w ++ [data] ->
      RawSpaceLab.InitialData.rentalPlans initialData
      = Some (RawSpaceLab.Submission.rentalPlans data) ->
      let values' := RawSpaceLab.defaultValues (Some initialData) in
      RawSpaceLab.FormValues.selectedRentalPlans values'
      = RawSpaceLab.FormValues.selectedRentalPlans values
      /\ forall plan,
           rent_field values' plan
           = if includes plan (RawSpaceLab.FormValues.selectedRentalPlans values)
             then rent_field values plan
             else None).
Proof.
  split; [|split]; intros onSubmit values w data initialData Hsub Hplans values';
    subst values'.
  - apply bio_submit_inv in Hsub as (_ & _ & _ & Hrent & -> & _).
    apply (rent_round_trip (RF := BioAlliedLabs.rent_fields)) in Hrent as [Hsel Hprice].
    unfold BioAlliedLabs.defaultValues. simpl. rewrite Hplans. simpl.
    split; [exact Hsel|]. intros plan. specialize (Hprice plan). by destruct plan.
  - apply coworking_submit_inv in Hsub as (_ & _ & Hrent & _ & _ & -> & _).
    apply (rent_round_trip (RF := CoworkingSpaces.rent_fields)) in Hrent as [Hsel Hprice].
    unfold CoworkingSpaces.defaultValues. simpl. rewrite Hplans. simpl.
    split; [exact Hsel|]. intros plan. specialize (Hprice plan). by destruct plan.
  - apply raw_submit_inv in Hsub as (_ & _ & _ & Hrent & -> & _).
    apply (rent_round_trip (RF := RawSpaceLab.rent_fields)) in Hrent as [Hsel Hprice].
    unfold RawSpaceLab.defaultValues. simpl. rewrite Hplans. simpl.
    split; [exact Hsel|]. intros plan. specialize (Hprice plan). by destruct plan.
Qed.

Lemma rental_plans_survive_edit_round_trip_witness :
  let values := lab_values [row_L1] [Monthly] (Some (Num 5000)) in
  let data := BioAlliedLabs.submissionData [js "u1"] [row_L1] values in
  let initialData :=
    BioAlliedLabs.InitialData.mk None None None None
      (Some (BioAlliedLabs.Submission.rentalPlans data)) None in
  let values' := BioAlliedLabs.defaultValues (Some initialData) in
  BioAlliedLabs.FormValues.selectedRentalPlans values' = [Monthly]
  /\ forall plan,
       rent_field values' plan
       = if includes plan [Monthly] then rent_field values plan else None.
Proof.
  exact (proj1 rental_plans_survive_edit_round_trip (fun _ => Fulfilled)
           (lab_values [row_L1] [Monthly] (Some (Num 5000)))
           (lab_component [js "u1"] [row_L1]
              (lab_values [row_L1] [Monthly] (Some (Num 5000))))
           (BioAlliedLabs.submissionData [js "u1"] [row_L1]
              (lab_values [row_L1] [Monthly] (Some (Num 5000))))
           (BioAlliedLabs.InitialData.mk None None None None
              (Some (BioAlliedLabs.Submission.rentalPlans
                       (BioAlliedLabs.submissionData [js "u1"] [row_L1]
                          (lab_values [row_L1] [Monthly] (Some (Num 5000))))))
              None)
           eq_refl eq_refl).
Defined.

(** X12: a fulfilled submission resets the form store to its default
    values but sets the image list to empty and the rows to one blank
    row; the [useState] cells and the form store therefore agree
    afterwards exactly when the default values hold no image and (lab,
    raw space) exactly one blank row, as in a form mounted without
    [initialData]. *)
Theorem reset_agrees_only_with_blank_defaults :
  (forall onSubmit values (w : BioAlliedLabs.Component) data,
      let w' := run (BioAlliedLabs.handleFormSubmit onSubmit values) w in
      BioAlliedLabs.submitted w' = BioAlliedLabs.submitted w ++ [data] ->
      onSubmit data = Fulfilled ->
      lab_mirrored w'
      <-> BioAlliedLabs.FormValues.images (defaultValues (BioAlliedLabs.form w)) = []
          /\ BioAlliedLabs.FormValues.equipment (defaultValues (BioAlliedLabs.form w))
             = [BioAlliedLabs.blank_equipment])
  /\
  (forall onSubmit values (w : CoworkingSpaces.Component) data,
      let w' := run (CoworkingSpaces.handleFormSubmit onSubmit values) w in
      CoworkingSpaces.submitted w' = CoworkingSpaces.submitted w ++ [data] ->
      onSubmit data = Fulfilled ->
      coworking_mirrored w'
      <-> CoworkingSpaces.FormValues.images (defaultValues (CoworkingSpaces.form w)) = [])
  /\
  (forall onSubmit values (w : RawSpaceLab.Component) data,
      let w' := run (RawSpaceLab.handleFormSubmit onSubmit values) w in
      RawSpaceLab.submitted w' = RawSpaceLab.submitted w ++ [data] ->
      onSubmit data = Fulfilled ->
      raw_mirrored w'
      <-> RawSpaceLab.FormValues.images (defaultValues (RawSpaceLab.form w)) = []
          /\ RawSpaceLab.FormValues.areaDetails (defaultValues (RawSpaceLab.form w))
             = [RawSpaceLab.blank_area]).
Proof.
  split; [|split]; intros onSubmit values w data w' Hsub Hok; subst w'.
  - apply bio_submit_inv in Hsub as (_ & _ & _ & _ & _ & ->). rewrite Hok.
    unfold lab_mirrored. simpl. split; intros [H1 H2]; by split.
  - apply coworking_submit_inv in Hsub as (_ & _ & _ & _ & _ & _ & ->). rewrite Hok.
    unfold coworking_mirrored. simpl. split; intros H1; done.
  - apply raw_submit_inv in Hsub as (_ & _ & _ & _ & _ & ->). rewrite Hok.
    unfold raw_mirrored. simpl. split; intros [H1 H2]; by split.
Qed.

Lemma reset_agrees_only_with_blank_defaults_witness :
  let values := lab_values [row_L1] [Monthly] (Some (Num 5000)) in
  let initialData :=
    BioAlliedLabs.InitialData.mk None None (Some [js "u1"]) None None None in
  let w := BioAlliedLabs.mount (Some initialData) in
  let w' := run (BioAlliedLabs.handleFormSubmit (fun _ => Fulfilled) values) w in
  ~ lab_mirrored w'
  /\ BioAlliedLabs.images w' = []
  /\ BioAlliedLabs.FormValues.images (Hook.values (BioAlliedLabs.form w')) = [js "u1"].
Proof.
  cbv zeta. split; [|split; reflexivity].
  intros Hmirror.
  apply (proj1 (proj1 reset_agrees_only_with_blank_defaults (fun _ => Fulfilled)
                  (lab_values [row_L1] [Monthly] (Some (Num 5000)))
                  (BioAlliedLabs.mount
                     (Some (BioAlliedLabs.InitialData.mk None None (Some [js "u1"])
                              None None None)))
                  (BioAlliedLabs.submissionData [js "u1"] [row_L1]
                     (lab_values [row_L1] [Monthly] (Some (Num 5000))))
                  eq_refl eq_refl)) in Hmirror.
  destruct Hmirror as [Himg _]. discriminate Himg.
Defined.

(* ===================================================================== *)
(** ** Further properties: editing rows, images and plans *)
(* ===================================================================== *)

Lemma remove_at_last {A : Type} (l : list A) (x : A) :
  remove_at (Num (Z.of_nat (length l))) (l ++ [x]) = l.
Proof.
  rewrite remove_at_in_range by (rewrite length_app; simpl; lia).
  rewrite take_app_length.
  rewrite drop_ge by (rewrite length_app; simpl; lia).
  apply app_nil_r.
Qed.

(** X13: pressing Add and then Remove on the row just added gives the
    component back, provided the local list and the form's array had the
    same length to begin with. *)
Theorem add_then_remove_restores :
  (forall (w : BioAlliedLabs.Component),
      length (BioAlliedLabs.equipment w)
      = length (BioAlliedLabs.FormValues.equipment (values (BioAlliedLabs.form w))) ->
      run (BioAlliedLabs.removeEquipment
             (Num (Z.of_nat (length (BioAlliedLabs.equipment w)))))
          (run BioAlliedLabs.addEquipment w)
      = w)
  /\
  (forall (w : RawSpaceLab.Component),
      length (RawSpaceLab.areaDetails w)
      = length (RawSpaceLab.FormValues.areaDetails (values (RawSpaceLab.form w))) ->
      run (RawSpaceLab.removeAreaDetail
             (Num (Z.of_nat (length (RawSpaceLab.areaDetails w)))))
          (run RawSpaceLab.addAreaDetail w)
      = w).
Proof.
  split; intros [[v d e] imgs rows sub ch] Hlen; destruct v; simpl in Hlen;
    cbv [run BioAlliedLabs.removeEquipment BioAlliedLabs.addEquipment
         RawSpaceLab.removeAreaDetail RawSpaceLab.addAreaDetail
         bind modify BioAlliedLabs.setEquipment RawSpaceLab.setAreaDetails
         BioAlliedLabs.on_form RawSpaceLab.on_form setValue
         BioAlliedLabs.set_equipment RawSpaceLab.set_areaDetails];
    simpl; rewrite remove_at_last, Hlen, remove_at_last; reflexivity.
Qed.

Lemma add_then_remove_restores_witness :
  let w := lab_component [js "u1"] [row_L1; row_L2]
             (lab_values [row_L1; row_L2] [] None) in
  run (BioAlliedLabs.removeEquipment (Num 2)) (run BioAlliedLabs.addEquipment w) = w.
Proof.
  exact (proj1 add_then_remove_restores
           (lab_component [js "u1"] [row_L1; row_L2]
              (lab_values [row_L1; row_L2] [] None))
           eq_refl).
Defined.

Lemma filter_from_same_length {A : Type} (p : nat -> bool) (l1 l2 : list A)
      (start : nat) :
  length l1 = length l2 ->
  length (filter_from start (fun _ i => p i) l1)
  = length (filter_from start (fun _ i => p i) l2).
Proof.
  revert l2 start. induction l1 as [|x l1 IH]; intros [|y l2] start Hlen;
    simpl in *; try done.
  injection Hlen as Hlen.
  destruct (p start); simpl; rewrite (IH l2 (S start) Hlen); reflexivity.
Qed.

Lemma remove_at_same_length {A : Type} (index : number) (l1 l2 : list A) :
  length l1 = length l2 ->
  length (remove_at index l1) = length (remove_at index l2).
Proof.
  apply (filter_from_same_length (fun i => strict_neq i index)).
Qed.

(** X14: the image list of the component and the one in the form store
    are equal, and the local row list and the form's array have the same
    number of rows, after [handleImageUpload] whatever the state before
    (for the images), and these two agreements are kept by every control
    of the forms: the name, description and video-link inputs, the plan
    checkboxes, the price and seat inputs, Add, Remove at any index (out
    of range and [NaN] included), the inputs of a rendered row, image
    upload and removal, and every run of the submit handler that does not
    end in a fulfilled [onSubmit].  What a row holds is not part of the
    agreement: row inputs write the form's array only. *)
Theorem editing_keeps_the_copies_in_step :
  (forall (w : BioAlliedLabs.Component) newImages,
      let w' := run (BioAlliedLabs.handleImageUpload newImages) w in
      BioAlliedLabs.images w' = newImages
      /\ BioAlliedLabs.FormValues.images (values (BioAlliedLabs.form w')) = newImages)
  /\
  (forall (w : CoworkingSpaces.Component) newImages,
      let w' := run (CoworkingSpaces.handleImageUpload newImages) w in
      CoworkingSpaces.images w' = newImages
      /\ CoworkingSpaces.FormValues.images (values (CoworkingSpaces.form w'))
         = newImages)
  /\
  (forall (w : RawSpaceLab.Component) newImages,
      let w' := run (RawSpaceLab.handleImageUpload newImages) w in
      RawSpaceLab.images w' = newImages
      /\ RawSpaceLab.FormValues.images (values (RawSpaceLab.form w')) = newImages)
  /\
  (forall (w : BioAlliedLabs.Component),
      lab_aligned w ->
      (forall text,
          lab_aligned (run (BioAlliedLabs.onNameChange text) w)
          /\ lab_aligned (run (BioAlliedLabs.onDescriptionChange text) w)
          /\ lab_aligned (run (BioAlliedLabs.onVideoLinkChange text) w))
      /\ (forall plan checked,
             lab_aligned (run (BioAlliedLabs.onCheckedChange plan checked) w))
      /\ (forall plan valueAsNumber,
             lab_aligned (run (BioAlliedLabs.onRentChange plan valueAsNumber) w))
      /\ lab_aligned (run BioAlliedLabs.addEquipment w)
      /\ (forall index, lab_aligned (run (BioAlliedLabs.removeEquipment index) w))
      /\ (forall index field text,
             BioAlliedLabs.row_rendered index w = true ->
             lab_aligned (run (BioAlliedLabs.onRowChange index field text) w))
      /\ (forall newImages,
             lab_aligned (run (BioAlliedLabs.handleImageUpload newImages) w))
      /\ (forall url, lab_aligned (run (BioAlliedLabs.onRemove url) w))
      /\ (forall onSubmit values,
             let w' := run (BioAlliedLabs.handleFormSubmit onSubmit values) w in
             lab_aligned w'
             \/ exists data,
                  BioAlliedLabs.submitted w' = BioAlliedLabs.submitted w ++ [data]
                  /\ onSubmit data = Fulfilled))
  /\
  (forall (w : CoworkingSpaces.Component),
      coworking_mirrored w ->
      (forall text,
          coworking_mirrored (run (CoworkingSpaces.onNameChange text) w)
          /\ coworking_mirrored (run (CoworkingSpaces.onDescriptionChange text) w)
          /\ coworking_mirrored (run (CoworkingSpaces.onVideoLinkChange text) w))
      /\ (forall plan checked,
             coworking_mirrored (run (CoworkingSpaces.onCheckedChange plan checked) w))
      /\ (forall to_number plan text,
             coworking_mirrored
               (run (CoworkingSpaces.onRentChange to_number plan text) w))
      /\ (forall to_number text,
             coworking_mirrored
               (run (CoworkingSpaces.onTotalSeatsChange to_number text) w)
             /\ coworking_mirrored
                  (run (CoworkingSpaces.onAvailableSeatsChange to_number text) w))
      /\ (forall newImages,
             coworking_mirrored (run (CoworkingSpaces.handleImageUpload newImages) w))
      /\ (forall url, coworking_mirrored (run (CoworkingSpaces.onRemove url) w))
      /\ (forall onSubmit values,
             let w' := run (CoworkingSpaces.handleFormSubmit onSubmit values) w in
             coworking_mirrored w'
             \/ exists data,
                  CoworkingSpaces.submitted w' = CoworkingSpaces.submitted w ++ [data]
                  /\ onSubmit data = Fulfilled))
  /\
  (forall (w : RawSpaceLab.Component),
      raw_aligned w ->
      (forall text,
          raw_aligned (run (RawSpaceLab.onNameChange text) w)
          /\ raw_aligned (run (RawSpaceLab.onDescriptionChange text) w)
          /\ raw_aligned (run (RawSpaceLab.onVideoLinkChange text) w))
      /\ (forall plan checked,
             raw_aligned (run (RawSpaceLab.onCheckedChange plan checked) w))
      /\ (forall plan valueAsNumber,
             raw_aligned (run (RawSpaceLab.onRentChange plan valueAsNumber) w))
      /\ raw_aligned (run RawSpaceLab.addAreaDetail w)
      /\ (forall index, raw_aligned (run (RawSpaceLab.removeAreaDetail index) w))
      /\ (forall index wr,
             RawSpaceLab.row_rendered index w = true ->
             raw_aligned (run (RawSpaceLab.onRowChange index wr) w))
      /\ (forall newImages,
             raw_aligned (run (RawSpaceLab.handleImageUpload newImages) w))
      /\ (forall url, raw_aligned (run (RawSpaceLab.onRemove url) w))
      /\ (forall onSubmit values,
             let w' := run (RawSpaceLab.handleFormSubmit onSubmit values) w in
             raw_aligned w'
             \/ exists data,
                  RawSpaceLab.submitted w' = RawSpaceLab.submitted w ++ [data]
                  /\ onSubmit data = Fulfilled)).
Proof.
  split; [by intros [[v d e] imgs rows sub ch] newImages; destruct v|].
  split; [by intros [[v d e] imgs sub ch] newImages; destruct v|].
  split; [by intros [[v d e] imgs rows sub ch] newImages; destruct v|].
  split; [|split].
  - intros [[v d e] imgs rows sub ch] [Himg Hrows]; destruct v;
      simpl in Himg, Hrows; subst.
    split; [by intros text; repeat split|].
    split; [intros plan []; [destruct b|]; by split|].
    split; [intros []; by split|].
    split.
    { split; [done|]. simpl. rewrite !length_app. simpl. lia. }
    split.
    { intros index. split; [done|]. simpl. by apply remove_at_same_length. }
    split.
    { intros index field text _. split; [done|]. simpl.
      by rewrite length_alter. }
    split; [by split|]. split; [by split|].
    intros onSubmit values w'. subst w'.
    rewrite bio_submit_cases; cbv zeta.
    repeat match goal with
           | |- context [if ?b then _ else _] => destruct b eqn:?
           end;
      first [ by left; split
            | right; eexists; split; [reflexivity | assumption] ].
  - intros [[v d e] imgs sub ch] Himg; destruct v; simpl in Himg; subst.
    split; [by intros text; repeat split|].
    split; [intros plan []; [destruct b|]; by destruct plan|].
    split; [by intros to_number []|].
    split; [by split|]. split; [done|]. split; [done|].
    intros onSubmit values w'. subst w'.
    rewrite coworking_submit_cases; cbv zeta.
    repeat match goal with
           | |- context [if ?b then _ else _] => destruct b eqn:?
           end;
      first [ by left
            | right; eexists; split; [reflexivity | assumption] ].
  - intros [[v d e] imgs rows sub ch] [Himg Hrows]; destruct v;
      simpl in Himg, Hrows; subst.
    split; [by intros text; repeat split|].
    split; [intros plan []; [destruct b|]; destruct plan; by split|].
    split; [intros []; by split|].
    split.
    { split; [done|]. simpl. rewrite !length_app. simpl. lia. }
    split.
    { intros index. split; [done|]. simpl. by apply remove_at_same_length. }
    split.
    { intros index wr _. split; [done|]. simpl. by rewrite length_alter. }
    split; [by split|]. split; [by split|].
    intros onSubmit values w'. subst w'.
    rewrite raw_submit_cases; cbv zeta.
    repeat match goal with
           | |- context [if ?b then _ else _] => destruct b eqn:?
           end;
      first [ by left; split
            | right; eexists; split; [reflexivity | assumption] ].
Qed.

Lemma editing_keeps_the_copies_in_step_witness :
  let w := lab_component [js "u1"] [row_L1; row_L2]
             (lab_values [row_L1; row_L2] [] None) in
  let w' := run (BioAlliedLabs.onRowChange 1 BioAlliedLabs.LabName (js "L9")) w in
  lab_aligned w'
  /\ BioAlliedLabs.equipment w' = [row_L1; row_L2]
  /\ BioAlliedLabs.FormValues.equipment (values (BioAlliedLabs.form w'))
     = [row_L1; BioAlliedLabs.mkEquipment (js "L9") (js "E2") (js "C2")]
  /\ lab_aligned (run (BioAlliedLabs.removeEquipment (Num 1)) w').
Proof.
  cbv zeta.
  pose proof (proj1 (proj2 (proj2 (proj2 editing_keeps_the_copies_in_step)))
                (lab_component [js "u1"] [row_L1; row_L2]
                   (lab_values [row_L1; row_L2] [] None))
                (conj eq_refl eq_refl)) as (_ & _ & _ & _ & _ & Hrow & _).
  pose proof (Hrow 1%nat BioAlliedLabs.LabName (js "L9") eq_refl) as Haligned.
  split; [exact Haligned|]. split; [reflexivity|]. split; [reflexivity|].
  pose proof (proj1 (proj2 (proj2 (proj2 editing_keeps_the_copies_in_step)))
                _ Haligned) as (_ & _ & _ & _ & Hremove & _).
  exact (Hremove (Num 1)).
Defined.

Lemma filter_out_appended (plan : RentalPlanName) (l : list RentalPlanName) :
  ~ In plan l -> List.filter (fun p => plan_neq p plan) (l ++ [plan]) = l.
Proof.
  intros Hnot. rewrite List.filter_app. simpl.
  unfold plan_neq at 2. rewrite bool_decide_eq_true_2 by done. simpl.
  rewrite app_nil_r. apply filter_all. intros q Hq.
  unfold plan_neq. apply negb_true_iff, bool_decide_eq_false. by intros ->.
Qed.

(** X15: checking a plan that was not selected and unchecking it again
    restores [selectedRentalPlans].  In the lab form the whole form store
    is as before; in the coworking and raw-space forms the other price
    fields are as before and the plan's own price field is [undefined],
    its input being rendered after the first click and gone after the
    second. *)
Theorem check_then_uncheck_restores_selection :
  (forall (w : BioAlliedLabs.Component) plan,
      ~ In plan (BioAlliedLabs.FormValues.selectedRentalPlans
                   (values (BioAlliedLabs.form w))) ->
      let w2 := run (BioAlliedLabs.onCheckedChange plan (Checked false))
                  (run (BioAlliedLabs.onCheckedChange plan (Checked true)) w) in
      BioAlliedLabs.form w2 = BioAlliedLabs.form w)
  /\
  (forall (w : CoworkingSpaces.Component) plan,
      ~ In plan (CoworkingSpaces.FormValues.selectedRentalPlans
                   (values (CoworkingSpaces.form w))) ->
      let w1 := run (CoworkingSpaces.onCheckedChange plan (Checked true)) w in
      let w2 := run (CoworkingSpaces.onCheckedChange plan (Checked false)) w1 in
      CoworkingSpaces.FormValues.selectedRentalPlans (values (CoworkingSpaces.form w2))
      = CoworkingSpaces.FormValues.selectedRentalPlans (values (CoworkingSpaces.form w))
      /\ rent_field (values (CoworkingSpaces.form w2)) plan = None
      /\ (forall other, other <> plan ->
                        rent_field (values (CoworkingSpaces.form w2)) other
                        = rent_field (values (CoworkingSpaces.form w)) other)
      /\ CoworkingSpaces.rent_input_shown plan w1 = true
      /\ CoworkingSpaces.rent_input_shown plan w2 = false)
  /\
  (forall (w : RawSpaceLab.Component) plan,
      ~ In plan (RawSpaceLab.FormValues.selectedRentalPlans
                   (values (RawSpaceLab.form w))) ->
      let w1 := run (RawSpaceLab.onCheckedChange plan (Checked true)) w in
      let w2 := run (RawSpaceLab.onCheckedChange plan (Checked false)) w1 in
      RawSpaceLab.FormValues.selectedRentalPlans (values (RawSpaceLab.form w2))
      = RawSpaceLab.FormValues.selectedRentalPlans (values (RawSpaceLab.form w))
      /\ rent_field (values (RawSpaceLab.form w2)) plan = None
      /\ (forall other, other <> plan ->
                        rent_field (values (RawSpaceLab.form w2)) other
                        = rent_field (values (RawSpaceLab.form w)) other)
      /\ RawSpaceLab.rent_input_shown plan w1 = true
      /\ RawSpaceLab.rent_input_shown plan w2 = false).
Proof.
  split; [|split].
  - intros [[v d e] imgs rows sub ch] plan Hnot; destruct v; simpl in Hnot.
    cbv zeta. simpl. unfold setValue, BioAlliedLabs.set_selectedRentalPlans. simpl.
    by rewrite filter_out_appended.
  - intros [[v d e] imgs sub ch] plan Hnot; destruct v; simpl in Hnot.
    cbv zeta.
    assert (forall l, includes plan (l ++ [plan]) = true) as Hshown.
    { intros l. apply includes_In, in_app_iff. right. by left. }
    assert (includes plan selectedRentalPlans0 = false) as Hgone.
    { apply not_true_is_false. by rewrite includes_In. }
    destruct plan; simpl;
      unfold CoworkingSpaces.rent_input_shown; simpl;
      rewrite filter_out_appended by done;
      (split; [done|]); (split; [done|]);
      (split; [by intros []|]); (split; [apply Hshown | exact Hgone]).
  - intros [[v d e] imgs rows sub ch] plan Hnot; destruct v; simpl in Hnot.
    cbv zeta.
    assert (forall l, includes plan (l ++ [plan]) = true) as Hshown.
    { intros l. apply includes_In, in_app_iff. right. by left. }
    assert (includes plan selectedRentalPlans0 = false) as Hgone.
    { apply not_true_is_false. by rewrite includes_In. }
    destruct plan; simpl;
      unfold RawSpaceLab.rent_input_shown; simpl;
      rewrite filter_out_appended by done;
      (split; [done|]); (split; [done|]);
      (split; [by intros []|]); (split; [apply Hshown | exact Hgone]).
Qed.

Lemma check_then_uncheck_restores_selection_witness :
  let w := coworking_component [js "u1"]
             (coworking_values [Monthly] (Num 10) (Num 4) (Some (Num 5000))) in
  let w1 := run (CoworkingSpaces.onCheckedChange Weekly (Checked true)) w in
  let w2 := run (CoworkingSpaces.onCheckedChange Weekly (Checked false)) w1 in
  CoworkingSpaces.FormValues.selectedRentalPlans (values (CoworkingSpaces.form w2))
  = [Monthly]
  /\ CoworkingSpaces.rent_input_shown Weekly w1 = true
  /\ CoworkingSpaces.rent_input_shown Weekly w2 = false.
Proof.
  cbv zeta.
  pose proof (proj1 (proj2 check_then_uncheck_restores_selection)
                (coworking_component [js "u1"]
                   (coworking_values [Monthly] (Num 10) (Num 4) (Some (Num 5000))))
                Weekly) as Hround.
  cbv zeta in Hround.
  destruct Hround as (Hsel & _ & _ & Hshown & Hgone).
  - simpl. intros [H | []]. discriminate H.
  - split; [exact Hsel|]. split; [exact Hshown | exact Hgone].
Defined.

Lemma in_filter_neq (plan q : RentalPlanName) (l : list RentalPlanName) :
  q <> plan -> In q l -> In q (List.filter (fun p => plan_neq p plan) l).
Proof.
  intros Hne Hin. apply filter_In. split; [done|].
  unfold plan_neq. by apply negb_true_iff, bool_decide_eq_false.
Qed.

(** X16: in the coworking and raw-space forms, 'no price is kept for a
    plan that is not selected' is an invariant of editing: it survives
    every click on a plan checkbox, checked or unchecked, and every entry
    in a price input, which is rendered only while its plan is
    selected. *)
Theorem unselected_plans_keep_no_price :
  (forall (w : CoworkingSpaces.Component),
      no_orphan_price (values (CoworkingSpaces.form w)) ->
      (forall plan checked,
          no_orphan_price
            (values (CoworkingSpaces.form
                       (run (CoworkingSpaces.onCheckedChange plan checked) w))))
      /\ (forall to_number plan text,
             CoworkingSpaces.rent_input_shown plan w = true ->
             no_orphan_price
               (values (CoworkingSpaces.form
                          (run (CoworkingSpaces.onRentChange to_number plan text) w)))))
  /\
  (forall (w : RawSpaceLab.Component),
      no_orphan_price (values (RawSpaceLab.form w)) ->
      (forall plan checked,
          no_orphan_price
            (values (RawSpaceLab.form
                       (run (RawSpaceLab.onCheckedChange plan checked) w))))
      /\ (forall plan valueAsNumber,
             RawSpaceLab.rent_input_shown plan w = true ->
             no_orphan_price
               (values (RawSpaceLab.form
                          (run (RawSpaceLab.onRentChange plan valueAsNumber) w))))).
Proof.
  split.
  - intros w Hinv. split.
    + intros plan checked q Hq.
      destruct (is_checked checked) eqn:Hc.
      * assert (~ In q (CoworkingSpaces.FormValues.selectedRentalPlans
                          (values (CoworkingSpaces.form w)))) as Hq'.
        { intros Hin. apply Hq.
          destruct w as [[v d e] imgs sub ch]; destruct v.
          destruct checked as [[]|]; try discriminate;
            simpl in *; apply in_app_iff; by left. }
        rewrite <- (Hinv q Hq').
        destruct w as [[v d e] imgs sub ch]; destruct v.
        by destruct checked as [[]|]; try discriminate; destruct q.
      * destruct checked as [[]|]; try discriminate.
        destruct (coworking_uncheck_clears_price w plan) as (Hsel & _ & Hnone & Hother).
        cbv zeta in Hsel, Hnone, Hother.
        destruct (decide (q = plan)) as [-> | Hne]; [exact Hnone|].
        rewrite (Hother q Hne). apply Hinv. intros Hin. apply Hq.
        change (In q (CoworkingSpaces.FormValues.selectedRentalPlans
                        (values (CoworkingSpaces.form
                                   (run (CoworkingSpaces.onCheckedChange plan
                                           (Checked false)) w))))).
        rewrite Hsel. by apply in_filter_neq.
    + intros to_number plan text Hshown q Hq.
      apply includes_In in Hshown.
      assert (q <> plan) as Hne.
      { intros ->. apply Hq.
        destruct w as [[v d e] imgs sub ch]; destruct v. by destruct plan. }
      assert (~ In q (CoworkingSpaces.FormValues.selectedRentalPlans
                        (values (CoworkingSpaces.form w)))) as Hq'.
      { intros Hin. apply Hq.
        destruct w as [[v d e] imgs sub ch]; destruct v. by destruct plan. }
      rewrite <- (Hinv q Hq').
      destruct w as [[v d e] imgs sub ch]; destruct v. by destruct plan, q.
  - intros w Hinv. split.
    + intros plan checked q Hq.
      destruct (is_checked checked) eqn:Hc.
      * assert (~ In q (RawSpaceLab.FormValues.selectedRentalPlans
                          (values (RawSpaceLab.form w)))) as Hq'.
        { intros Hin. apply Hq.
          destruct w as [[v d e] imgs rows sub ch]; destruct v.
          destruct checked as [[]|]; try discriminate;
            simpl in *; apply in_app_iff; by left. }
        rewrite <- (Hinv q Hq').
        destruct w as [[v d e] imgs rows sub ch]; destruct v.
        by destruct checked as [[]|]; try discriminate; destruct q.
      * destruct checked as [[]|]; try discriminate.
        destruct (raw_uncheck_clears_price w plan) as (Hsel & _ & Hnone & Hother).
        cbv zeta in Hsel, Hnone, Hother.
        destruct (decide (q = plan)) as [-> | Hne]; [exact Hnone|].
        rewrite (Hother q Hne). apply Hinv. intros Hin. apply Hq.
        change (In q (RawSpaceLab.FormValues.selectedRentalPlans
                        (values (RawSpaceLab.form
                                   (run (RawSpaceLab.onCheckedChange plan
                                           (Checked false)) w))))).
        rewrite Hsel. by apply in_filter_neq.
    + intros plan valueAsNumber Hshown q Hq.
      apply includes_In in Hshown.
      assert (q <> plan) as Hne.
      { intros ->. apply Hq.
        destruct w as [[v d e] imgs rows sub ch]; destruct v. by destruct plan. }
      assert (~ In q (RawSpaceLab.FormValues.selectedRentalPlans
                        (values (RawSpaceLab.form w)))) as Hq'.
      { intros Hin. apply Hq.
        destruct w as [[v d e] imgs rows sub ch]; destruct v. by destruct plan. }
      rewrite <- (Hinv q Hq').
      destruct w as [[v d e] imgs rows sub ch]; destruct v. by destruct plan, q.
Qed.

Lemma unselected_plans_keep_no_price_witness :
  let w := coworking_component [js "u1"]
             (coworking_values [Monthly] (Num 10) (Num 4) (Some (Num 5000))) in
  no_orphan_price
    (values (CoworkingSpaces.form
               (run (CoworkingSpaces.onCheckedChange Monthly (Checked false)) w))).
Proof.
  cbv zeta.
  apply (proj1 (proj1 unselected_plans_keep_no_price
                  (coworking_component [js "u1"]
                     (coworking_values [Monthly] (Num 10) (Num 4) (Some (Num 5000))))
                  ltac:(intros [] Hnot; try reflexivity;
                        exfalso; apply Hnot; simpl; auto))).
Defined.

Section RemoveImage.
Implicit Types (url u : jsstring) (l : list jsstring).

Lemma in_without url u l :
  In u (List.filter (fun image => negb (str_eq image url)) l)
  <-> In u l /\ u <> url.
Proof.
  rewrite filter_In. unfold str_eq.
  rewrite negb_true_iff, bool_decide_eq_false. tauto.
Qed.

Lemma without_absent url l :
  ~ In url l -> List.filter (fun image => negb (str_eq image url)) l = l.
Proof.
  intros Hnot. apply filter_all. intros u Hu.
  unfold str_eq. apply negb_true_iff, bool_decide_eq_false. by intros ->.
Qed.

Lemma without_sublist (f : jsstring -> bool) l : sublist (List.filter f l) l.
Proof.
  induction l as [|u l IH]; simpl; [constructor|].
  destruct (f u); by constructor.
Qed.
End RemoveImage.

Lemma not_same_url (url u : jsstring) : negb (str_eq u url) = true <-> u <> url.
Proof. unfold str_eq. by rewrite negb_true_iff, bool_decide_eq_false. Qed.

(** X17: removing an image by its URL leaves exactly the images that
    differ from that URL, each as many times and in the order it was
    there (the list filtered by [u <> url]): every occurrence of the URL
    is dropped and nothing else.  The same list is written to the
    component's cell and to the form's [images] field, and nothing
    changes when the URL is not in the list. *)
Theorem remove_image_drops_every_occurrence :
  (forall (w : BioAlliedLabs.Component) url,
      let w' := run (BioAlliedLabs.onRemove url) w in
      BioAlliedLabs.images w' = filter (fun u => u <> url) (BioAlliedLabs.images w)
      /\ BioAlliedLabs.FormValues.images (values (BioAlliedLabs.form w'))
         = BioAlliedLabs.images w'
      /\ (forall u, In u (BioAlliedLabs.images w')
                    <-> In u (BioAlliedLabs.images w) /\ u <> url)
      /\ sublist (BioAlliedLabs.images w') (BioAlliedLabs.images w)
      /\ (~ In url (BioAlliedLabs.images w) ->
          BioAlliedLabs.images w' = BioAlliedLabs.images w))
  /\
  (forall (w : CoworkingSpaces.Component) url,
      let w' := run (CoworkingSpaces.onRemove url) w in
      CoworkingSpaces.images w' = filter (fun u => u <> url) (CoworkingSpaces.images w)
      /\ CoworkingSpaces.FormValues.images (values (CoworkingSpaces.form w'))
         = CoworkingSpaces.images w'
      /\ (forall u, In u (CoworkingSpaces.images w')
                    <-> In u (CoworkingSpaces.images w) /\ u <> url)
      /\ sublist (CoworkingSpaces.images w') (CoworkingSpaces.images w)
      /\ (~ In url (CoworkingSpaces.images w) ->
          CoworkingSpaces.images w' = CoworkingSpaces.images w))
  /\
  (forall (w : RawSpaceLab.Component) url,
      let w' := run (RawSpaceLab.onRemove url) w in
      RawSpaceLab.images w' = filter (fun u => u <> url) (RawSpaceLab.images w)
      /\ RawSpaceLab.FormValues.images (values (RawSpaceLab.form w'))
         = RawSpaceLab.images w'
      /\ (forall u, In u (RawSpaceLab.images w')
                    <-> In u (RawSpaceLab.images w) /\ u <> url)
      /\ sublist (RawSpaceLab.images w') (RawSpaceLab.images w)
      /\ (~ In url (RawSpaceLab.images w) ->
          RawSpaceLab.images w' = RawSpaceLab.images w)).
Proof.
  split; [|split].
  - intros [[v d e] imgs rows sub ch] url; destruct v; cbv zeta; simpl.
    split; [apply filter_bool_prop, not_same_url|].
    split; [done|]. split; [intros u; apply in_without|].
    split; [apply without_sublist | apply without_absent].
  - intros [[v d e] imgs sub ch] url; destruct v; cbv zeta; simpl.
    split; [apply filter_bool_prop, not_same_url|].
    split; [done|]. split; [intros u; apply in_without|].
    split; [apply without_sublist | apply without_absent].
  - intros [[v d e] imgs rows sub ch] url; destruct v; cbv zeta; simpl.
    split; [apply filter_bool_prop, not_same_url|].
    split; [done|]. split; [intros u; apply in_without|].
    split; [apply without_sublist | apply without_absent].
Qed.

Lemma remove_image_drops_every_occurrence_witness :
  let w := coworking_component [js "u1"; js "u2"; js "u1"]
             (coworking_values [] (Num 0) (Num 0) None) in
  CoworkingSpaces.images (run (CoworkingSpaces.onRemove (js "u3")) w)
  = [js "u1"; js "u2"; js "u1"]
  /\ CoworkingSpaces.images (run (CoworkingSpaces.onRemove (js "u2")) w)
     = filter (fun u => u <> js "u2") [js "u1"; js "u2"; js "u1"].
Proof.
  cbv zeta. split.
  - apply (proj1 (proj2 remove_image_drops_every_occurrence)
             (coworking_component [js "u1"; js "u2"; js "u1"]
                (coworking_values [] (Num 0) (Num 0) None))
             (js "u3")).
    simpl. intros [H | [H | [H | []]]]; discriminate H.
  - apply (proj1 (proj2 remove_image_drops_every_occurrence)
             (coworking_component [js "u1"; js "u2"; js "u1"]
                (coworking_values [] (Num 0) (Num 0) None))
             (js "u2")).
Defined.

(* ===================================================================== *)
(** ** Further properties: the coworking number inputs *)
(* ===================================================================== *)

Lemma input_value_not_negative (to_number : jsstring -> number) (text : jsstring) :
  not_negative (CoworkingSpaces.input_value to_number text).
Proof.
  unfold CoworkingSpaces.input_value.
  destruct (is_empty text); simpl; [lia|].
  destruct (to_number text) as [|z]; simpl; [done | lia].
Qed.

Lemma truthy_not_negative_positive (n : number) :
  truthy n = true -> not_negative n -> positive n.
Proof.
  destruct n as [|z]; simpl; [done|].
  intros Hz Hnn. apply negb_true_iff, Z.eqb_neq in Hz. lia.
Qed.

(** The entries of a payload's [rentalPlans], form by form. *)
Lemma payload_rental_plans_aux :
  (forall onSubmit values (w : BioAlliedLabs.Component) data,
      BioAlliedLabs.submitted (run (BioAlliedLabs.handleFormSubmit onSubmit values) w)
      = BioAlliedLabs.submitted w ++ [data] ->
      Forall (fun rp => duration rp = name rp
                        /\ truthy (price rp) = true
                        /\ rent_field values (name rp) = Some (price rp))
             (BioAlliedLabs.Submission.rentalPlans data))
  /\
  (forall onSubmit values (w : CoworkingSpaces.Component) data,
      CoworkingSpaces.submitted (run (CoworkingSpaces.handleFormSubmit onSubmit values) w)
      = CoworkingSpaces.submitted w ++ [data] ->
      Forall (fun rp => duration rp = name rp
                        /\ truthy (price rp) = true
                        /\ rent_field values (name rp) = Some (price rp))
             (CoworkingSpaces.Submission.rentalPlans data))
  /\
  (forall onSubmit values (w : RawSpaceLab.Component) data,
      RawSpaceLab.submitted (run (RawSpaceLab.handleFormSubmit onSubmit values) w)
      = RawSpaceLab.submitted w ++ [data] ->
      Forall (fun rp => duration rp = name rp
                        /\ truthy (price rp) = true
                        /\ rent_field values (name rp) = Some (price rp))
             (RawSpaceLab.Submission.rentalPlans data)).
Proof.
  split; [|split]; intros onSubmit values w data Hsub.
  - apply bio_submit_inv in Hsub as (_ & _ & _ & Hrent & -> & _).
    by apply (rentalPlans_entries (RF := BioAlliedLabs.rent_fields)).
  - apply coworking_submit_inv in Hsub as (_ & _ & Hrent & _ & _ & -> & _).
    by apply (rentalPlans_entries (RF := CoworkingSpaces.rent_fields)).
  - apply raw_submit_inv in Hsub as (_ & _ & _ & Hrent & -> & _).
    by apply (rentalPlans_entries (RF := RawSpaceLab.rent_fields)).
Qed.

(** X18: whatever the text typed and however [Number] reads it, a
    coworking number input stores [NaN] or a number that is not negative;
    so a coworking payload whose price fields were all written by the
    price inputs carries only prices above zero. *)
Theorem coworking_inputs_never_store_negatives :
  (forall to_number text,
      not_negative (CoworkingSpaces.input_value to_number text))
  /\
  (forall to_number plan text (w : CoworkingSpaces.Component),
      rent_field
        (values (CoworkingSpaces.form
                   (run (CoworkingSpaces.onRentChange to_number plan text) w)))
        plan
      = Some (CoworkingSpaces.input_value to_number text))
  /\
  (forall (to_number : jsstring -> number) onSubmit values
          (w : CoworkingSpaces.Component) data,
      (forall plan,
          rent_field values plan = None
          \/ exists text,
               rent_field values plan
               = Some (CoworkingSpaces.input_value to_number text)) ->
      CoworkingSpaces.submitted (run (CoworkingSpaces.handleFormSubmit onSubmit values) w)
      = CoworkingSpaces.submitted w ++ [data] ->
      Forall (fun rp => positive (price rp))
             (CoworkingSpaces.Submission.rentalPlans data)).
Proof.
  split; [apply input_value_not_negative|]. split.
  - intros to_number plan text [[v d e] imgs sub ch]; destruct v. by destruct plan.
  - intros to_number onSubmit values w data Hinputs Hsub.
    apply (proj1 (proj2 payload_rental_plans_aux)) in Hsub.
    eapply Forall_impl; [exact Hsub|].
    intros rp (_ & Ht & Hfield). simpl in Hfield.
    apply truthy_not_negative_positive; [done|].
    destruct (Hinputs (name rp)) as [Hnone | [text Htext]].
    + rewrite Hnone in Hfield. discriminate.
    + rewrite Htext in Hfield. injection Hfield as <-.
      apply input_value_not_negative.
Qed.

Lemma coworking_inputs_never_store_negatives_witness :
  let to_number := fun _ : jsstring => Num 5000 in
  let values :=
    coworking_values [Monthly] (Num 10) (Num 4)
      (Some (CoworkingSpaces.input_value to_number (js "5000"))) in
  Forall (fun rp => positive (price rp))
         (CoworkingSpaces.Submission.rentalPlans
            (CoworkingSpaces.submissionData [js "u1"] values)).
Proof.
  cbv zeta.
  apply (proj2 (proj2 coworking_inputs_never_store_negatives)
           (fun _ : jsstring => Num 5000) (fun _ => Fulfilled)
           (coworking_values [Monthly] (Num 10) (Num 4)
              (Some (CoworkingSpaces.input_value (fun _ => Num 5000) (js "5000"))))
           (coworking_component [js "u1"]
              (coworking_values [] (Num 0) (Num 0) None))).
  - intros []; simpl; first [by left | right; by exists (js "5000")].
  - reflexivity.
Defined.
